(** * Voice recorder: a shallow embedding of the repository's Python code

    Source files embedded here:
      - [utils.py]             ([format_time])
      - [waveform_display.py]  ([WaveformDisplay])
      - [audio_recorder.py]    ([AudioRecorder])
      - [file_manager.py]      ([FileManager])

    Conventions.
      - A Python [int] is a [Z].  A finite Python [float] is the rational [Q]
        it denotes.  In [waveform_display.py], where bar heights and the
        stored amplitude depend on how a product rounds, products and
        quotients round to the nearest float ([Float.round]); [int], [min]
        and comparisons are exact on floats.  In [utils.py] and for the
        volume level the operations on floats ([//], [%], the mean) are
        modelled by their exact counterparts.
      - [bytes] are [list byte], [str] is [string].
      - Library calls ([wave], [shutil], [os.path], [numpy], [random],
        [datetime]) are given small executable models in their own modules.
        Whatever a library reads from the outside world (the clock, the random
        generator, the audio device, the file system) is an explicit argument. *)

From Stdlib Require Import ZArith QArith Qround Qpower Lia Lqa List.
From Stdlib.Strings Require Import String Ascii Byte.
From stdpp Require Import base option list sorting strings gmap.

Local Open Scope Z_scope.

(** ** Python numbers *)

Module Py.

(** [x // y] on floats, for [y > 0]: the floor of the quotient. *)
Definition floordiv (x y : Q) : Q := inject_Z (Qfloor (x / y)).

(** [x % y] on floats, for [y > 0]: the result has the sign of [y]. *)
Definition fmod (x y : Q) : Q := (x - y * inject_Z (Qfloor (x / y)))%Q.

(** [int(x)]: truncation towards zero. *)
Definition int (x : Q) : Z :=
  if Qle_bool 0 x then Qfloor x else Qceiling x.

(** [min(a, b)]: the first argument wins unless the second is smaller. *)
Definition min (a b : Q) : Q := if Qlt_le_dec b a then b else a.

(** [max(a, b)] and [min(a, b)] on ints. *)
Definition maxi (a b : Z) : Z := if b >? a then b else a.
Definition mini (a b : Z) : Z := if b <? a then b else a.

(** [a < b] on floats. *)
Definition lt (a b : Q) : bool := negb (Qle_bool b a).

(** [l.sort(key=key, reverse=True)]: descending keys; the sort is stable,
    so items with equal keys keep their order. *)
Fixpoint insert_desc {A : Type} (key : A -> Q) (x : A) (l : list A) : list A :=
  match l with
  | [] => [x]
  | y :: l' => if lt (key x) (key y) then y :: insert_desc key x l' else x :: y :: l'
  end.

Fixpoint sort_desc {A : Type} (key : A -> Q) (l : list A) : list A :=
  match l with
  | [] => []
  | x :: l' => insert_desc key x (sort_desc key l')
  end.

(** [a] may stand before [b] in descending order: its key is not smaller. *)
Definition desc {A : Type} (key : A -> Q) (a b : A) : Prop := (key b <= key a)%Q.

(** [str(n)] for a natural number: its decimal digits. *)
Definition digit (d : Z) : ascii := ascii_of_nat (48 + Z.to_nat d).

Fixpoint digits (fuel : nat) (n : Z) (acc : string) : string :=
  let acc' := String (digit (n mod 10)) acc in
  match fuel with
  | O => acc'
  | S fuel' => if n / 10 =? 0 then acc' else digits fuel' (n / 10) acc'
  end.

Definition str_nat (n : Z) : string := digits (Z.to_nat (Z.log2 n)) n EmptyString.

(** Left padding with ['0'] up to [width] characters. *)
Fixpoint zeros (k : nat) : string :=
  match k with O => EmptyString | S k' => String "0" (zeros k') end.

Definition zfill (width : nat) (s : string) : string :=
  zeros (width - String.length s) +:+ s.

(** The format spec [0<width>d]: the sign, then the digits padded with
    zeros so that the whole field has at least [width] characters. *)
Definition format_0d (width : nat) (n : Z) : string :=
  if n <? 0 then String "-" (zfill (width - 1) (str_nat (- n)))
  else zfill width (str_nat n).

(** The tens and units digits of [n], in front of [rest]. *)
Definition two_digits (n : Z) (rest : string) : string :=
  String (digit (n / 10)) (String (digit (n mod 10)) rest).

(** [str(n)] for an int. *)
Definition str (n : Z) : string := format_0d 0 n.

Definition is_digit (c : ascii) : bool :=
  let n := nat_of_ascii c in (48 <=? n)%nat && (n <=? 57)%nat.

Fixpoint all_digits (s : string) : bool :=
  match s with
  | EmptyString => true
  | String c s' => is_digit c && all_digits s'
  end.

End Py.

Arguments Py.digit : simpl never.
Arguments Py.is_digit : simpl never.

(** ** Python floats *)

Module Float.

(** A Python [float] is an IEEE 754 binary64 number.  A finite float is
    represented by the rational it denotes, and an operation on floats is
    the exact operation followed by [round], the rounding to the nearest
    float.  Results of magnitude [2^1024] and above, where Python gives an
    infinity or raises [OverflowError], are not modelled: the properties
    that depend on a rounded result bound their inputs so that none
    arises. *)

(** The exponent of a positive number: the [e] with [2^e <= x < 2^(e+1)]. *)
Definition exponent (x : Q) : Z :=
  if Qle_bool 1 x then Z.log2 (Qfloor x) else - Z.log2_up (Qceiling (/ x)).

(** Rounding to the nearest integer, a tie to the even one. *)
Definition rint (y : Q) : Z :=
  let f := Qfloor y in
  match (y - inject_Z f ?= 1 # 2)%Q with
  | Lt => f
  | Gt => f + 1
  | Eq => if Z.even f then f else f + 1
  end.

(** The least exponent of a normal number. *)
Definition emin : Z := -1022.

(** The spacing of the floats around a positive [x]: 52 fraction bits
    under the leading one, and the fixed spacing [2^-1074] of the
    subnormal numbers below [2^emin]. *)
Definition ulp (x : Q) : Q := (2 ^ (Z.max (exponent x) emin - 52))%Q.

Definition nearest (x : Q) : Q := (inject_Z (rint (x / ulp x)) * ulp x)%Q.

(** The float nearest to [x], a tie going to the even significand. *)
Definition round (x : Q) : Q :=
  match (x ?= 0)%Q with
  | Eq => 0
  | Gt => nearest x
  | Lt => - nearest (- x)
  end.

(** [float(n)] for an int, [x * y] on floats, and [x / y] on floats or on
    ints (the quotient of two ints is rounded once). *)
Definition of_int (n : Z) : Q := round (inject_Z n).
Definition mul (x y : Q) : Q := round (x * y).
Definition div (x y : Q) : Q := round (x / y).

End Float.

Arguments Float.round : simpl never.
Arguments Float.of_int : simpl never.
Arguments Float.mul : simpl never.
Arguments Float.div : simpl never.

(** ** utils.py *)

Module Utils.

Definition minutes_of (seconds : Q) : Z := Py.int (Py.floordiv seconds 60).
Definition seconds_of (seconds : Q) : Z := Py.int (Py.fmod seconds 60).
Definition tenths_of (seconds : Q) : Z :=
  Py.int (Py.fmod (Py.fmod seconds 60 * 10) 10).

(** [format_time(seconds)]:
    [minutes = int(seconds // 60); seconds = seconds % 60;
     tenths = int((seconds * 10) % 10);
     return f"{minutes:02d}:{int(seconds):02d}.{tenths}"]. *)
Definition format_time (seconds : Q) : string :=
  let minutes := Py.int (Py.floordiv seconds 60) in
  let seconds := Py.fmod seconds 60 in
  let tenths := Py.int (Py.fmod (seconds * 10) 10) in
  Py.format_0d 2 minutes +:+ ":" +:+ Py.format_0d 2 (Py.int seconds)
    +:+ "." +:+ Py.str tenths.

End Utils.

(** ** The [random] module *)

Module Random.

(** [random.randint(a, b)] for [a <= b]: some integer of [a .. b].  The
    generator's raw output [e] selects which one; every integer of the
    range is selected by some [e]. *)
Definition randint (a b : Z) (e : Z) : Z := a + e mod (b - a + 1).

End Random.

(** ** waveform_display.py *)

Module Waveform.

(** What the canvas holds: the dashed grid lines and the bars. *)
Inductive item : Type :=
| Line (x0 y0 x1 y1 : Q)
| Rectangle (x0 y0 x1 y1 : Z).

(** The fields of [WaveformDisplay] that [draw_waveform] reads or writes.
    [heights] is only assigned by [start_animation] and [reset]; before
    that the attribute is absent, which is modelled as the empty list
    (reading either raises). *)
Record t : Type := mk {
  height : Z;
  width : Z;
  amplitude : Q;
  bars : Z;
  bar_width : Z;
  bar_gap : Z;
  animation_running : bool;
  heights : list Z
}.

Definition set_heights (w : t) (hs : list Z) : t :=
  mk (height w) (width w) (amplitude w) (bars w) (bar_width w) (bar_gap w)
     (animation_running w) hs.

Definition set_amplitude (w : t) (a : Q) : t :=
  mk (height w) (width w) a (bars w) (bar_width w) (bar_gap w)
     (animation_running w) (heights w).

Definition set_animation_running (w : t) (b : bool) : t :=
  mk (height w) (width w) (amplitude w) (bars w) (bar_width w) (bar_gap w)
     b (heights w).

(** [for i in range(5): y = self.height * (i + 1) / 6;
    self.create_line(0, y, self.width, y, ...)] *)
Definition grid_lines (w : t) : list item :=
  map (fun i : nat =>
         let y := Float.div (inject_Z (height w * (Z.of_nat i + 1))) 6 in
         Line 0 y (inject_Z (width w)) y)
      (seq 0 5).

(** [int(self.height * 0.8)] *)
Definition max_height (w : t) : Z :=
  Py.int (Float.mul (Float.of_int (height w)) (Float.round (8 # 10))).

(** [max(5, int(self.amplitude * 20))] *)
Definition max_diff (w : t) : Z := Py.maxi 5 (Py.int (Float.mul (amplitude w) 20)).

(** The height of bar [i], given the heights stored so far.  [None] is a
    raised [IndexError]. *)
Definition bar_height (w : t) (e : Z) (i : nat) (hs : list Z) : option Z :=
  match i with
  | S j =>
      match hs !! j with
      | Some prev_height =>
          let random_factor := Random.randint (- max_diff w) (max_diff w) e in
          Some (Py.maxi 2 (Py.mini (max_height w) (prev_height + random_factor)))
      | None => None
      end
  | O =>
      let bar_height :=
        Py.int (Float.mul (Float.mul (amplitude w) (Float.of_int (height w)))
                          (Float.round (8 # 10))) in
      Some (Py.maxi 2 (Py.mini (max_height w) bar_height))
  end.

(** [self.create_rectangle(start_x + i * (bar_width + bar_gap), y,
    start_x + i * (bar_width + bar_gap) + bar_width, y + bar_height, ...)]
    with [y = (self.height // 2) - (bar_height // 2)]. *)
Definition bar_rectangle (w : t) (start_x : Z) (i : nat) (bar_height : Z) : item :=
  let y := height w / 2 - bar_height / 2 in
  let x := start_x + Z.of_nat i * (bar_width w + bar_gap w) in
  Rectangle x y (x + bar_width w) (y + bar_height).

(** The body of [for i in range(bars_to_draw)], over the remaining
    indices [is]; [rng i] is the generator's output at bar [i]. *)
Fixpoint draw_bars (w : t) (start_x : Z) (rng : nat -> Z) (indices : list nat)
         (hs : list Z) (canvas : list item) : option (list Z * list item) :=
  match indices with
  | [] => Some (hs, canvas)
  | i :: rest =>
      if negb (animation_running w) then
        draw_bars w start_x rng rest hs (canvas ++ [bar_rectangle w start_x i 2])
      else
        match bar_height w (rng i) i hs with
        | None => None
        | Some h =>
            if (i <? length hs)%nat then
              draw_bars w start_x rng rest (<[i := h]> hs)
                        (canvas ++ [bar_rectangle w start_x i h])
            else None
        end
  end.

Definition bars_to_draw (w : t) : Z :=
  let available_width := width w - 20 in
  let max_bars := available_width / (bar_width w + bar_gap w) in
  Py.mini (bars w) max_bars.

(** [draw_waveform(self)]: the updated widget and the canvas contents,
    or [None] when an exception is raised. *)
Definition draw_waveform (w : t) (rng : nat -> Z) : option (t * list item) :=
  let n := bars_to_draw w in
  let start_x := (width w - n * (bar_width w + bar_gap w)) / 2 in
  match draw_bars w start_x rng (seq 0 (Z.to_nat n)) (heights w) (grid_lines w) with
  | Some (hs, canvas) => Some (set_heights w hs, canvas)
  | None => None
  end.

(** [update_amplitude(self, amplitude)]:
    [self.amplitude = min(1.0, amplitude * 1.5)] *)
Definition update_amplitude (w : t) (amplitude : Q) : t :=
  set_amplitude w (Py.min 1 (Float.mul amplitude (15 # 10))).

(** [start_animation(self)], without the thread it spawns. *)
Definition start_animation (w : t) : t :=
  set_heights (set_animation_running w true) (repeat 2 (Z.to_nat (bars w))).

(** [__init__(self, parent, width, height)] before its first draw;
    [width] is the width given or, when none is given, the parent's. *)
Definition init (width height : Z) : t :=
  mk height width 0 60 8 2 false [].

(** The widgets considered: the height is a pixel count that fits 32 bits
    and the amplitude has magnitude at most 2, as has every amplitude that
    [update_amplitude] stores for a level of magnitude at most 1.  No float
    product of [draw_waveform] overflows on such a widget. *)
Definition in_range (w : t) : Prop :=
  - 2 ^ 31 <= height w < 2 ^ 31 /\ (- 2 <= amplitude w)%Q /\ (amplitude w <= 2)%Q.

(** The heights of the bars on a canvas, in drawing order. *)
Fixpoint drawn_heights (canvas : list item) : list Z :=
  match canvas with
  | [] => []
  | Line _ _ _ _ :: rest => drawn_heights rest
  | Rectangle _ y0 _ y1 :: rest => (y1 - y0) :: drawn_heights rest
  end.

(** A run of bar heights produced by the animation after a bar of height
    [prev]: each one is the clamped sum of its predecessor and a draw of
    [random.randint(-max_diff, max_diff)]. *)
Inductive walk (w : t) : Z -> list Z -> Prop :=
| walk_nil (prev : Z) : walk w prev []
| walk_cons (prev e : Z) (rest : list Z) :
    let h := Py.maxi 2 (Py.mini (max_height w)
               (prev + Random.randint (- max_diff w) (max_diff w) e)) in
    walk w h rest -> walk w prev (h :: rest).

Definition set_width (w : t) (x : Z) : t :=
  mk (height w) x (amplitude w) (bars w) (bar_width w) (bar_gap w)
     (animation_running w) (heights w).

(** The widget together with what its canvas shows. *)
Definition widget : Type := t * list item.

(** [__init__(self, parent, width, height)]: the fields, then the first
    draw. *)
Definition create (width height : Z) (rng : nat -> Z) : option widget :=
  draw_waveform (init width height) rng.

(** [on_resize(self, event)]: events of width 1 or less are ignored. *)
Definition on_resize (s : widget) (event_width : Z) (rng : nat -> Z) : option widget :=
  if event_width >? 1 then draw_waveform (set_width s.1 event_width) rng
  else Some s.

(** [stop_animation(self)] *)
Definition stop_animation (w : t) (rng : nat -> Z) : option widget :=
  draw_waveform (set_amplitude (set_animation_running w false) 0) rng.

(** [reset(self)]: [stop_animation], then the heights and the amplitude
    are set again and the canvas is drawn a second time. *)
Definition reset (w : t) (rng rng' : nat -> Z) : option widget :=
  match stop_animation w rng with
  | Some (w1, _) =>
      draw_waveform
        (set_amplitude (set_heights w1 (repeat 2 (Z.to_nat (bars w1)))) 0) rng'
  | None => None
  end.

(** A call of one of the widget's methods, with the generator outputs
    available to each [draw_waveform] it runs.  A frame of the animation
    loop is a [DrawWaveform]. *)
Inductive call : Type :=
| OnResize (event_width : Z) (rng : nat -> Z)
| DrawWaveform (rng : nat -> Z)
| UpdateAmplitude (amplitude : Q)
| StartAnimation
| StopAnimation (rng : nat -> Z)
| Reset (rng rng' : nat -> Z).

Definition call_method (s : widget) (c : call) : option widget :=
  match c with
  | OnResize event_width rng => on_resize s event_width rng
  | DrawWaveform rng => draw_waveform s.1 rng
  | UpdateAmplitude amplitude => Some (update_amplitude s.1 amplitude, s.2)
  | StartAnimation => Some (start_animation s.1, s.2)
  | StopAnimation rng => stop_animation s.1 rng
  | Reset rng rng' => reset s.1 rng rng'
  end.

(** A call with a level the recorder reports: of magnitude at most 1. *)
Definition call_in_range (c : call) : Prop :=
  match c with
  | UpdateAmplitude amplitude => (- 1 <= amplitude)%Q /\ (amplitude <= 1)%Q
  | _ => True
  end.

(** Method calls made one after the other; [None] as soon as one raises. *)
Fixpoint call_methods (s : widget) (cs : list call) : option widget :=
  match cs with
  | [] => Some s
  | c :: rest =>
      match call_method s c with
      | Some s' => call_methods s' rest
      | None => None
      end
  end.

(** A widget is constructed and its methods are called. *)
Definition session (width height : Z) (rng : nat -> Z) (cs : list call)
  : option widget :=
  match create width height rng with
  | Some s => call_methods s cs
  | None => None
  end.

(** A bar lies on a canvas of the given size, at least 10 pixels from its
    left and right borders. *)
Definition bar_inside (width height : Z) (it : item) : bool :=
  match it with
  | Line _ _ _ _ => true
  | Rectangle x0 y0 x1 y1 =>
      (10 <=? x0) && (x0 <=? x1) && (x1 <=? width - 10)
      && (0 <=? y0) && (y0 <? y1) && (y1 <=? height)
  end.

(** The horizontal extents of the bars on a canvas, in drawing order. *)
Fixpoint bar_spans (canvas : list item) : list (Z * Z) :=
  match canvas with
  | [] => []
  | Line _ _ _ _ :: rest => bar_spans rest
  | Rectangle x0 _ x1 _ :: rest => (x0, x1) :: bar_spans rest
  end.

End Waveform.

(** ** Paths and the file system *)

Module Os.

(** A file-system entry.  Regular files carry their content and their
    modification time ([st_mtime], a float). *)
Inductive node : Type :=
| File (content : list byte) (mtime : Q)
| Dir.

(** The file system maps path strings to entries.  A key is the canonical
    spelling of a path ([canonical] below: no [.] or [..] components, no
    doubled or trailing slashes), and a look-up takes its argument as it is
    spelled.  So the model agrees with the operating system on paths that
    are spelled canonically, and the properties that depend on a path
    being absent, or on not being a directory, assume that spelling.  There
    are no links, a relative path and an absolute one never name the same
    entry, and every operation is permitted.  A path made of slashes only
    is the root directory, which always exists. *)
Abbreviation filesystem := (gmap string node).

Definition is_slash (c : ascii) : bool := Ascii.eqb c "/".

Definition is_empty (s : string) : bool :=
  match s with EmptyString => true | String _ _ => false end.

(** [p[:i], p[i:]] for [i = p.rfind('/') + 1]. *)
Fixpoint split_last (p : string) : string * string :=
  match p with
  | EmptyString => (EmptyString, EmptyString)
  | String c p' =>
      let (head, tail) := split_last p' in
      if is_empty head then
        if is_slash c then (String c EmptyString, p') else (EmptyString, String c tail)
      else (String c head, tail)
  end.

(** [s.rstrip('/')] *)
Fixpoint rstrip_slash (s : string) : string :=
  match s with
  | EmptyString => EmptyString
  | String c s' =>
      let r := rstrip_slash s' in
      if is_empty r && is_slash c then EmptyString else String c r
  end.

(** [posixpath.split(p)]: the head loses its trailing slashes unless it
    consists of slashes only. *)
Definition split (p : string) : string * string :=
  let (head, tail) := split_last p in
  (if is_empty (rstrip_slash head) then head else rstrip_slash head, tail).

Definition dirname (p : string) : string := fst (split p).
Definition basename (p : string) : string := snd (split_last p).

Definition startswith_slash (s : string) : bool :=
  match s with String c _ => is_slash c | EmptyString => false end.

Fixpoint endswith_slash (s : string) : bool :=
  match s with
  | EmptyString => false
  | String c EmptyString => is_slash c
  | String _ s' => endswith_slash s'
  end.

(** [s.endswith(suffix)] *)
Fixpoint endswith (s suffix : string) : bool :=
  String.eqb s suffix ||
  match s with EmptyString => false | String _ s' => endswith s' suffix end.

(** [posixpath.join(a, b)] *)
Definition join (a b : string) : string :=
  if startswith_slash b then b
  else if is_empty a || endswith_slash a then a +:+ b
  else a +:+ "/" +:+ b.

Definition is_root (p : string) : bool :=
  negb (is_empty p) && is_empty (rstrip_slash p).

(** [os.path.exists], [os.path.isfile], [os.path.isdir] of a path that is
    spelled canonically. *)
Definition exists_ (fs : filesystem) (p : string) : bool :=
  is_root p || match fs !! p with Some _ => true | None => false end.

Definition isfile (fs : filesystem) (p : string) : bool :=
  match fs !! p with Some (File _ _) => true | _ => false end.

Definition isdir (fs : filesystem) (p : string) : bool :=
  is_root p || match fs !! p with Some Dir => true | _ => false end.

(** [os.path.getmtime] of a regular file. *)
Definition getmtime (fs : filesystem) (p : string) : option Q :=
  match fs !! p with Some (File _ mtime) => Some mtime | _ => None end.

(** [open(p, 'rb').read()] *)
Definition read (fs : filesystem) (p : string) : option (list byte) :=
  match fs !! p with Some (File content _) => Some content | _ => None end.

(** A file can be created in the directory of [p]: the current directory
    when [p] has no directory part, an existing directory otherwise. *)
Definition parent_ok (fs : filesystem) (p : string) : bool :=
  is_empty (dirname p) || isdir fs (dirname p).

(** [open(p, 'wb')] followed by writing [content] and closing, at time
    [now].  [None] is a raised [OSError]. *)
Definition write (fs : filesystem) (p : string) (content : list byte) (now : Q)
  : option filesystem :=
  if isdir fs p || is_empty p || negb (parent_ok fs p) then None
  else Some (<[p := File content now]> fs).

(** [os.remove(p)] *)
Definition remove (fs : filesystem) (p : string) : option filesystem :=
  if isfile fs p then Some (delete p fs) else None.

(** [os.mkdir(p)] *)
Definition mkdir (fs : filesystem) (p : string) : option filesystem :=
  if exists_ fs p || is_empty p || negb (parent_ok fs p) then None
  else Some (<[p := Dir]> fs).

(** [os.makedirs(name)]; the recursion is on the head of [name], which is
    shorter than [name], so [String.length name] is enough fuel. *)
Fixpoint makedirs_fuel (fuel : nat) (fs : filesystem) (name : string)
  : option filesystem :=
  match fuel with
  | O => None
  | S fuel' =>
      let (head, tail) := split name in
      let (head, tail) := if is_empty tail then split head else (head, tail) in
      if negb (is_empty head) && negb (is_empty tail) && negb (exists_ fs head) then
        match makedirs_fuel fuel' fs head with
        | None => None
        | Some fs' => if String.eqb tail "." then Some fs' else mkdir fs' name
        end
      else mkdir fs name
  end.

Definition makedirs (fs : filesystem) (name : string) : option filesystem :=
  makedirs_fuel (S (String.length name)) fs name.

(** [os.listdir(d)] for a directory [d]: the names [n] such that
    [join d n] is an entry.  The order of the result is arbitrary in
    Python; the model lists in the order of the map. *)
Definition listdir (fs : filesystem) (d : string) : option (list string) :=
  if isdir fs d then
    Some (omap (fun kv : string * node =>
                  let n := basename kv.1 in
                  if negb (is_empty n) && String.eqb (join d n) kv.1
                  then Some n else None)
               (map_to_list fs))
  else None.

(** [s] has no path separator. *)
Fixpoint no_slash (s : string) : bool :=
  match s with
  | EmptyString => true
  | String c s' => negb (is_slash c) && no_slash s'
  end.

(** A path component that names an entry: not empty, not [.], not [..]. *)
Definition plain (c : string) : bool :=
  negb (is_empty c) && negb (String.eqb c ".") && negb (String.eqb c "..").

(** [p] is spelled canonically: it is [/], or it is made of components
    that name entries, separated by single slashes, after at most one
    leading slash.  The recursion is on the directory part, which is
    shorter, so [String.length p] is enough fuel. *)
Fixpoint canonical_fuel (fuel : nat) (p : string) : bool :=
  match fuel with
  | O => false
  | S fuel' =>
      String.eqb p "/"
      || (plain (basename p) && String.eqb (join (dirname p) (basename p)) p
          && (is_empty (dirname p) || canonical_fuel fuel' (dirname p)))
  end.

Definition canonical (p : string) : bool := canonical_fuel (String.length p) p.

(** The directories above [p], the nearest first, up to the root or the
    current directory, which are left out. *)
Fixpoint ancestors_fuel (fuel : nat) (p : string) : list string :=
  match fuel with
  | O => []
  | S fuel' =>
      let head := dirname p in
      if is_empty head || is_root head then [] else head :: ancestors_fuel fuel' head
  end.

Definition ancestors (p : string) : list string := ancestors_fuel (String.length p) p.

End Os.

(** ** The [shutil] module *)

Module Shutil.

(** [shutil.copy2(src, dst)] for paths that are spelled canonically: a
    directory [dst] stands for the file of the same base name inside it;
    copying a file onto itself (with canonical spelling: onto the same
    string) raises [SameFileError]; content and modification time are both
    copied. *)
Definition copy2 (fs : Os.filesystem) (src dst : string) : option Os.filesystem :=
  let dst := if Os.isdir fs dst then Os.join dst (Os.basename src) else dst in
  if String.eqb src dst then None
  else
    match fs !! src with
    | Some (Os.File content mtime) => Os.write fs dst content mtime
    | _ => None
    end.

End Shutil.

(** ** The [datetime] module *)

Module Datetime.

(** A naive local date and time, as [datetime.now()] returns it. *)
Record t : Type := mk {
  year : Z; month : Z; day : Z;
  hour : Z; minute : Z; second : Z;
  microsecond : Z
}.

(** The ranges of the fields, for a four-digit year. *)
Definition valid (d : t) : Prop :=
  1000 <= year d <= 9999 /\ 1 <= month d <= 12 /\ 1 <= day d <= 31 /\
  0 <= hour d <= 23 /\ 0 <= minute d <= 59 /\ 0 <= second d <= 59 /\
  0 <= microsecond d <= 999999.

(** [d.strftime("%Y%m%d_%H%M%S")] *)
Definition strftime_compact (d : t) : string :=
  Py.format_0d 4 (year d) +:+ Py.format_0d 2 (month d) +:+ Py.format_0d 2 (day d)
    +:+ "_" +:+ Py.format_0d 2 (hour d) +:+ Py.format_0d 2 (minute d)
    +:+ Py.format_0d 2 (second d).

(** The wall-clock second of [d]: everything but the microseconds. *)
Definition to_second (d : t) : Z * Z * Z * Z * Z * Z :=
  (year d, month d, day d, hour d, minute d, second d).

(** The civil date of the day that lies [days] days after 1970-01-01, in
    the proleptic Gregorian calendar: year, month and day. *)
Definition civil_from_days (days : Z) : Z * Z * Z :=
  let z := days + 719468 in
  let era := z / 146097 in
  let doe := z - era * 146097 in
  let yoe := (doe - doe / 1460 + doe / 36524 - doe / 146096) / 365 in
  let doy := doe - (365 * yoe + yoe / 4 - yoe / 100) in
  let mp := (5 * doy + 2) / 153 in
  let d := doy - (153 * mp + 2) / 5 + 1 in
  let m := if mp <? 10 then mp + 3 else mp - 9 in
  (if m <=? 2 then yoe + era * 400 + 1 else yoe + era * 400, m, d).

(** [datetime.fromtimestamp(posix)]: the local date and time [posix]
    seconds and [us] microseconds after the epoch, where [utcoffset posix]
    is the offset of local time from UTC, in seconds, in force then.
    [datetime.now()] is [fromtimestamp(time.time())]. *)
Definition fromtimestamp (utcoffset : Z -> Z) (posix us : Z) : t :=
  let local := posix + utcoffset posix in
  let '(y, m, d) := civil_from_days (local / 86400) in
  let s := local mod 86400 in
  mk y m d (s / 3600) (s mod 3600 / 60) (s mod 60) us.

(** Local time zones: UTC, and US Eastern time around the end of daylight
    saving time in 2024, which is UTC-4 until 2024-11-03 06:00:00 UTC
    (1730613600 seconds after the epoch) and UTC-5 from then on. *)
Definition utc (posix : Z) : Z := 0.

Definition us_eastern_2024 (posix : Z) : Z :=
  if posix <? 1730613600 then -14400 else -18000.

End Datetime.

(** ** file_manager.py *)

Module FileManager.

Record t : Type := mk { recordings_dir : string }.

(** [__init__(self, recordings_dir)]: the directory is created when it
    does not exist. *)
Definition init (fs : Os.filesystem) (recordings_dir : string)
  : option (t * Os.filesystem) :=
  if negb (Os.exists_ fs recordings_dir) then
    match Os.makedirs fs recordings_dir with
    | Some fs' => Some (mk recordings_dir, fs')
    | None => None
    end
  else Some (mk recordings_dir, fs).

(** [f"recording_{timestamp}.wav"] with
    [timestamp = datetime.now().strftime("%Y%m%d_%H%M%S")]. *)
Definition generated_name (now : Datetime.t) : string :=
  "recording_" +:+ Datetime.strftime_compact now +:+ ".wav".

(** The destination [save_recording] uses: the one given, or, when it is
    [None] or empty, the generated name inside the recordings directory. *)
Definition destination (fm : t) (now : Datetime.t) (destination_file : option string)
  : string :=
  match destination_file with
  | Some d => if Os.is_empty d then Os.join (recordings_dir fm) (generated_name now) else d
  | None => Os.join (recordings_dir fm) (generated_name now)
  end.

(** [save_recording(self, source_file, destination_file=None)]: the new
    file system and the returned path; [None] is a raised exception. *)
Definition save_recording (fm : t) (fs : Os.filesystem) (now : Datetime.t)
           (source_file : string) (destination_file : option string)
  : option (Os.filesystem * string) :=
  let destination_file := destination fm now destination_file in
  let dest_dir := Os.dirname destination_file in
  let made :=
    if negb (Os.is_empty dest_dir) && negb (Os.exists_ fs dest_dir)
    then Os.makedirs fs dest_dir else Some fs in
  match made with
  | None => None
  | Some fs1 =>
      match Shutil.copy2 fs1 source_file destination_file with
      | None => None
      | Some fs2 => Some (fs2, destination_file)
      end
  end.

(** [get_saved_recordings(self)] *)
Definition get_saved_recordings (fm : t) (fs : Os.filesystem) : option (list string) :=
  if negb (Os.exists_ fs (recordings_dir fm)) then Some []
  else
    match Os.listdir fs (recordings_dir fm) with
    | None => None
    | Some names =>
        let recordings :=
          List.filter (fun f => Os.endswith f ".wav"
                                && Os.isfile fs (Os.join (recordings_dir fm) f))
                      names in
        match mapM (fun x => option_map (fun m => (m, x))
                               (Os.getmtime fs (Os.join (recordings_dir fm) x)))
                   recordings with
        | None => None
        | Some keyed => Some (map snd (Py.sort_desc fst keyed))
        end
    end.

(** [delete_recording(self, filename)] *)
Definition delete_recording (fm : t) (fs : Os.filesystem) (filename : string)
  : option (Os.filesystem * bool) :=
  let file_path := Os.join (recordings_dir fm) filename in
  if Os.exists_ fs file_path then
    match Os.remove fs file_path with
    | Some fs' => Some (fs', true)
    | None => None
    end
  else Some (fs, false).

(** [get_recording_path(self, filename)] *)
Definition get_recording_path (fm : t) (filename : string) : string :=
  Os.join (recordings_dir fm) filename.

(** A name of the form [recording_YYYYMMDD_HHMMSS.wav]. *)
Definition matches_timestamp_pattern (name : string) : bool :=
  let prefix := substring 0 10 name in
  let date := substring 10 8 name in
  let sep := substring 18 1 name in
  let time := substring 19 6 name in
  let suffix := substring 25 4 name in
  (String.length name =? 29)%nat
  && String.eqb prefix "recording_" && Py.all_digits date
  && String.eqb sep "_" && Py.all_digits time && String.eqb suffix ".wav".

End FileManager.

(** ** The [struct] module *)

Module Struct.

Definition byte_of_Z (z : Z) : byte :=
  match Byte.of_N (Z.to_N (z mod 256)) with Some b => b | None => x00 end.

Definition Z_of_byte (b : byte) : Z := Z.of_N (Byte.to_N b).

(** [struct.pack('<H', v)] and [struct.pack('<L', v)]; [None] is a raised
    [struct.error], for a value that does not fit. *)
Definition pack_H (v : Z) : option (list byte) :=
  if (0 <=? v) && (v <? 65536) then Some [byte_of_Z v; byte_of_Z (v / 256)]
  else None.

Definition pack_L (v : Z) : option (list byte) :=
  if (0 <=? v) && (v <? 4294967296)
  then Some [byte_of_Z v; byte_of_Z (v / 256); byte_of_Z (v / 65536);
             byte_of_Z (v / 16777216)]
  else None.

(** [struct.unpack_from('<H', data)] and [struct.unpack_from('<L', data)]:
    the value of the first bytes of [data], [None] when it is too short. *)
Definition unpack_H (data : list byte) : option Z :=
  match data with
  | b0 :: b1 :: _ => Some (Z_of_byte b0 + 256 * Z_of_byte b1)
  | _ => None
  end.

Definition unpack_L (data : list byte) : option Z :=
  match data with
  | b0 :: b1 :: b2 :: b3 :: _ =>
      Some (Z_of_byte b0 + 256 * Z_of_byte b1 + 65536 * Z_of_byte b2
            + 16777216 * Z_of_byte b3)
  | _ => None
  end.

(** A bytes literal. *)
Definition ascii_bytes (s : string) : list byte := list_byte_of_string s.

Fixpoint bytes_eqb (a b : list byte) : bool :=
  match a, b with
  | [], [] => true
  | x :: a', y :: b' => Byte.eqb x y && bytes_eqb a' b'
  | _, _ => false
  end.

End Struct.

Arguments Struct.byte_of_Z : simpl never.
Arguments Struct.Z_of_byte : simpl never.

(** ** The [wave] module *)

Module Wave.

(** What [getnchannels], [getsampwidth], [getframerate] and [getnframes]
    return for an opened file. *)
Record params : Type := mk {
  nchannels : Z;
  sampwidth : Z;
  framerate : Z;
  nframes : Z
}.

Definition WAVE_FORMAT_PCM : Z := 1.

(** The 40 bytes [_write_header] writes after [b'RIFF']:
    [struct.pack('<L4s4sLHHLLHH4s', 36 + datalength, b'WAVE', b'fmt ', 16,
     WAVE_FORMAT_PCM, nchannels, framerate, nchannels * framerate * sampwidth,
     nchannels * sampwidth, sampwidth * 8, b'data')] and
    [struct.pack('<L', datalength)]. *)
Definition header (nchannels sampwidth framerate datalength : Z)
  : option (list byte) :=
  form_length ← Struct.pack_L (36 + datalength);
  fmt_length ← Struct.pack_L 16;
  tag ← Struct.pack_H WAVE_FORMAT_PCM;
  channels ← Struct.pack_H nchannels;
  rate ← Struct.pack_L framerate;
  bytes_per_sec ← Struct.pack_L (nchannels * framerate * sampwidth);
  block_align ← Struct.pack_H (nchannels * sampwidth);
  bits ← Struct.pack_H (sampwidth * 8);
  data_length ← Struct.pack_L datalength;
  Some (form_length ++ Struct.ascii_bytes "WAVE" ++ Struct.ascii_bytes "fmt "
        ++ fmt_length ++ tag ++ channels ++ rate ++ bytes_per_sec
        ++ block_align ++ bits ++ Struct.ascii_bytes "data" ++ data_length).

(** What is in the file after
    [with wave.open(f, 'wb') as wf: wf.setnchannels(nchannels);
     wf.setsampwidth(sampwidth); wf.setframerate(framerate);
     wf.writeframes(data)], and whether an exception came out of it.
    - A parameter the setters refuse leaves the file empty.
    - [writeframes] writes the header for [len(data) // framesize] frames,
      then the data, then patches the two lengths when they differ from
      what was announced.
    - When a length does not fit its 32-bit field, [struct.pack] raises
      after [b'RIFF'] went out; [close()] tries the header once more and
      raises again. *)
Definition write_file (nchannels sampwidth framerate : Z) (data : list byte)
  : list byte * bool :=
  if (nchannels <? 1) || (sampwidth <? 1) || (4 <? sampwidth) || (framerate <=? 0)
  then ([], true)
  else
    let datawritten := Z.of_nat (length data) in
    let nframes := datawritten / (nchannels * sampwidth) in
    let datalength := nframes * nchannels * sampwidth in
    match header nchannels sampwidth framerate datalength with
    | None => (Struct.ascii_bytes "RIFF" ++ Struct.ascii_bytes "RIFF", true)
    | Some h =>
        if datalength =? datawritten
        then (Struct.ascii_bytes "RIFF" ++ h ++ data, false)
        else
          match header nchannels sampwidth framerate datawritten with
          | Some h' => (Struct.ascii_bytes "RIFF" ++ h' ++ data, false)
          | None => (Struct.ascii_bytes "RIFF" ++ h ++ data, true)
          end
    end.

(** The first [n] bytes of what is left of a file, and the rest; a file
    gives no more than it has. *)
Definition read_bytes (n : Z) (file : list byte) : list byte :=
  take (Z.to_nat (Z.min n (Z.of_nat (length file)))) file.

Definition skip_bytes (n : Z) (file : list byte) : list byte :=
  drop (Z.to_nat (Z.min n (Z.of_nat (length file)))) file.

(** [_Chunk(file)]: the chunk's name, its size, and what follows. *)
Definition read_chunk_header (file : list byte)
  : option (list byte * Z * list byte) :=
  let chunkname := take 4 file in
  if (length chunkname <? 4)%nat then None
  else
    match Struct.unpack_L (take 4 (drop 4 file)) with
    | Some chunksize => Some (chunkname, chunksize, drop 8 file)
    | None => None
    end.

(** [_read_fmt_chunk(chunk)]: channels, frame rate and sample width. *)
Definition read_fmt_chunk (chunk : list byte) : option (Z * Z * Z) :=
  let fields := take 14 chunk in
  if (length fields <? 14)%nat then None
  else
    format_tag ← Struct.unpack_H fields;
    nchannels ← Struct.unpack_H (drop 2 fields);
    framerate ← Struct.unpack_L (drop 4 fields);
    if format_tag =? WAVE_FORMAT_PCM then
      bits ← Struct.unpack_H (take 2 (drop 14 chunk));
      let sampwidth := (bits + 7) / 8 in
      if (sampwidth =? 0) || (nchannels =? 0) then None
      else Some (nchannels, framerate, sampwidth)
    else None.

(** The chunk loop of [Wave_read.initfp]: unknown chunks are skipped, up
    to an even boundary; the [data] chunk ends the loop. *)
Fixpoint read_chunks (fuel : nat) (file : list byte) (fmt : option (Z * Z * Z))
  : option params :=
  match fuel with
  | O => None
  | S fuel' =>
      match read_chunk_header file with
      | None => None
      | Some (chunkname, chunksize, rest) =>
          let after := skip_bytes (chunksize + chunksize mod 2) rest in
          if Struct.bytes_eqb chunkname (Struct.ascii_bytes "fmt ") then
            match read_fmt_chunk (read_bytes chunksize rest) with
            | Some f => read_chunks fuel' after (Some f)
            | None => None
            end
          else if Struct.bytes_eqb chunkname (Struct.ascii_bytes "data") then
            match fmt with
            | Some (nchannels, framerate, sampwidth) =>
                Some (mk nchannels sampwidth framerate
                         (chunksize / (nchannels * sampwidth)))
            | None => None
            end
          else read_chunks fuel' after fmt
      end
  end.

(** [wave.open(f, 'rb')] on a file with the given content: its
    parameters, or [None] for a raised [wave.Error] or [EOFError]. *)
Definition read (file : list byte) : option params :=
  match read_chunk_header file with
  | None => None
  | Some (chunkname, chunksize, rest) =>
      if Struct.bytes_eqb chunkname (Struct.ascii_bytes "RIFF") then
        let body := read_bytes chunksize rest in
        if Struct.bytes_eqb (take 4 body) (Struct.ascii_bytes "WAVE")
        then read_chunks (length body) (drop 4 body) None
        else None
      else None
  end.

(** The chunk loop once more, keeping what [readframes] reads from: the
    frame size, the size of the [data] chunk and the bytes that follow its
    header. *)
Fixpoint find_data (fuel : nat) (file : list byte) (fmt : option (Z * Z * Z))
  : option (Z * Z * list byte) :=
  match fuel with
  | O => None
  | S fuel' =>
      match read_chunk_header file with
      | None => None
      | Some (chunkname, chunksize, rest) =>
          let after := skip_bytes (chunksize + chunksize mod 2) rest in
          if Struct.bytes_eqb chunkname (Struct.ascii_bytes "fmt ") then
            match read_fmt_chunk (read_bytes chunksize rest) with
            | Some f => find_data fuel' after (Some f)
            | None => None
            end
          else if Struct.bytes_eqb chunkname (Struct.ascii_bytes "data") then
            match fmt with
            | Some (nchannels, framerate, sampwidth) =>
                Some (nchannels * sampwidth, chunksize, rest)
            | None => None
            end
          else find_data fuel' after fmt
      end
  end.

(** [wave.open(f, 'rb').readframes(n)] on a file with the given content:
    at most [n] frames from the start of the [data] chunk, the whole chunk
    for a negative [n]. *)
Definition readframes (file : list byte) (n : Z) : option (list byte) :=
  match read_chunk_header file with
  | None => None
  | Some (chunkname, chunksize, rest) =>
      if Struct.bytes_eqb chunkname (Struct.ascii_bytes "RIFF") then
        let body := read_bytes chunksize rest in
        if Struct.bytes_eqb (take 4 body) (Struct.ascii_bytes "WAVE")
        then
          match find_data (length body) (drop 4 body) None with
          | Some (framesize, datasize, data) =>
              if n =? 0 then Some []
              else
                let size := n * framesize in
                let chunk := read_bytes datasize data in
                Some (if size <? 0 then chunk else read_bytes size chunk)
          | None => None
          end
        else None
      else None
  end.

End Wave.

(** ** The [numpy] calls of the capture loop *)

Module Numpy.

(** One little-endian [int16]. *)
Definition int16_of_bytes (lo hi : byte) : Z :=
  let u := Struct.Z_of_byte lo + 256 * Struct.Z_of_byte hi in
  if u <? 32768 then u else u - 65536.

(** [np.frombuffer(data, dtype=np.int16)]; [None] is the [ValueError]
    raised for an odd number of bytes. *)
Fixpoint frombuffer_int16 (data : list byte) : option (list Z) :=
  match data with
  | [] => Some []
  | lo :: hi :: rest =>
      match frombuffer_int16 rest with
      | Some a => Some (int16_of_bytes lo hi :: a)
      | None => None
      end
  | [_] => None
  end.

(** Arithmetic on [int16] wraps around. *)
Definition wrap_int16 (v : Z) : Z := (v + 32768) mod 65536 - 32768.

(** [np.abs(a)] for an [int16] array: the result is an [int16] array. *)
Definition abs_int16 (a : list Z) : list Z :=
  map (fun x => wrap_int16 (Z.abs x)) a.

Definition sum (a : list Z) : Z := fold_right Z.add 0 a.

(** [a.mean()], computed in floating point; [None] is the [nan] of an
    empty array. *)
Definition mean (a : list Z) : option Q :=
  match a with
  | [] => None
  | _ => Some (inject_Z (sum a) / inject_Z (Z.of_nat (length a)))%Q
  end.

End Numpy.

(** ** The [pyaudio] constants *)

Module PyAudio.

Definition paFloat32 : Z := 1.
Definition paInt32 : Z := 2.
Definition paInt24 : Z := 4.
Definition paInt16 : Z := 8.
Definition paInt8 : Z := 16.
Definition paUInt8 : Z := 32.

(** [get_sample_size(format)]; [None] is the [ValueError] of an unknown
    format. *)
Definition get_sample_size (format : Z) : option Z :=
  if format =? paInt16 then Some 2
  else if format =? paFloat32 then Some 4
  else if format =? paInt32 then Some 4
  else if format =? paInt24 then Some 3
  else if (format =? paInt8) || (format =? paUInt8) then Some 1
  else None.

End PyAudio.

(** ** audio_recorder.py *)

Module AudioRecorder.

Record t : Type := mk {
  chunk_size : Z;
  format : Z;
  channels : Z;
  rate : Z;
  frames : list (list byte);
  is_recording : bool;
  temp_file : option string
}.

(** [__init__(self, volume_callback)] *)
Definition init : t := mk 1024 PyAudio.paInt16 1 44100 [] false None.

(** [volume = np.abs(np.frombuffer(data, dtype=np.int16)).mean() / 32768.0].
    The outer [None] is a raised exception, the inner one is [nan]. *)
Definition volume (data : list byte) : option (option Q) :=
  match Numpy.frombuffer_int16 data with
  | None => None
  | Some audio_data =>
      Some (option_map (fun m => (m / 32768)%Q)
                       (Numpy.mean (Numpy.abs_int16 audio_data)))
  end.

(** The capture loop.  [reads] are the chunks [self.stream.read] returns
    while [is_recording] is still set, one per iteration; [volumes]
    collects what the volume callback is called with. *)
Fixpoint capture (has_callback : bool) (reads : list (list byte))
         (frames : list (list byte)) (volumes : list (option Q))
  : option (list (list byte) * list (option Q)) :=
  match reads with
  | [] => Some (frames, volumes)
  | data :: rest =>
      let frames := frames ++ [data] in
      if has_callback then
        match volume data with
        | Some v => capture has_callback rest frames (volumes ++ [v])
        | None => None
        end
      else capture has_callback rest frames volumes
  end.

(** [_save_to_temp_file(self)] at time [now].  Every exception is caught
    and printed, so the call always returns. *)
Definition _save_to_temp_file (r : t) (fs : Os.filesystem) (now : Q)
  : t * Os.filesystem :=
  match frames r with
  | [] => (r, fs)
  | _ :: _ =>
      match temp_file r with
      | None => (r, fs)
      | Some path =>
          let content :=
            match PyAudio.get_sample_size (format r) with
            | Some sampwidth =>
                (Wave.write_file (channels r) sampwidth (rate r)
                                 (concat (frames r))).1
            | None => []
            end in
          match Os.write fs path content now with
          | Some fs' => (r, fs')
          | None => (r, fs)
          end
      end
  end.

(** [tempfile.mkstemp(suffix='.wav')] followed by [os.close]: an empty
    file under the fresh name [path] the library picked. *)
Definition mkstemp (fs : Os.filesystem) (path : string) (now : Q)
  : option Os.filesystem :=
  if Os.exists_ fs path then None else Os.write fs path [] now.

Definition set_frames (r : t) (fr : list (list byte)) : t :=
  mk (chunk_size r) (format r) (channels r) (rate r) fr (is_recording r) (temp_file r).

Definition set_is_recording (r : t) (b : bool) : t :=
  mk (chunk_size r) (format r) (channels r) (rate r) (frames r) b (temp_file r).

Definition set_temp_file (r : t) (p : option string) : t :=
  mk (chunk_size r) (format r) (channels r) (rate r) (frames r) (is_recording r) p.

(** [start_recording(self)] together with the [stop_recording()] that
    ends its loop: the recorder, the file system and the reported
    volumes, or [None] when an exception escapes. *)
Definition start_recording (r : t) (fs : Os.filesystem) (tmp : string) (now : Q)
           (has_callback : bool) (reads : list (list byte))
  : option (t * Os.filesystem * list (option Q)) :=
  let r := set_frames (set_is_recording r true) [] in
  match mkstemp fs tmp now with
  | None => None
  | Some fs1 =>
      let r := set_temp_file r (Some tmp) in
      match capture has_callback reads (frames r) [] with
      | None => None
      | Some (fr, volumes) =>
          let r := set_is_recording (set_frames r fr) false in
          let (r', fs2) := _save_to_temp_file r fs1 now in
          Some (r', fs2, volumes)
      end
  end.

End AudioRecorder.

(** ** The header the recorder writes *)

Module RecorderFormat.

(** The [fmt ] chunk body for 1 channel, 44100 Hz, 16 bits. *)
Definition fmt_body : list byte :=
  [x01; x00; x01; x00; x44; xac; x00; x00; x88; x58; x01; x00; x02; x00; x10; x00].

(** A file with the recorder's header: [form_length] and [data_length]
    are the two packed lengths. *)
Definition file (form_length data_length data : list byte) : list byte :=
  Struct.ascii_bytes "RIFF" ++ form_length ++ Struct.ascii_bytes "WAVE"
    ++ Struct.ascii_bytes "fmt " ++ [x10; x00; x00; x00] ++ fmt_body
    ++ Struct.ascii_bytes "data" ++ data_length ++ data.

End RecorderFormat.

(** ** Concrete scenarios *)

Module Scenario.

(** A 800 x 150 display (the application's size) that is animating. *)
Definition display : Waveform.t :=
  Waveform.start_animation
    (Waveform.update_amplitude (Waveform.init 800 150) (1 # 2)).

Definition rng (i : nat) : Z := Z.of_nat (i * 7 + 3).

(** A display that is only 2 high. *)
Definition low_display : Waveform.t :=
  Waveform.start_animation (Waveform.init 800 2).

(** A recordings directory with two recordings, a text file and a
    sub-directory, and a temporary recording outside it. *)
Definition fs : Os.filesystem :=
  <["recordings" := Os.Dir]>
    (<["recordings/a.wav" := Os.File [x01; x02] 5]>
      (<["recordings/b.wav" := Os.File [x03] 7]>
        (<["recordings/notes.txt" := Os.File [x04] 9]>
          (<["recordings/sub" := Os.Dir]>
            (<["recordings/sub/c.wav" := Os.File [] 1]>
              (<["/tmp" := Os.Dir]>
                (<["/tmp/tmpk3.wav" := Os.File [x52; x49] 3]> ∅))))))).

Definition fm : FileManager.t := FileManager.mk "recordings".

Definition now : Datetime.t := Datetime.mk 2024 3 7 9 5 0 123.
Definition later : Datetime.t := Datetime.mk 2024 3 7 9 5 1 0.

(** Chunks as the capture loop reads them: 1024 samples, 2048 bytes.
    One is silence, one is 1024 times the sample -32768. *)
Definition silent_chunk : list byte := repeat x00 2048.
Definition negative_full_scale_chunk : list byte := concat (repeat [x00; x80] 1024).

(** A session of 2097152 chunks: 4 GiB of samples, some 13.5 hours. *)
Definition long_session : list (list byte) := repeat silent_chunk (Z.to_nat 2097152).

(** The name [mkstemp] picks. *)
Definition tmp : string := "/tmp/tmp9x.wav".

(** The temporary recording saved twice, with generated names, one second
    apart. *)
Definition saved_twice : option Os.filesystem :=
  match FileManager.save_recording fm fs now "/tmp/tmpk3.wav" None with
  | Some (fs1, _) =>
      match FileManager.save_recording fm fs1 later "/tmp/tmpk3.wav" None with
      | Some (fs2, _) => Some fs2
      | None => None
      end
  | None => None
  end.

End Scenario.

(** * Properties *)

(** ** Python numbers *)

Lemma int_inject_Z (z : Z) : Py.int (inject_Z z) = z.
Proof.
  unfold Py.int, Qceiling.
  destruct (Qle_bool 0 (inject_Z z)); [apply Qfloor_Z|].
  change (- inject_Z z)%Q with (inject_Z (- z)). rewrite Qfloor_Z. lia.
Qed.

Lemma fmod_range (x y : Q) : (0 < y)%Q -> (0 <= Py.fmod x y /\ Py.fmod x y < y)%Q.
Proof.
  intros Hy. unfold Py.fmod.
  pose proof (Qfloor_le (x / y)) as Hlo.
  pose proof (Qlt_floor (x / y)) as Hhi.
  rewrite inject_Z_plus in Hhi.
  assert (Hx : (x == y * (x / y))%Q) by (field; lra).
  set (f := inject_Z (Qfloor (x / y))) in *.
  set (q := (x / y)%Q) in *.
  assert (H1 : (y * f <= y * q)%Q) by (apply Qmult_le_l; assumption).
  assert (H2 : (y * q < y * (f + inject_Z 1))%Q) by (apply Qmult_lt_l; assumption).
  change (inject_Z 1) with 1%Q in H2.
  split; lra.
Qed.

Lemma int_nonneg_range (x : Q) (n : Z) :
  (0 <= x)%Q -> (x < inject_Z n)%Q -> 0 <= Py.int x < n.
Proof.
  intros H0 Hn. unfold Py.int.
  destruct (Qle_bool 0 x) eqn:E.
  - split.
    + change 0 with (Qfloor 0). apply Qfloor_resp_le. exact H0.
    + apply Z.lt_nge. intros Hc.
      assert (Hle : (inject_Z n <= inject_Z (Qfloor x))%Q)
        by (rewrite <- Zle_Qle; exact Hc).
      pose proof (Qfloor_le x). lra.
  - apply (proj2 (Qle_bool_iff 0 x)) in H0. congruence.
Qed.

Lemma floordiv_nonneg (x : Q) : (0 <= x)%Q -> 0 <= Utils.minutes_of x.
Proof.
  intros H. unfold Utils.minutes_of, Py.floordiv. rewrite int_inject_Z.
  change 0 with (Qfloor 0). apply Qfloor_resp_le.
  apply Qle_shift_div_l; lra.
Qed.

Lemma minutes_lt_100 (x : Q) : (x < 6000)%Q -> Utils.minutes_of x < 100.
Proof.
  intros H. unfold Utils.minutes_of, Py.floordiv. rewrite int_inject_Z.
  apply Z.lt_nge. intros Hc.
  assert (Hle : (inject_Z 100 <= inject_Z (Qfloor (x / 60)))%Q)
    by (rewrite <- Zle_Qle; exact Hc).
  pose proof (Qfloor_le (x / 60)) as Hf.
  assert (Hd : (x / 60 < 100)%Q) by (apply Qlt_shift_div_r; lra).
  change (inject_Z 100) with 100%Q in Hle. lra.
Qed.

(** ** Decimal formatting *)

Lemma digit_is_digit (d : Z) : 0 <= d <= 9 -> Py.is_digit (Py.digit d) = true.
Proof.
  intros H.
  assert (Hd : d = 0 \/ d = 1 \/ d = 2 \/ d = 3 \/ d = 4 \/ d = 5 \/ d = 6
               \/ d = 7 \/ d = 8 \/ d = 9) by lia.
  repeat (destruct Hd as [-> | Hd]; [reflexivity|]). subst d. reflexivity.
Qed.

Lemma digit_inj (a b : Z) :
  0 <= a <= 9 -> 0 <= b <= 9 -> Py.digit a = Py.digit b -> a = b.
Proof.
  intros Ha Hb E. unfold Py.digit in E.
  apply (f_equal nat_of_ascii) in E.
  rewrite !nat_ascii_embedding in E by lia. lia.
Qed.

Lemma digits_small (fuel : nat) (n : Z) (acc : string) :
  0 <= n < 10 -> Py.digits fuel n acc = String (Py.digit n) acc.
Proof.
  intros H. destruct fuel; simpl.
  - rewrite Z.mod_small by lia. reflexivity.
  - rewrite Z.div_small by lia. rewrite Z.mod_small by lia. reflexivity.
Qed.

Lemma digits_step (fuel : nat) (n : Z) (acc : string) :
  10 <= n ->
  Py.digits (S fuel) n acc
  = Py.digits fuel (n / 10) (String (Py.digit (n mod 10)) acc).
Proof.
  intros H. simpl.
  assert (Hq : 1 <= n / 10) by (apply Z.div_le_lower_bound; lia).
  destruct (Z.eqb_spec (n / 10) 0); [lia | reflexivity].
Qed.



Lemma log2_fuel (n : Z) (k : nat) :
  2 ^ Z.of_nat k <= n -> exists f, Z.to_nat (Z.log2 n) = (k + f)%nat.
Proof.
  intros H. exists (Z.to_nat (Z.log2 n) - k)%nat.
  assert (Z.of_nat k <= Z.log2 n).
  { rewrite <- (Z.log2_pow2 (Z.of_nat k)) by lia. apply Z.log2_le_mono. exact H. }
  lia.
Qed.

Lemma str_nat_1 (n : Z) : 0 <= n < 10 -> Py.str_nat n = String (Py.digit n) EmptyString.
Proof. intros H. apply digits_small. exact H. Qed.

Lemma str_nat_2 (n : Z) :
  10 <= n < 100 ->
  Py.str_nat n = String (Py.digit (n / 10)) (String (Py.digit (n mod 10)) EmptyString).
Proof.
  intros H. unfold Py.str_nat.
  destruct (log2_fuel n 1) as [f ->]; [simpl; lia|].
  change (1 + f)%nat with (S f). rewrite digits_step by lia.
  apply digits_small. split; [apply Z.div_pos; lia|].
  apply Z.div_lt_upper_bound; lia.
Qed.



(** [f"{n:02d}"] on [0 .. 99] is the tens digit followed by the units digit. *)
Lemma format_02d_small (n : Z) :
  0 <= n < 100 ->
  Py.format_0d 2 n = String (Py.digit (n / 10)) (String (Py.digit (n mod 10)) EmptyString).
Proof.
  intros H. unfold Py.format_0d.
  destruct (Z.ltb_spec n 0); [lia|].
  destruct (Z_lt_le_dec n 10) as [Hs|Hl].
  - rewrite str_nat_1 by lia. rewrite Z.div_small, Z.mod_small by lia. reflexivity.
  - rewrite str_nat_2 by lia. reflexivity.
Qed.

Lemma length_append (a b : string) :
  String.length (a +:+ b) = (String.length a + String.length b)%nat.
Proof. induction a as [|c a IH]; simpl; [reflexivity | rewrite IH; reflexivity]. Qed.





(** ** utils.py: [format_time] *)

Lemma seconds_of_range (x : Q) : 0 <= Utils.seconds_of x < 60.
Proof.
  unfold Utils.seconds_of.
  destruct (fmod_range x 60) as [H0 H1]; [reflexivity|].
  apply int_nonneg_range; assumption.
Qed.

Lemma tenths_of_range (x : Q) : 0 <= Utils.tenths_of x < 10.
Proof.
  unfold Utils.tenths_of.
  destruct (fmod_range (Py.fmod x 60 * 10) 10) as [H0 H1]; [reflexivity|].
  apply int_nonneg_range; assumption.
Qed.

Lemma format_time_unfold (x : Q) :
  Utils.format_time x
  = Py.format_0d 2 (Utils.minutes_of x) +:+ ":"
      +:+ Py.format_0d 2 (Utils.seconds_of x) +:+ "." +:+ Py.str (Utils.tenths_of x).
Proof. reflexivity. Qed.




(** [format_time] on some inputs; the fourth is the binary64 value nearest
    to 125.34. *)
Example format_time_a : Utils.format_time (12534 # 100) = "02:05.3"%string.
Proof. vm_compute. reflexivity. Qed.

Example format_time_b : Utils.format_time 0 = "00:00.0"%string.
Proof. vm_compute. reflexivity. Qed.

Example format_time_c : Utils.format_time 6000 = "100:00.0"%string.
Proof. vm_compute. reflexivity. Qed.

Example format_time_double :
  Utils.format_time (4410009197614203 # 35184372088832) = "02:05.3"%string.
Proof. vm_compute. reflexivity. Qed.

Example format_time_d : Utils.format_time (35999 # 10) = "59:59.9"%string.
Proof. vm_compute. reflexivity. Qed.

(** ** Floating point: the error of rounding *)

Lemma pow2_pos (e : Z) : (0 < 2 ^ e)%Q.
Proof. apply Qpower_0_lt. reflexivity. Qed.

Lemma pow2_le (a b : Z) : a <= b -> (2 ^ a <= 2 ^ b)%Q.
Proof. intros H. apply Qpower_le_compat_l; [exact H | lra]. Qed.

Lemma exponent_le (x : Q) : (0 < x)%Q -> (2 ^ Float.exponent x <= x)%Q.
Proof.
  intros Hx. unfold Float.exponent. destruct (Qle_bool 1 x) eqn:E.
  - apply Qle_bool_iff in E.
    assert (H1 : 1 <= Qfloor x).
    { change 1 with (Qfloor 1). apply Qfloor_resp_le. exact E. }
    destruct (Z.log2_spec (Qfloor x) ltac:(lia)) as [Hlo _].
    pose proof (Z.log2_nonneg (Qfloor x)) as Hn.
    rewrite <- (Zpower_Qpower 2 _ Hn).
    apply Qle_trans with (inject_Z (Qfloor x)); [|apply Qfloor_le].
    rewrite <- Zle_Qle. exact Hlo.
  - assert (Hlt : (x < 1)%Q).
    { apply Qnot_le_lt. intros H. apply Qle_bool_iff in H. congruence. }
    assert (Hinv : (1 < / x)%Q).
    { apply Qlt_shift_inv_l; [exact Hx | lra]. }
    set (c := Qceiling (/ x)).
    assert (Hc : (/ x <= inject_Z c)%Q) by apply Qle_ceiling.
    assert (Hc1 : 1 < c).
    { rewrite Zlt_Qlt. change (inject_Z 1) with 1%Q. lra. }
    destruct (Z.log2_up_spec c Hc1) as [_ Hup].
    pose proof (Z.log2_up_nonneg c) as Hk.
    rewrite Qpower_opp.
    apply Qle_shift_inv_r; [apply pow2_pos|].
    rewrite <- (Zpower_Qpower 2 _ Hk).
    assert (Hp : (/ x <= inject_Z (2 ^ Z.log2_up c))%Q).
    { apply Qle_trans with (inject_Z c); [exact Hc|]. rewrite <- Zle_Qle. exact Hup. }
    change (inject_Z 2) with 2%Q in *.
    assert (Hm : (x * / x <= x * inject_Z (2 ^ Z.log2_up c))%Q).
    { apply Qmult_le_l; assumption. }
    rewrite Qmult_inv_r in Hm by lra. exact Hm.
Qed.

Lemma exponent_lt (x : Q) : (0 < x)%Q -> (x < 2 ^ (Float.exponent x + 1))%Q.
Proof.
  intros Hx. unfold Float.exponent. destruct (Qle_bool 1 x) eqn:E.
  - apply Qle_bool_iff in E.
    assert (H1 : 1 <= Qfloor x).
    { change 1 with (Qfloor 1). apply Qfloor_resp_le. exact E. }
    destruct (Z.log2_spec (Qfloor x) ltac:(lia)) as [_ Hhi].
    pose proof (Z.log2_nonneg (Qfloor x)) as Hn.
    replace (Z.log2 (Qfloor x) + 1) with (Z.succ (Z.log2 (Qfloor x))) by lia.
    rewrite <- (Zpower_Qpower 2 (Z.succ (Z.log2 (Qfloor x))) ltac:(lia)).
    apply Qlt_le_trans with (inject_Z (Qfloor x + 1)); [apply Qlt_floor|].
    rewrite <- Zle_Qle. lia.
  - assert (Hlt : (x < 1)%Q).
    { apply Qnot_le_lt. intros H. apply Qle_bool_iff in H. congruence. }
    assert (Hinv : (1 < / x)%Q).
    { apply Qlt_shift_inv_l; [exact Hx | lra]. }
    set (c := Qceiling (/ x)).
    assert (Hc : (/ x <= inject_Z c)%Q) by apply Qle_ceiling.
    assert (Hc' : (inject_Z (c - 1) < / x)%Q) by apply Qceiling_lt.
    assert (Hc1 : 1 < c).
    { rewrite Zlt_Qlt. change (inject_Z 1) with 1%Q. lra. }
    destruct (Z.log2_up_spec c Hc1) as [Hlo _].
    pose proof (Z.log2_up_pos c Hc1) as Hk.
    set (k := Z.log2_up c) in *.
    replace (- k + 1) with (- (Z.pred k)) by lia.
    rewrite Qpower_opp.
    assert (Hp : (inject_Z (2 ^ Z.pred k) < / x)%Q).
    { apply Qle_lt_trans with (inject_Z (c - 1)); [|exact Hc']. rewrite <- Zle_Qle. lia. }
    rewrite (Zpower_Qpower 2 (Z.pred k) ltac:(lia)) in Hp. change (inject_Z 2) with 2%Q in Hp.
    pose proof (pow2_pos (Z.pred k)) as Hpos.
    apply Qlt_shift_inv_l; [exact Hpos|].
    assert (Hm : (x * 2 ^ Z.pred k < x * / x)%Q).
    { rewrite !(Qmult_comm x). apply Qmult_lt_compat_r; assumption. }
    rewrite Qmult_inv_r in Hm by lra. exact Hm.
Qed.

(** The exponent of a number that is at least [2^k] is at least [k]. *)
Lemma exponent_ge (x : Q) (k : Z) : (2 ^ k <= x)%Q -> k <= Float.exponent x.
Proof.
  intros H. pose proof (pow2_pos k) as Hk.
  pose proof (exponent_lt x ltac:(lra)) as Hlt.
  destruct (Z_le_gt_dec k (Float.exponent x)) as [Hle|Hgt]; [exact Hle|].
  pose proof (pow2_le (Float.exponent x + 1) k ltac:(lia)). lra.
Qed.

(** The exponent of a number below [2^k] is below [k]. *)
Lemma exponent_lt_inv (x : Q) (k : Z) : (0 < x)%Q -> (x < 2 ^ k)%Q -> Float.exponent x < k.
Proof.
  intros Hx H. pose proof (exponent_le x Hx) as Hle.
  destruct (Z_lt_ge_dec (Float.exponent x) k) as [Hlt|Hge]; [exact Hlt|].
  pose proof (pow2_le k (Float.exponent x) ltac:(lia)). lra.
Qed.

Lemma rint_error (y : Q) :
  (y - (1 # 2) <= inject_Z (Float.rint y))%Q /\ (inject_Z (Float.rint y) <= y + (1 # 2))%Q.
Proof.
  unfold Float.rint.
  pose proof (Qfloor_le y) as Hlo. pose proof (Qlt_floor y) as Hhi.
  rewrite inject_Z_plus in Hhi. change (inject_Z 1) with 1%Q in Hhi.
  destruct (y - inject_Z (Qfloor y) ?= 1 # 2)%Q eqn:E.
  - apply Qeq_alt in E.
    destruct (Z.even (Qfloor y)); [|rewrite inject_Z_plus; change (inject_Z 1) with 1%Q];
      split; lra.
  - apply Qlt_alt in E. split; lra.
  - apply Qgt_alt in E. rewrite inject_Z_plus. change (inject_Z 1) with 1%Q. split; lra.
Qed.

Lemma rint_floor (y : Q) : Qfloor y <= Float.rint y <= Qfloor y + 1.
Proof.
  unfold Float.rint.
  destruct (y - inject_Z (Qfloor y) ?= 1 # 2)%Q; [destruct (Z.even (Qfloor y))| |]; lia.
Qed.

Lemma ulp_pos (x : Q) : (0 < Float.ulp x)%Q.
Proof. apply pow2_pos. Qed.

Lemma round_gt0 (x : Q) : (0 < x)%Q -> Float.round x = Float.nearest x.
Proof.
  intros Hx. unfold Float.round.
  assert (E : (x ?= 0)%Q = Gt) by (apply Qgt_alt; exact Hx).
  rewrite E. reflexivity.
Qed.

Lemma round_zero (x : Q) : x == 0 -> Float.round x = 0%Q.
Proof.
  intros Hx. unfold Float.round.
  assert (E : (x ?= 0)%Q = Eq) by (apply Qeq_alt; exact Hx).
  rewrite E. reflexivity.
Qed.

Lemma round_neg (x : Q) : (x < 0)%Q -> Float.round x = (- Float.round (- x))%Q.
Proof.
  intros Hx. unfold Float.round.
  assert (E : (x ?= 0)%Q = Lt) by (apply Qlt_alt; exact Hx).
  assert (E' : (- x ?= 0)%Q = Gt) by (apply Qgt_alt; lra).
  rewrite E, E'. reflexivity.
Qed.

(** Rounding moves a number by at most half the spacing of the floats
    around it. *)
Lemma round_half_ulp (x : Q) :
  (0 < x)%Q ->
  (x - (1 # 2) * Float.ulp x <= Float.round x)%Q /\
  (Float.round x <= x + (1 # 2) * Float.ulp x)%Q.
Proof.
  intros Hx. rewrite (round_gt0 x Hx). unfold Float.nearest.
  pose proof (ulp_pos x) as Hu.
  set (u := Float.ulp x) in *.
  destruct (rint_error (x / u)) as [Hlo Hhi].
  set (r := inject_Z (Float.rint (x / u))) in *.
  assert (Hxu : (x / u * u == x)%Q) by (field; lra).
  assert (H1 : ((x / u - (1 # 2)) * u <= r * u)%Q) by (apply Qmult_le_r; assumption).
  assert (H2 : (r * u <= (x / u + (1 # 2)) * u)%Q) by (apply Qmult_le_r; assumption).
  assert (H3 : ((x / u - (1 # 2)) * u == x - (1 # 2) * u)%Q) by (rewrite <- Hxu at 2; ring).
  assert (H4 : ((x / u + (1 # 2)) * u == x + (1 # 2) * u)%Q) by (rewrite <- Hxu at 2; ring).
  rewrite H3 in H1. rewrite H4 in H2. split; assumption.
Qed.

Lemma round_nonneg (x : Q) : (0 <= x)%Q -> (0 <= Float.round x)%Q.
Proof.
  intros Hx. destruct (Qlt_le_dec 0 x) as [Hp|Hz].
  - rewrite (round_gt0 x Hp). unfold Float.nearest.
    pose proof (ulp_pos x) as Hu.
    apply Qmult_le_0_compat; [|lra].
    change 0%Q with (inject_Z 0). rewrite <- Zle_Qle.
    etransitivity; [|apply rint_floor].
    change 0 with (Qfloor 0). apply Qfloor_resp_le.
    apply Qle_shift_div_l; [exact Hu | lra].
  - rewrite round_zero by lra. lra.
Qed.

Lemma round_nonpos (x : Q) : (x <= 0)%Q -> (Float.round x <= 0)%Q.
Proof.
  intros Hx. destruct (Qlt_le_dec x 0) as [Hn|Hz].
  - rewrite (round_neg x Hn). pose proof (round_nonneg (- x)) as H.
    specialize (H ltac:(lra)). lra.
  - rewrite round_zero by lra. lra.
Qed.

Lemma ulp_normal (x : Q) :
  (2 ^ Float.emin <= x)%Q -> (Float.ulp x <= x * (1 # 4503599627370496))%Q.
Proof.
  intros Hx. pose proof (exponent_ge x Float.emin Hx) as He.
  pose proof (pow2_pos Float.emin) as Hm.
  pose proof (exponent_le x ltac:(lra)) as Hle.
  unfold Float.ulp. rewrite Z.max_l by exact He.
  rewrite Qpower_minus by discriminate.
  change (2 ^ 52)%Q with 4503599627370496%Q.
  unfold Qdiv. change (/ 4503599627370496)%Q with (1 # 4503599627370496)%Q.
  apply Qmult_le_compat_r; [exact Hle | discriminate].
Qed.

(** The relative error of rounding a number in the normal range is at most
    [2^-53]. *)
Lemma round_error (x : Q) :
  (2 ^ Float.emin <= x)%Q ->
  (x * (1 - (1 # 9007199254740992)) <= Float.round x)%Q /\
  (Float.round x <= x * (1 + (1 # 9007199254740992)))%Q.
Proof.
  intros Hx. pose proof (pow2_pos Float.emin) as Hm.
  destruct (round_half_ulp x ltac:(lra)) as [Hlo Hhi].
  pose proof (ulp_normal x Hx) as Hu.
  split; lra.
Qed.

Lemma emin_small : (2 ^ Float.emin <= 1 # 4)%Q.
Proof.
  change (1 # 4)%Q with (2 ^ (-2))%Q. apply pow2_le. unfold Float.emin. lia.
Qed.

(** Below 1 the floats are at most [2^-53] apart, and at most [2^-52]
    apart below 2. *)
Lemma ulp_le_1 (x : Q) :
  (0 < x)%Q -> (x <= 1)%Q -> (Float.ulp x <= 1 # 4503599627370496)%Q.
Proof.
  intros H0 H1. unfold Float.ulp.
  assert (He : Float.exponent x < 1).
  { apply exponent_lt_inv; [exact H0|]. change (2 ^ 1)%Q with 2%Q. lra. }
  change (1 # 4503599627370496)%Q with (2 ^ (-52))%Q. apply pow2_le.
  unfold Float.emin. lia.
Qed.

(** Rounding does not cross 1. *)
Lemma round_ge_1 (x : Q) : (1 <= x)%Q -> (1 <= Float.round x)%Q.
Proof.
  intros Hx. assert (Hp : (0 < x)%Q) by lra. rewrite (round_gt0 x Hp).
  unfold Float.nearest.
  pose proof (exponent_le x Hp) as He.
  assert (Hexp : 0 <= Float.exponent x).
  { apply exponent_ge. change (2 ^ 0)%Q with 1%Q. exact Hx. }
  pose proof (ulp_pos x) as Hu. unfold Float.ulp in *.
  rewrite Z.max_l in * by (unfold Float.emin; lia).
  set (e := Float.exponent x) in *.
  set (u := (2 ^ (e - 52))%Q) in *.
  assert (Hue : (2 ^ e == 4503599627370496 * u)%Q).
  { unfold u. rewrite Qpower_minus by discriminate.
    change (2 ^ 52)%Q with 4503599627370496%Q. field. }
  assert (Hy : (4503599627370496 <= x / u)%Q).
  { apply Qle_shift_div_l; [exact Hu|]. rewrite <- Hue. exact He. }
  assert (Hf : 4503599627370496 <= Float.rint (x / u)).
  { etransitivity; [|apply rint_floor].
    change 4503599627370496 with (Qfloor 4503599627370496). apply Qfloor_resp_le. exact Hy. }
  assert (H1 : (1 <= 2 ^ e)%Q) by (apply Qpower_1_le; [lra | exact Hexp]).
  rewrite Zle_Qle in Hf. change (inject_Z 4503599627370496) with 4503599627370496%Q in Hf.
  assert (H2 : (4503599627370496 * u <= inject_Z (Float.rint (x / u)) * u)%Q)
    by (apply Qmult_le_r; assumption).
  lra.
Qed.

(** Rounding does not cross a power of two. *)
Lemma round_lt_pow (x : Q) (k : Z) :
  Float.emin < k -> (0 < x)%Q -> (x < 2 ^ k)%Q -> (Float.round x <= 2 ^ k)%Q.
Proof.
  intros Hk H0 H1. rewrite (round_gt0 x H0). unfold Float.nearest.
  pose proof (exponent_lt x H0) as He.
  pose proof (exponent_lt_inv x k H0 H1) as Hexp.
  pose proof (ulp_pos x) as Hu. unfold Float.ulp in *.
  set (E := Z.max (Float.exponent x) Float.emin) in *.
  assert (HE : Float.exponent x <= E < k) by (unfold E; lia).
  set (u := (2 ^ (E - 52))%Q) in *.
  assert (Hue : (2 ^ (E + 1) == 9007199254740992 * u)%Q).
  { unfold u. rewrite Qpower_minus, Qpower_plus by discriminate.
    change (2 ^ 52)%Q with 4503599627370496%Q. change (2 ^ 1)%Q with 2%Q. field. }
  assert (Hx : (x < 2 ^ (E + 1))%Q).
  { apply Qlt_le_trans with (1 := He). apply pow2_le. lia. }
  assert (Hy : (x / u < 9007199254740992)%Q).
  { apply Qlt_shift_div_r; [exact Hu|]. rewrite <- Hue. exact Hx. }
  assert (Hf : Float.rint (x / u) <= 9007199254740992).
  { destruct (rint_floor (x / u)) as [_ Hr].
    pose proof (Qfloor_le (x / u)) as Hfl.
    assert (Hlt : (inject_Z (Qfloor (x / u)) < inject_Z 9007199254740992)%Q).
    { change (inject_Z 9007199254740992) with 9007199254740992%Q. lra. }
    rewrite <- Zlt_Qlt in Hlt. lia. }
  assert (H2 : (2 ^ (E + 1) <= 2 ^ k)%Q) by (apply pow2_le; lia).
  rewrite Zle_Qle in Hf. change (inject_Z 9007199254740992) with 9007199254740992%Q in Hf.
  assert (H3 : (inject_Z (Float.rint (x / u)) * u <= 9007199254740992 * u)%Q)
    by (apply Qmult_le_r; assumption).
  lra.
Qed.

(** A number that is 1 rounds to 1. *)
Lemma round_1 (x : Q) : x == 1 -> Float.round x == 1.
Proof.
  intros Hx. rewrite (round_gt0 x) by lra. unfold Float.nearest, Float.ulp.
  assert (He : Float.exponent x = 0).
  { assert (0 <= Float.exponent x)
      by (apply exponent_ge; change (2 ^ 0)%Q with 1%Q; lra).
    assert (Float.exponent x < 1)
      by (apply exponent_lt_inv; [|change (2 ^ 1)%Q with 2%Q]; lra).
    lia. }
  rewrite He. change (2 ^ (Z.max 0 Float.emin - 52))%Q with (1 # 4503599627370496)%Q.
  destruct (rint_error (x / (1 # 4503599627370496))) as [Hlo Hhi].
  assert (Hy : x / (1 # 4503599627370496) == 4503599627370496).
  { rewrite Hx. reflexivity. }
  set (y := (x / (1 # 4503599627370496))%Q) in *.
  set (r := Float.rint y) in *.
  assert (H1 : (inject_Z r < inject_Z 4503599627370497)%Q).
  { change (inject_Z 4503599627370497) with 4503599627370497%Q. lra. }
  assert (H2 : (inject_Z 4503599627370495 < inject_Z r)%Q).
  { change (inject_Z 4503599627370495) with 4503599627370495%Q. lra. }
  rewrite <- Zlt_Qlt in H1, H2.
  assert (Hr : r = 4503599627370496) by lia.
  rewrite Hr. reflexivity.
Qed.

Lemma round_le_1 (x : Q) : (x <= 1)%Q -> (Float.round x <= 1)%Q.
Proof.
  intros Hx. destruct (Qlt_le_dec 0 x) as [Hp|Hn].
  - destruct (Qlt_le_dec x 1) as [Hlt|Hge].
    + apply (round_lt_pow x 0); [unfold Float.emin; lia | exact Hp | exact Hlt].
    + rewrite (round_1 x) by lra. lra.
  - pose proof (round_nonpos x Hn). lra.
Qed.

(** Between 0 and 1 rounding moves a number by at most [2^-53]. *)
Lemma round_error_unit (x : Q) :
  (0 <= x)%Q -> (x <= 1)%Q ->
  (x - (1 # 9007199254740992) <= Float.round x)%Q /\
  (Float.round x <= x + (1 # 9007199254740992))%Q.
Proof.
  intros H0 H1. destruct (Qlt_le_dec 0 x) as [Hp|Hz].
  - destruct (round_half_ulp x Hp) as [Hlo Hhi].
    pose proof (ulp_le_1 x Hp H1) as Hu. split; lra.
  - rewrite round_zero by lra. split; lra.
Qed.

(** Some floats: the nearest to 0.1, 0.3, 0.7, 0.8, 1/3 and 0.45; two ties
    above [2^53] and two ties among the subnormal numbers, which go to the
    even significand; a negative number. *)
Example round_values :
  Float.round (1 # 10) == 3602879701896397 # 36028797018963968 /\
  Float.round (3 # 10) == 5404319552844595 # 18014398509481984 /\
  Float.round (7 # 10) == 3152519739159347 # 4503599627370496 /\
  Float.round (8 # 10) == 3602879701896397 # 4503599627370496 /\
  Float.round (1 # 3) == 6004799503160661 # 18014398509481984 /\
  Float.round (45 # 100) == 8106479329266893 # 18014398509481984 /\
  Float.round 9007199254740993 == 9007199254740992 /\
  Float.round 9007199254740995 == 9007199254740996 /\
  Float.round (3 * 2 ^ (-1075)) == 2 ^ (-1073) /\
  Float.round (2 ^ (-1075)) == 0 /\
  Float.round (- (3 # 10)) == - (5404319552844595 # 18014398509481984).
Proof. vm_compute. repeat split. Qed.

(** ** waveform_display.py: [update_amplitude] *)

(** C10.  [update_amplitude] stores [min(1.0, amplitude * 1.5)], the product
    being the float product.  An input in [0, 1] gives a stored amplitude in
    [0, 1]; an input of at least 2/3 stores exactly [1.0]; and below
    saturation the stored amplitude is the input scaled by 1.5: for an
    input [a >= 0] with [a * 1.5 <= 1] it is the float product of [a] and
    1.5, which lies within [2^-53] of [a * 1.5]. *)
Theorem update_amplitude_saturates (w : Waveform.t) (a : Q) :
  Waveform.amplitude (Waveform.update_amplitude w a)
  = Py.min 1 (Float.mul a (15 # 10)) /\
  ((0 <= a)%Q -> (a <= 1)%Q ->
   (0 <= Waveform.amplitude (Waveform.update_amplitude w a))%Q /\
   (Waveform.amplitude (Waveform.update_amplitude w a) <= 1)%Q) /\
  ((2 # 3 <= a)%Q -> Waveform.amplitude (Waveform.update_amplitude w a) = 1%Q) /\
  ((0 <= a)%Q -> (a * (15 # 10) <= 1)%Q ->
   Waveform.amplitude (Waveform.update_amplitude w a) == Float.mul a (15 # 10) /\
   (a * (15 # 10) - (1 # 9007199254740992)
    <= Waveform.amplitude (Waveform.update_amplitude w a))%Q /\
   (Waveform.amplitude (Waveform.update_amplitude w a)
    <= a * (15 # 10) + (1 # 9007199254740992))%Q).
Proof.
  split; [reflexivity|].
  cbn [Waveform.update_amplitude Waveform.set_amplitude Waveform.amplitude].
  unfold Float.mul, Py.min.
  set (x := (a * (15 # 10))%Q).
  split; [|split].
  - intros H0 H1.
    assert (Hx : (0 <= x)%Q) by (unfold x; lra).
    pose proof (round_nonneg x Hx) as Hr.
    destruct (Qlt_le_dec (Float.round x) 1); split; lra.
  - intros H.
    assert (Hx : (1 <= x)%Q) by (unfold x; lra).
    pose proof (round_ge_1 x Hx) as Hr.
    destruct (Qlt_le_dec (Float.round x) 1); [lra | reflexivity].
  - intros H0 H1.
    assert (Hx : (0 <= x)%Q) by (unfold x; lra).
    pose proof (round_le_1 x H1) as Hle.
    destruct (round_error_unit x Hx H1) as [Hlo Hhi].
    destruct (Qlt_le_dec (Float.round x) 1) as [Hlt|Hge].
    + split; [reflexivity|]. split; assumption.
    + assert (E : Float.round x == 1) by lra.
      split; [symmetry; exact E|]. split; lra.
Qed.

Lemma update_amplitude_saturates_witness :
  ((0 <= Waveform.amplitude (Waveform.update_amplitude (Waveform.init 800 150) (1 # 2)))%Q /\
   (Waveform.amplitude (Waveform.update_amplitude (Waveform.init 800 150) (1 # 2)) <= 1)%Q) /\
  Waveform.amplitude (Waveform.update_amplitude (Waveform.init 800 150) (3 # 4)) = 1%Q /\
  Waveform.amplitude (Waveform.update_amplitude (Waveform.init 800 150) (1 # 2))
  == Float.mul (1 # 2) (15 # 10).
Proof.
  split; [|split].
  - apply (proj1 (proj2 (update_amplitude_saturates (Waveform.init 800 150) (1 # 2))));
      unfold Qle; simpl; lia.
  - apply (proj1 (proj2 (proj2 (update_amplitude_saturates (Waveform.init 800 150) (3 # 4))))).
    unfold Qle; simpl; lia.
  - apply (proj2 (proj2 (proj2 (update_amplitude_saturates (Waveform.init 800 150) (1 # 2)))));
      unfold Qle; simpl; lia.
Defined.

(** The level 0.3 stores the amplitude [0.44999999999999996], the float
    below the float nearest to 0.45; a level of one half stores 0.75. *)
Example update_amplitude_03 :
  Waveform.amplitude (Waveform.update_amplitude (Waveform.init 800 150) (Float.round (3 # 10)))
  == 2026619832316723 # 4503599627370496.
Proof. vm_compute. reflexivity. Qed.

Example update_amplitude_half :
  Waveform.amplitude (Waveform.update_amplitude (Waveform.init 800 150) (1 # 2)) == 3 # 4.
Proof. vm_compute. reflexivity. Qed.

(** ** waveform_display.py: [draw_waveform] *)

Lemma maxi_max (a b : Z) : Py.maxi a b = Z.max a b.
Proof. unfold Py.maxi. destruct (Z.gtb_spec b a); lia. Qed.

Lemma mini_min (a b : Z) : Py.mini a b = Z.min a b.
Proof. unfold Py.mini. destruct (Z.ltb_spec b a); lia. Qed.

Lemma randint_range (a b e : Z) : a <= b -> a <= Random.randint a b e <= b.
Proof.
  intros H. unfold Random.randint.
  pose proof (Z.mod_pos_bound e (b - a + 1)). lia.
Qed.

Lemma max_diff_ge_5 (w : Waveform.t) : 5 <= Waveform.max_diff w.
Proof. unfold Waveform.max_diff. rewrite maxi_max. lia. Qed.

Lemma drawn_heights_app (c1 c2 : list Waveform.item) :
  Waveform.drawn_heights (c1 ++ c2)
  = Waveform.drawn_heights c1 ++ Waveform.drawn_heights c2.
Proof.
  induction c1 as [|[x0 y0 x1 y1|x0 y0 x1 y1] c1 IH]; simpl;
    [reflexivity | exact IH | rewrite IH; reflexivity].
Qed.

Lemma drawn_heights_bar (w : Waveform.t) (sx : Z) (i : nat) (h : Z) :
  Waveform.drawn_heights [Waveform.bar_rectangle w sx i h] = [h].
Proof. simpl. f_equal. lia. Qed.

Lemma drawn_heights_grid (w : Waveform.t) :
  Waveform.drawn_heights (Waveform.grid_lines w) = [].
Proof. reflexivity. Qed.

(** Not animating: every bar has height 2 and [heights] is not touched. *)
Lemma draw_bars_flat (w : Waveform.t) (sx : Z) (rng : nat -> Z) :
  Waveform.animation_running w = false ->
  forall (indices : list nat) (hs : list Z) (canvas : list Waveform.item),
  exists canvas',
    Waveform.draw_bars w sx rng indices hs canvas = Some (hs, canvas') /\
    Waveform.drawn_heights canvas'
    = Waveform.drawn_heights canvas ++ repeat 2 (length indices).
Proof.
  intros Hrun indices. induction indices as [|i rest IH]; intros hs canvas.
  - exists canvas. simpl. rewrite app_nil_r. split; reflexivity.
  - simpl. rewrite Hrun. simpl.
    destruct (IH hs (canvas ++ [Waveform.bar_rectangle w sx i 2])) as (c' & E & Hc).
    exists c'. split; [exact E|].
    rewrite Hc, drawn_heights_app, drawn_heights_bar, <- app_assoc. reflexivity.
Qed.

(** Animating, from bar [S j] on: the loop stores and draws a walk that
    starts from the height stored for bar [j]. *)
Lemma draw_bars_walk (w : Waveform.t) (sx : Z) (rng : nat -> Z) :
  Waveform.animation_running w = true ->
  forall (m j : nat) (hs : list Z) (canvas : list Waveform.item) (prev : Z),
    hs !! j = Some prev ->
    (S j + m <= length hs)%nat ->
    exists hs' canvas' new,
      Waveform.draw_bars w sx rng (seq (S j) m) hs canvas = Some (hs', canvas') /\
      Waveform.drawn_heights canvas' = Waveform.drawn_heights canvas ++ new /\
      length new = m /\ length hs' = length hs /\
      Waveform.walk w prev new.
Proof.
  intros Hrun m. induction m as [|m IH]; intros j hs canvas prev Hj Hlen.
  - exists hs, canvas, []. simpl. rewrite app_nil_r.
    repeat split; constructor.
  - cbn [seq Waveform.draw_bars]. rewrite Hrun. cbn [negb].
    unfold Waveform.bar_height at 1. rewrite Hj.
    assert (Hlt : (S j <? length hs)%nat = true) by (apply Nat.ltb_lt; lia).
    rewrite Hlt.
    set (h := Py.maxi 2 (Py.mini (Waveform.max_height w)
                (prev + Random.randint (- Waveform.max_diff w)
                          (Waveform.max_diff w) (rng (S j))))).
    destruct (IH (S j) (<[S j := h]> hs)
                 (canvas ++ [Waveform.bar_rectangle w sx (S j) h]) h)
      as (hs' & c' & new & E & Hc & Hn & Hl & Hw).
    { apply list_lookup_insert_eq. lia. }
    { rewrite length_insert. lia. }
    exists hs', c', (h :: new). split; [exact E|].
    split.
    { rewrite Hc, drawn_heights_app, drawn_heights_bar, <- app_assoc. reflexivity. }
    split; [simpl; lia|].
    split; [rewrite Hl, length_insert; reflexivity|].
    apply (Waveform.walk_cons w prev (rng (S j)) new). exact Hw.
Qed.

Lemma int_le_nonneg (x : Q) : (0 <= x)%Q -> (inject_Z (Py.int x) <= x)%Q.
Proof.
  intros H. unfold Py.int.
  destruct (Qle_bool 0 x) eqn:E; [apply Qfloor_le|].
  apply (proj2 (Qle_bool_iff 0 x)) in H. congruence.
Qed.

Lemma int_nonpos (x : Q) : (x <= 0)%Q -> Py.int x <= 0.
Proof.
  intros H. unfold Py.int.
  destruct (Qle_bool 0 x) eqn:E.
  - change 0 with (Qfloor 0). apply Qfloor_resp_le. exact H.
  - unfold Qceiling.
    assert (0 <= Qfloor (- x)); [|lia].
    change 0 with (Qfloor 0) at 1. apply Qfloor_resp_le. lra.
Qed.

Lemma max_diff_bound (w : Waveform.t) :
  (inject_Z (Waveform.max_diff w) <= 5 \/
   inject_Z (Waveform.max_diff w) <= Float.mul (Waveform.amplitude w) 20)%Q.
Proof.
  unfold Waveform.max_diff. rewrite maxi_max.
  set (y := Float.mul (Waveform.amplitude w) 20).
  destruct (Z_le_gt_dec (Py.int y) 5) as [Hle|Hgt].
  - left. rewrite Z.max_l by lia. apply Qle_refl.
  - right. rewrite Z.max_r by lia. apply int_le_nonneg.
    destruct (Qlt_le_dec y 0) as [Hneg|Hpos]; [|exact Hpos].
    pose proof (int_nonpos y) as Hn.
    assert (Py.int y <= 0) by (apply Hn; lra). lia.
Qed.

Lemma float_08 : Float.round (8 # 10) == 3602879701896397 # 4503599627370496.
Proof. vm_compute. reflexivity. Qed.

(** The float product [height * 0.8] for a height of at least 1: it
    exceeds the exact product by less than one part in [2^50]. *)
Lemma height_08_bound (h : Z) :
  1 <= h ->
  (0 <= Float.mul (Float.of_int h) (Float.round (8 # 10)))%Q /\
  (Float.mul (Float.of_int h) (Float.round (8 # 10))
   <= inject_Z h * (8 # 10) * (1 + (1 # 1125899906842624)))%Q.
Proof.
  intros Hh.
  assert (H1 : (1 <= inject_Z h)%Q).
  { change 1%Q with (inject_Z 1). rewrite <- Zle_Qle. exact Hh. }
  pose proof emin_small as Hm.
  destruct (round_error (inject_Z h)) as [Hlo Hhi]; [lra|].
  unfold Float.mul, Float.of_int.
  set (x1 := Float.round (inject_Z h)) in *.
  assert (Hp : (x1 * Float.round (8 # 10)
                == x1 * (3602879701896397 # 4503599627370496))%Q)
    by (rewrite float_08; reflexivity).
  destruct (round_error (x1 * Float.round (8 # 10))) as [Hlo' Hhi']; [rewrite Hp; lra|].
  set (r := Float.round (x1 * Float.round (8 # 10))) in *.
  rewrite Hp in Hlo', Hhi'.
  split; lra.
Qed.

Lemma max_height_0 (w : Waveform.t) : Waveform.height w = 0 -> Waveform.max_height w = 0.
Proof. intros E. unfold Waveform.max_height. rewrite E. vm_compute. reflexivity. Qed.

Lemma max_height_le_height (w : Waveform.t) :
  0 <= Waveform.height w -> Waveform.max_height w <= Waveform.height w.
Proof.
  intros H. destruct (Z_le_gt_dec (Waveform.height w) 0) as [Hz|Hp].
  - rewrite max_height_0 by lia. exact H.
  - unfold Waveform.max_height.
    destruct (height_08_bound (Waveform.height w)) as [H0 H1]; [lia|].
    pose proof (int_le_nonneg _ H0) as Hi.
    assert (HQ : (1 <= inject_Z (Waveform.height w))%Q).
    { change 1%Q with (inject_Z 1). rewrite <- Zle_Qle. lia. }
    set (k := Py.int (Float.mul (Float.of_int (Waveform.height w)) (Float.round (8 # 10)))) in *.
    set (r := Float.mul (Float.of_int (Waveform.height w)) (Float.round (8 # 10))) in *.
    assert (Hq : (inject_Z k <= inject_Z (Waveform.height w))%Q) by lra.
    rewrite <- Zle_Qle in Hq. exact Hq.
Qed.

(** On a canvas whose height fits 31 bits, [int(height * 0.8)] is at most
    80% of the height: the rounding of the product does not carry it over
    the next integer. *)
Lemma max_height_le (w : Waveform.t) :
  0 <= Waveform.height w < 2 ^ 31 ->
  (inject_Z (Waveform.max_height w) <= inject_Z (Waveform.height w) * (8 # 10))%Q.
Proof.
  intros [H H31]. destruct (Z_le_gt_dec (Waveform.height w) 0) as [Hz|Hp].
  - rewrite max_height_0 by lia.
    assert (E : Waveform.height w = 0) by lia. rewrite E. discriminate.
  - unfold Waveform.max_height.
    destruct (height_08_bound (Waveform.height w)) as [H0 H1]; [lia|].
    pose proof (int_le_nonneg _ H0) as Hi.
    assert (HQ : (inject_Z (Waveform.height w) < 2147483648)%Q).
    { change 2147483648%Q with (inject_Z (2 ^ 31)). rewrite <- Zlt_Qlt. exact H31. }
    set (k := Py.int (Float.mul (Float.of_int (Waveform.height w)) (Float.round (8 # 10)))) in *.
    set (r := Float.mul (Float.of_int (Waveform.height w)) (Float.round (8 # 10))) in *.
    assert (Hlt : (inject_Z (5 * k) < inject_Z (4 * Waveform.height w + 1))%Q).
    { rewrite inject_Z_plus, !inject_Z_mult.
      change (inject_Z 5) with 5%Q. change (inject_Z 4) with 4%Q.
      change (inject_Z 1) with 1%Q. lra. }
    rewrite <- Zlt_Qlt in Hlt.
    assert (Hle : 5 * k <= 4 * Waveform.height w) by lia.
    rewrite Zle_Qle, !inject_Z_mult in Hle.
    change (inject_Z 5) with 5%Q in Hle. change (inject_Z 4) with 4%Q in Hle. lra.
Qed.

Lemma walk_bounds (w : Waveform.t) (prev : Z) (l : list Z) :
  Waveform.walk w prev l ->
  Forall (fun h => 2 <= h <= Z.max 2 (Waveform.max_height w)) l.
Proof.
  induction 1 as [prev | prev e rest h Hw IH]; constructor; [|exact IH].
  subst h. rewrite maxi_max, mini_min. lia.
Qed.

Lemma walk_adjacent (w : Waveform.t) (prev : Z) (l : list Z) :
  Waveform.walk w prev l ->
  2 <= prev <= Z.max 2 (Waveform.max_height w) ->
  forall (i : nat) (h h' : Z),
    (prev :: l) !! i = Some h -> (prev :: l) !! S i = Some h' ->
    exists r, Z.abs r <= Waveform.max_diff w /\ h' = h + r.
Proof.
  induction 1 as [prev | prev e rest h Hw IH]; intros Hp i x x' Hx Hx'.
  - destruct i; discriminate Hx'.
  - assert (Hh : 2 <= h <= Z.max 2 (Waveform.max_height w)).
    { subst h. rewrite maxi_max, mini_min. lia. }
    destruct i as [|i].
    + simpl in Hx, Hx'. injection Hx as <-. injection Hx' as <-.
      exists (h - prev). split; [|lia].
      pose proof (max_diff_ge_5 w) as H5.
      pose proof (randint_range (- Waveform.max_diff w) (Waveform.max_diff w) e) as Hr.
      subst h. rewrite maxi_max, mini_min in *. lia.
    + apply (IH Hh i x x'); assumption.
Qed.

(** C8 (as amended).  On a widget in range, [draw_waveform] draws
    [bars_to_draw] bars.  While animating, the first bar is the clamped
    [int(amplitude * height * 0.8)], every later bar is its predecessor plus
    a perturbation of magnitude at most [max(5, int(amplitude * 20))], which
    is at most [max(5, amplitude * 20)], the products being float products;
    every bar height is at least 2 and at most [max(2, int(height * 0.8))],
    hence at most 80% of the canvas height as soon as the canvas is 3 or
    more high.  When not animating, every bar has height 2. *)
Theorem draw_waveform_bar_heights (w : Waveform.t) (rng : nat -> Z) :
  Waveform.in_range w ->
  (Waveform.animation_running w = true ->
   (Z.to_nat (Waveform.bars_to_draw w) <= length (Waveform.heights w))%nat) ->
  exists w' canvas,
    Waveform.draw_waveform w rng = Some (w', canvas) /\
    length (Waveform.heights w') = length (Waveform.heights w) /\
    let hs := Waveform.drawn_heights canvas in
    length hs = Z.to_nat (Waveform.bars_to_draw w) /\
    if Waveform.animation_running w then
      (forall i h, hs !! i = Some h ->
         2 <= h <= Z.max 2 (Waveform.max_height w)) /\
      (3 <= Waveform.height w ->
       forall i h, hs !! i = Some h ->
         (inject_Z h <= inject_Z (Waveform.height w) * (8 # 10))%Q) /\
      (forall i h h', hs !! i = Some h -> hs !! S i = Some h' ->
         exists r, Z.abs r <= Waveform.max_diff w /\ h' = h + r) /\
      Waveform.max_diff w
      = Z.max 5 (Py.int (Float.mul (Waveform.amplitude w) 20)) /\
      (inject_Z (Waveform.max_diff w) <= 5 \/
       inject_Z (Waveform.max_diff w) <= Float.mul (Waveform.amplitude w) 20)%Q /\
      match hs with
      | [] => True
      | h0 :: rest =>
          h0 = Py.maxi 2 (Py.mini (Waveform.max_height w)
                 (Py.int (Float.mul
                            (Float.mul (Waveform.amplitude w)
                                       (Float.of_int (Waveform.height w)))
                            (Float.round (8 # 10))))) /\
          Waveform.walk w h0 rest
      end
    else forall i h, hs !! i = Some h -> h = 2.
Proof.
  intros [Hheight _] Hinv. unfold Waveform.draw_waveform.
  set (n := Z.to_nat (Waveform.bars_to_draw w)) in *.
  set (sx := (Waveform.width w
              - Waveform.bars_to_draw w * (Waveform.bar_width w + Waveform.bar_gap w)) / 2).
  destruct (Waveform.animation_running w) eqn:Hrun.
  - specialize (Hinv eq_refl).
    assert (Hmd : Waveform.max_diff w
                  = Z.max 5 (Py.int (Float.mul (Waveform.amplitude w) 20)))
      by (unfold Waveform.max_diff; apply maxi_max).
    destruct n as [|m] eqn:Hn.
    + exists (Waveform.set_heights w (Waveform.heights w)), (Waveform.grid_lines w).
      simpl. repeat split; try discriminate; try exact Hmd; try apply max_diff_bound.
    + cbn [seq Waveform.draw_bars]. rewrite Hrun. cbn [negb Waveform.bar_height].
      assert (Hlt : (0 <? length (Waveform.heights w))%nat = true)
        by (apply Nat.ltb_lt; lia).
      rewrite Hlt.
      set (h0 := Py.maxi 2 (Py.mini (Waveform.max_height w)
                   (Py.int (Float.mul
                              (Float.mul (Waveform.amplitude w)
                                         (Float.of_int (Waveform.height w)))
                              (Float.round (8 # 10)))))).
      destruct (draw_bars_walk w sx rng Hrun m 0%nat (<[0%nat := h0]> (Waveform.heights w))
                  (Waveform.grid_lines w ++ [Waveform.bar_rectangle w sx 0 h0]) h0)
        as (hs' & c' & new & E & Hc & Hlen & Hl & Hw).
      { apply list_lookup_insert_eq. lia. }
      { rewrite length_insert. lia. }
      rewrite E. exists (Waveform.set_heights w hs'), c'.
      split; [reflexivity|].
      split; [simpl; rewrite Hl, length_insert; reflexivity|].
      rewrite drawn_heights_app, drawn_heights_grid, drawn_heights_bar in Hc.
      simpl in Hc. cbv zeta. rewrite Hc.
      assert (Hh0 : 2 <= h0 <= Z.max 2 (Waveform.max_height w)).
      { subst h0. rewrite maxi_max, mini_min. lia. }
      assert (Hall : forall i h, (h0 :: new) !! i = Some h ->
                       2 <= h <= Z.max 2 (Waveform.max_height w)).
      { intros [|i] h Hi; simpl in Hi.
        - injection Hi as <-. exact Hh0.
        - pose proof (walk_bounds w h0 new Hw) as HF.
          rewrite Forall_lookup in HF. exact (HF i h Hi). }
      split; [simpl; lia|].
      split; [exact Hall|].
      split.
      { intros H3 i h Hi. pose proof (max_height_le w ltac:(lia)) as Hq.
        specialize (Hall i h Hi).
        assert (H3q : (3 <= inject_Z (Waveform.height w))%Q).
        { change 3%Q with (inject_Z 3). rewrite <- Zle_Qle. exact H3. }
        destruct (Z_le_gt_dec h 2) as [H2|H2].
        - assert (Hle : (inject_Z h <= 2)%Q).
          { change 2%Q with (inject_Z 2). rewrite <- Zle_Qle. exact H2. }
          lra.
        - assert (Hle : h <= Waveform.max_height w) by lia.
          rewrite Zle_Qle in Hle. lra. }
      split; [exact (walk_adjacent w h0 new Hw Hh0)|].
      split; [exact Hmd|].
      split; [apply max_diff_bound|].
      split; [reflexivity | exact Hw].
  - destruct (draw_bars_flat w sx rng Hrun (seq 0 n) (Waveform.heights w)
                (Waveform.grid_lines w)) as (c' & E & Hc).
    rewrite E. exists (Waveform.set_heights w (Waveform.heights w)), c'.
    split; [reflexivity|]. split; [reflexivity|].
    rewrite drawn_heights_grid in Hc. simpl in Hc. cbv zeta. rewrite Hc.
    rewrite length_seq. split; [apply repeat_length|].
    intros i h Hi. apply list_elem_of_lookup_2 in Hi.
    apply list_elem_of_In in Hi. apply repeat_spec in Hi. exact Hi.
Qed.

Lemma draw_waveform_bar_heights_witness :
  exists w' canvas,
    Waveform.draw_waveform Scenario.display Scenario.rng = Some (w', canvas) /\
    length (Waveform.drawn_heights canvas) = 60%nat.
Proof.
  destruct (draw_waveform_bar_heights Scenario.display Scenario.rng)
    as (w' & canvas & E & _ & Hl & _).
  { unfold Waveform.in_range.
    assert (E : Waveform.amplitude Scenario.display == 3 # 4) by (vm_compute; reflexivity).
    rewrite E. split; [cbn; lia|]. split; unfold Qle; simpl; lia. }
  { intros _. vm_compute. lia. }
  exists w', canvas. split; [exact E | exact Hl].
Defined.

(** After the level 0.3 the stored amplitude times 20 rounds up to 9.0, so
    that bars may differ by 9, and the first bar is 54 high. *)
Example max_diff_03 :
  Waveform.max_diff (Waveform.update_amplitude (Waveform.init 800 150) (Float.round (3 # 10)))
  = 9.
Proof. vm_compute. reflexivity. Qed.

Example first_bar_03 :
  Waveform.bar_height
    (Waveform.update_amplitude (Waveform.init 800 150) (Float.round (3 # 10))) 0 0 []
  = Some 54.
Proof. vm_compute. reflexivity. Qed.

(** C8 (as stated) fails on a canvas of height 2: the bars are 2 high, which
    is more than 80% of the canvas height. *)
Lemma draw_waveform_bar_above_80_percent :
  Waveform.animation_running Scenario.low_display = true /\
  exists w' canvas,
    Waveform.draw_waveform Scenario.low_display Scenario.rng = Some (w', canvas) /\
    exists i h,
      Waveform.drawn_heights canvas !! i = Some h /\
      ~ (inject_Z h <= inject_Z (Waveform.height Scenario.low_display) * (8 # 10))%Q.
Proof.
  split; [reflexivity|].
  destruct (Waveform.draw_waveform Scenario.low_display Scenario.rng)
    as [[w' canvas]|] eqn:E; [|vm_compute in E; discriminate E].
  exists w', canvas. split; [reflexivity|].
  exists 0%nat, 2.
  assert (Hc : Waveform.drawn_heights canvas !! 0%nat = Some 2).
  { assert (Hd : option_map (fun p => Waveform.drawn_heights (snd p) !! 0%nat)
                   (Waveform.draw_waveform Scenario.low_display Scenario.rng)
                 = Some (Some 2)) by (vm_compute; reflexivity).
    rewrite E in Hd. simpl in Hd. injection Hd as Hd. exact Hd. }
  split; [exact Hc|].
  unfold Qle. simpl. lia.
Qed.

(** ** file_manager.py: [delete_recording] *)

(** X11.  What [delete_recording] does at a path that is spelled
    canonically: when nothing exists there it returns [False] and leaves
    the file system as it is; when a regular file exists there it removes
    that file, leaves every other path as it is, and returns [True]; when
    a directory exists there it raises. *)
Theorem delete_recording_result (fm : FileManager.t) (fs : Os.filesystem)
        (filename : string) :
  let file_path := Os.join (FileManager.recordings_dir fm) filename in
  Os.canonical file_path = true ->
  (Os.exists_ fs file_path = false ->
   FileManager.delete_recording fm fs filename = Some (fs, false)) /\
  (Os.isfile fs file_path = true ->
   exists fs',
     FileManager.delete_recording fm fs filename = Some (fs', true) /\
     fs' !! file_path = None /\
     forall q, q <> file_path -> fs' !! q = fs !! q) /\
  (fs !! file_path = Some Os.Dir ->
   FileManager.delete_recording fm fs filename = None).
Proof.
  intros file_path _. unfold FileManager.delete_recording. fold file_path.
  split; [|split].
  - intros H. rewrite H. reflexivity.
  - intros H.
    assert (He : Os.exists_ fs file_path = true).
    { unfold Os.exists_, Os.isfile in *. destruct (fs !! file_path); [|discriminate].
      apply orb_true_r. }
    rewrite He. unfold Os.remove. rewrite H.
    exists (delete file_path fs). split; [reflexivity|].
    split; [apply lookup_delete_eq|].
    intros q Hq. apply lookup_delete_ne. congruence.
  - intros H. unfold Os.exists_, Os.remove, Os.isfile. rewrite H, orb_true_r. reflexivity.
Qed.

Lemma delete_recording_result_witness :
  FileManager.delete_recording Scenario.fm Scenario.fs "missing.wav"
  = Some (Scenario.fs, false) /\
  (exists fs',
     FileManager.delete_recording Scenario.fm Scenario.fs "a.wav" = Some (fs', true) /\
     fs' !! Os.join (FileManager.recordings_dir Scenario.fm) "a.wav" = None /\
     forall q, q <> Os.join (FileManager.recordings_dir Scenario.fm) "a.wav" ->
               fs' !! q = Scenario.fs !! q) /\
  FileManager.delete_recording Scenario.fm Scenario.fs "sub" = None.
Proof.
  split; [|split].
  - apply (proj1 (delete_recording_result Scenario.fm Scenario.fs "missing.wav"
                    ltac:(vm_compute; reflexivity))).
    vm_compute. reflexivity.
  - apply (proj1 (proj2 (delete_recording_result Scenario.fm Scenario.fs "a.wav"
                           ltac:(vm_compute; reflexivity)))).
    vm_compute. reflexivity.
  - apply (proj2 (proj2 (delete_recording_result Scenario.fm Scenario.fs "sub"
                           ltac:(vm_compute; reflexivity)))).
    vm_compute. reflexivity.
Defined.

(** C5.  For a name that exists in the recordings directory as a
    directory, [delete_recording] raises where its docstring promises a
    flag: [os.path.exists] holds for the directory, and [os.remove] raises
    [IsADirectoryError]. *)
Lemma delete_recording_of_directory :
  Os.exists_ Scenario.fs (Os.join (FileManager.recordings_dir Scenario.fm) "sub") = true /\
  (exists names, Os.listdir Scenario.fs (FileManager.recordings_dir Scenario.fm)
                 = Some names /\ "sub"%string ∈ names) /\
  FileManager.delete_recording Scenario.fm Scenario.fs "sub" = None.
Proof.
  split; [vm_compute; reflexivity|].
  split; [|vm_compute; reflexivity].
  destruct (Os.listdir Scenario.fs (FileManager.recordings_dir Scenario.fm))
    as [names|] eqn:E; [|vm_compute in E; discriminate E].
  exists names. split; [reflexivity|].
  assert (Hc : option_map (fun l => bool_decide ("sub"%string ∈ l))
                 (Os.listdir Scenario.fs (FileManager.recordings_dir Scenario.fm))
               = Some true) by (vm_compute; reflexivity).
  rewrite E in Hc. simpl in Hc. injection Hc as Hc.
  apply bool_decide_eq_true in Hc. exact Hc.
Qed.

(** ** file_manager.py: the generated file name *)

Lemma str_nat_4 (n : Z) :
  1000 <= n < 10000 ->
  Py.str_nat n
  = String (Py.digit (n / 10 / 10 / 10))
      (String (Py.digit ((n / 10 / 10) mod 10))
         (String (Py.digit ((n / 10) mod 10)) (String (Py.digit (n mod 10)) EmptyString))).
Proof.
  intros H. unfold Py.str_nat.
  destruct (log2_fuel n 3) as [f ->]; [simpl; lia|].
  change (3 + f)%nat with (S (S (S f))).
  assert (H1 : 100 <= n / 10 < 1000)
    by (split; [apply Z.div_le_lower_bound | apply Z.div_lt_upper_bound]; lia).
  assert (H2 : 10 <= n / 10 / 10 < 100)
    by (split; [apply Z.div_le_lower_bound | apply Z.div_lt_upper_bound]; lia).
  assert (H3 : 1 <= n / 10 / 10 / 10 < 10)
    by (split; [apply Z.div_le_lower_bound | apply Z.div_lt_upper_bound]; lia).
  rewrite digits_step by lia. rewrite digits_step by lia. rewrite digits_step by lia.
  apply digits_small. lia.
Qed.

Lemma format_04d_year (n : Z) :
  1000 <= n < 10000 ->
  Py.format_0d 4 n
  = String (Py.digit (n / 10 / 10 / 10))
      (String (Py.digit ((n / 10 / 10) mod 10))
         (String (Py.digit ((n / 10) mod 10)) (String (Py.digit (n mod 10)) EmptyString))).
Proof.
  intros H. unfold Py.format_0d. destruct (Z.ltb_spec n 0); [lia|].
  rewrite str_nat_4 by lia. reflexivity.
Qed.

Lemma is_digit_mod (n : Z) : Py.is_digit (Py.digit (n mod 10)) = true.
Proof. apply digit_is_digit. pose proof (Z.mod_pos_bound n 10). lia. Qed.

Lemma is_digit_div (n : Z) : 0 <= n < 100 -> Py.is_digit (Py.digit (n / 10)) = true.
Proof.
  intros H. apply digit_is_digit.
  split; [apply Z.div_pos; lia|].
  assert (n / 10 < 10) by (apply Z.div_lt_upper_bound; lia). lia.
Qed.

Lemma two_digits_inj (a b : Z) :
  0 <= a < 100 -> 0 <= b < 100 ->
  Py.digit (a / 10) = Py.digit (b / 10) -> Py.digit (a mod 10) = Py.digit (b mod 10) ->
  a = b.
Proof.
  intros Ha Hb Hd Hm.
  pose proof (Z.mod_pos_bound a 10). pose proof (Z.mod_pos_bound b 10).
  assert (0 <= a / 10 <= 9).
  { split; [apply Z.div_pos; lia|].
    assert (a / 10 < 10) by (apply Z.div_lt_upper_bound; lia). lia. }
  assert (0 <= b / 10 <= 9).
  { split; [apply Z.div_pos; lia|].
    assert (b / 10 < 10) by (apply Z.div_lt_upper_bound; lia). lia. }
  apply digit_inj in Hd; [|lia|lia]. apply digit_inj in Hm; [|lia|lia].
  rewrite (Z.div_mod a 10), (Z.div_mod b 10) by lia. lia.
Qed.

Lemma strftime_compact_chars (d : Datetime.t) :
  Datetime.valid d ->
  Datetime.strftime_compact d
  = (let y := Datetime.year d in
     String (Py.digit (y / 10 / 10 / 10))
       (String (Py.digit ((y / 10 / 10) mod 10))
          (String (Py.digit ((y / 10) mod 10)) (String (Py.digit (y mod 10)) EmptyString))))
    +:+ Py.format_0d 2 (Datetime.month d) +:+ Py.format_0d 2 (Datetime.day d)
    +:+ "_" +:+ Py.format_0d 2 (Datetime.hour d) +:+ Py.format_0d 2 (Datetime.minute d)
    +:+ Py.format_0d 2 (Datetime.second d).
Proof.
  intros (Hy & _). unfold Datetime.strftime_compact.
  rewrite format_04d_year by lia. reflexivity.
Qed.

Lemma four_digits_inj (a b : Z) :
  1000 <= a < 10000 -> 1000 <= b < 10000 ->
  Py.digit (a / 10 / 10 / 10) = Py.digit (b / 10 / 10 / 10) ->
  Py.digit ((a / 10 / 10) mod 10) = Py.digit ((b / 10 / 10) mod 10) ->
  Py.digit ((a / 10) mod 10) = Py.digit ((b / 10) mod 10) ->
  Py.digit (a mod 10) = Py.digit (b mod 10) ->
  a = b.
Proof.
  intros Ha Hb H3 H2 H1 H0.
  assert (Hr : forall n, 1000 <= n < 10000 -> 0 <= n / 10 / 10 / 10 <= 9).
  { intros n Hn.
    assert (n / 10 < 1000) by (apply Z.div_lt_upper_bound; lia).
    assert (0 <= n / 10) by (apply Z.div_pos; lia).
    assert (n / 10 / 10 < 100) by (apply Z.div_lt_upper_bound; lia).
    assert (0 <= n / 10 / 10) by (apply Z.div_pos; lia).
    assert (n / 10 / 10 / 10 < 10) by (apply Z.div_lt_upper_bound; lia).
    assert (0 <= n / 10 / 10 / 10) by (apply Z.div_pos; lia). lia. }
  assert (Hm : forall n, 0 <= n mod 10 <= 9)
    by (intros n; pose proof (Z.mod_pos_bound n 10); lia).
  apply digit_inj in H3; [|apply Hr; lia|apply Hr; lia].
  apply digit_inj in H2; [|apply Hm|apply Hm].
  apply digit_inj in H1; [|apply Hm|apply Hm].
  apply digit_inj in H0; [|apply Hm|apply Hm].
  pose proof (Z.div_mod a 10). pose proof (Z.div_mod (a / 10) 10).
  pose proof (Z.div_mod (a / 10 / 10) 10).
  pose proof (Z.div_mod b 10). pose proof (Z.div_mod (b / 10) 10).
  pose proof (Z.div_mod (b / 10 / 10) 10). lia.
Qed.

(** The generated name, character by character. *)
Lemma generated_name_chars (d : Datetime.t) :
  Datetime.valid d ->
  FileManager.generated_name d
  = "recording_" +:+
    (let y := Datetime.year d in
     String (Py.digit (y / 10 / 10 / 10))
       (String (Py.digit ((y / 10 / 10) mod 10))
          (String (Py.digit ((y / 10) mod 10))
             (String (Py.digit (y mod 10))
                (Py.two_digits (Datetime.month d)
                   (Py.two_digits (Datetime.day d)
                      (String "_"
                         (Py.two_digits (Datetime.hour d)
                            (Py.two_digits (Datetime.minute d)
                               (Py.two_digits (Datetime.second d) ".wav"))))))))))%string.
Proof.
  intros Hv. unfold FileManager.generated_name.
  rewrite strftime_compact_chars by exact Hv.
  destruct Hv as (Hy & Hmo & Hd & Hh & Hmi & Hs & _).
  rewrite !format_02d_small by lia. reflexivity.
Qed.

Lemma pattern_chars (y3 y2 y1 y0 m1 m0 d1 d0 h1 h0 i1 i0 s1 s0 : ascii) :
  Forall (fun c => Py.is_digit c = true)
         [y3; y2; y1; y0; m1; m0; d1; d0; h1; h0; i1; i0; s1; s0] ->
  FileManager.matches_timestamp_pattern
    ("recording_" +:+
     String y3 (String y2 (String y1 (String y0 (String m1 (String m0
       (String d1 (String d0 (String "_" (String h1 (String h0 (String i1
         (String i0 (String s1 (String s0 ".wav")))))))))))))))
  = true.
Proof.
  intros H.
  repeat match goal with
         | H : Forall _ (_ :: _) |- _ => apply Forall_cons in H; destruct H as [? H]
         end.
  unfold FileManager.matches_timestamp_pattern. simpl.
  repeat match goal with
         | H : Py.is_digit _ = true |- _ => rewrite H; clear H
         end.
  reflexivity.
Qed.

Lemma is_digit_not_slash (c : ascii) : Py.is_digit c = true -> Os.is_slash c = false.
Proof.
  intros H. unfold Os.is_slash. destruct (Ascii.eqb_spec c "/") as [->|]; [|reflexivity].
  vm_compute in H. discriminate H.
Qed.

Lemma generated_name_digits (d : Datetime.t) :
  Datetime.valid d ->
  let y := Datetime.year d in
  Forall (fun c => Py.is_digit c = true)
         [Py.digit (y / 10 / 10 / 10); Py.digit ((y / 10 / 10) mod 10);
          Py.digit ((y / 10) mod 10); Py.digit (y mod 10);
          Py.digit (Datetime.month d / 10); Py.digit (Datetime.month d mod 10);
          Py.digit (Datetime.day d / 10); Py.digit (Datetime.day d mod 10);
          Py.digit (Datetime.hour d / 10); Py.digit (Datetime.hour d mod 10);
          Py.digit (Datetime.minute d / 10); Py.digit (Datetime.minute d mod 10);
          Py.digit (Datetime.second d / 10); Py.digit (Datetime.second d mod 10)].
Proof.
  intros (Hy & Hmo & Hd & Hh & Hmi & Hs & _) y.
  assert (H3 : Py.is_digit (Py.digit (y / 10 / 10 / 10)) = true).
  { apply digit_is_digit. subst y.
    assert (Datetime.year d / 10 < 1000) by (apply Z.div_lt_upper_bound; lia).
    assert (0 <= Datetime.year d / 10) by (apply Z.div_pos; lia).
    assert (Datetime.year d / 10 / 10 < 100) by (apply Z.div_lt_upper_bound; lia).
    assert (0 <= Datetime.year d / 10 / 10) by (apply Z.div_pos; lia).
    assert (Datetime.year d / 10 / 10 / 10 < 10) by (apply Z.div_lt_upper_bound; lia).
    assert (0 <= Datetime.year d / 10 / 10 / 10) by (apply Z.div_pos; lia). lia. }
  repeat match goal with
         | |- Forall _ (_ :: _) => apply Forall_cons_2
         | |- Forall _ [] => apply Forall_nil_2
         end;
    match goal with
    | |- Py.is_digit (Py.digit (_ mod 10)) = true => apply is_digit_mod
    | |- Py.is_digit (Py.digit (_ / 10 / 10 / 10)) = true => exact H3
    | |- Py.is_digit (Py.digit (_ / 10)) = true => apply is_digit_div; lia
    end.
Qed.

(** ** Paths *)

Lemma append_nil_l (b : string) : EmptyString +:+ b = b.
Proof. reflexivity. Qed.

Lemma append_cons (c : ascii) (a b : string) : String c a +:+ b = String c (a +:+ b).
Proof. reflexivity. Qed.

Lemma split_last_cons (c : ascii) (p : string) :
  Os.split_last (String c p)
  = (let (head, tail) := Os.split_last p in
     if Os.is_empty head then
       if Os.is_slash c then (String c EmptyString, p) else (EmptyString, String c tail)
     else (String c head, tail)).
Proof. reflexivity. Qed.

Lemma split_last_no_slash (n : string) :
  Os.no_slash n = true -> Os.split_last n = (EmptyString, n).
Proof.
  induction n as [|c n IH]; intros H; [reflexivity|].
  simpl in H. apply andb_true_iff in H as [Hc Hn].
  rewrite split_last_cons, (IH Hn). cbn [Os.is_empty].
  destruct (Os.is_slash c); [discriminate Hc | reflexivity].
Qed.

Lemma append_not_empty (a b : string) :
  Os.is_empty b = false -> Os.is_empty (a +:+ b) = false.
Proof. intros H. destruct a; [exact H | reflexivity]. Qed.

Lemma split_last_sep (a n : string) :
  Os.no_slash n = true ->
  Os.split_last (a +:+ String "/" n) = (a +:+ "/", n).
Proof.
  intros Hn. induction a as [|c a IH].
  - rewrite !append_nil_l, split_last_cons, (split_last_no_slash n Hn). reflexivity.
  - rewrite !append_cons, split_last_cons, IH.
    rewrite append_not_empty by reflexivity. reflexivity.
Qed.

Lemma endswith_slash_inv (a : string) :
  Os.endswith_slash a = true -> exists a', a = a' +:+ "/".
Proof.
  induction a as [|c a IH]; intros H; [discriminate H|].
  destruct a as [|c' a].
  - simpl in H. unfold Os.is_slash in H. apply Ascii.eqb_eq in H. subst c.
    exists EmptyString. reflexivity.
  - destruct IH as [a' Ha]; [exact H|]. exists (String c a').
    rewrite append_cons, <- Ha. reflexivity.
Qed.

Lemma append_assoc (a b c : string) : (a +:+ b) +:+ c = a +:+ (b +:+ c).
Proof.
  induction a as [|x a IH]; [reflexivity|].
  rewrite !append_cons, IH. reflexivity.
Qed.

Lemma append_inj_l (a x y : string) : a +:+ x = a +:+ y -> x = y.
Proof.
  induction a as [|c a IH]; intros H; [exact H|].
  rewrite !append_cons in H. injection H as H. exact (IH H).
Qed.

(** Joining a directory and a plain name, and taking the base name back. *)
Lemma basename_join (d n : string) :
  Os.no_slash n = true -> Os.basename (Os.join d n) = n.
Proof.
  intros Hn. unfold Os.basename, Os.join.
  assert (Hs : Os.startswith_slash n = false).
  { destruct n as [|c n]; [reflexivity|]. simpl in Hn. simpl.
    destruct (Os.is_slash c); [discriminate Hn | reflexivity]. }
  rewrite Hs. destruct d as [|c d].
  - cbn [Os.is_empty orb]. rewrite append_nil_l, (split_last_no_slash n Hn). reflexivity.
  - cbn [Os.is_empty orb].
    destruct (Os.endswith_slash (String c d)) eqn:E.
    + destruct (endswith_slash_inv _ E) as [a' ->].
      rewrite append_assoc. change ("/" +:+ n) with (String "/" n).
      rewrite (split_last_sep a' n Hn). reflexivity.
    + change ("/" +:+ n) with (String "/" n).
      rewrite (split_last_sep (String c d) n Hn). reflexivity.
Qed.

Lemma join_inj (d n n' : string) :
  Os.startswith_slash n = false -> Os.startswith_slash n' = false ->
  Os.join d n = Os.join d n' -> n = n'.
Proof.
  intros H H' E. unfold Os.join in E. rewrite H, H' in E.
  destruct (Os.is_empty d || Os.endswith_slash d).
  - exact (append_inj_l _ _ _ E).
  - apply append_inj_l in E. change ("/" +:+ n) with (String "/" n) in E.
    change ("/" +:+ n') with (String "/" n') in E. injection E as E. exact E.
Qed.

Lemma join_not_empty (d n : string) :
  Os.is_empty n = false -> Os.is_empty (Os.join d n) = false.
Proof.
  intros H. unfold Os.join. destruct (Os.startswith_slash n); [exact H|].
  destruct (Os.is_empty d || Os.endswith_slash d).
  - apply append_not_empty. exact H.
  - apply append_not_empty. reflexivity.
Qed.

Lemma generated_name_inj (d d' : Datetime.t) :
  Datetime.valid d -> Datetime.valid d' ->
  FileManager.generated_name d = FileManager.generated_name d' ->
  Datetime.to_second d = Datetime.to_second d'.
Proof.
  intros Hv Hv' E.
  rewrite (generated_name_chars d Hv), (generated_name_chars d' Hv') in E.
  apply append_inj_l in E. cbv zeta in E. unfold Py.two_digits in E.
  destruct Hv as (Hy & Hmo & Hd & Hh & Hmi & Hs & _).
  destruct Hv' as (Hy' & Hmo' & Hd' & Hh' & Hmi' & Hs' & _).
  injection E; intros.
  unfold Datetime.to_second.
  assert (Datetime.year d = Datetime.year d') as ->
    by (apply four_digits_inj; [lia | lia | assumption..]).
  assert (Datetime.month d = Datetime.month d') as ->
    by (apply two_digits_inj; [lia | lia | assumption..]).
  assert (Datetime.day d = Datetime.day d') as ->
    by (apply two_digits_inj; [lia | lia | assumption..]).
  assert (Datetime.hour d = Datetime.hour d') as ->
    by (apply two_digits_inj; [lia | lia | assumption..]).
  assert (Datetime.minute d = Datetime.minute d') as ->
    by (apply two_digits_inj; [lia | lia | assumption..]).
  assert (Datetime.second d = Datetime.second d') as ->
    by (apply two_digits_inj; [lia | lia | assumption..]).
  reflexivity.
Qed.

Lemma generated_name_no_slash (d : Datetime.t) :
  Datetime.valid d -> Os.no_slash (FileManager.generated_name d) = true.
Proof.
  intros Hv. rewrite (generated_name_chars d Hv).
  pose proof (generated_name_digits d Hv) as H. cbv zeta in *.
  repeat match goal with
         | H : Forall _ (_ :: _) |- _ => apply Forall_cons in H; destruct H as [? H]
         end.
  repeat match goal with
         | H : Py.is_digit _ = true |- _ => apply is_digit_not_slash in H
         end.
  unfold Py.two_digits.
  change ("recording_" +:+ ?x)
    with (String "r" (String "e" (String "c" (String "o" (String "r"
           (String "d" (String "i" (String "n" (String "g" (String "_" x)))))))))).
  cbn [Os.no_slash].
  repeat match goal with
         | H : Os.is_slash _ = false |- _ => rewrite H; clear H
         end.
  reflexivity.
Qed.

Lemma no_slash_not_empty_start (n : string) :
  Os.no_slash n = true -> Os.startswith_slash n = false.
Proof.
  destruct n as [|c n]; [reflexivity|]. simpl.
  destruct (Os.is_slash c); [discriminate | reflexivity].
Qed.

(** C6 (as amended).  With no destination given (or an empty one),
    [save_recording] saves to the recordings directory under the generated
    name, which has the form [recording_YYYYMMDD_HHMMSS.wav] and is derived
    from the current local time; two calls whose readings of the local
    clock differ, in the year, month, day, hour, minute or second, generate
    distinct names. *)
Theorem generated_name_timestamp (fm : FileManager.t) (now now' : Datetime.t) :
  Datetime.valid now -> Datetime.valid now' ->
  FileManager.destination fm now None
  = FileManager.get_recording_path fm (FileManager.generated_name now) /\
  FileManager.destination fm now (Some EmptyString)
  = FileManager.get_recording_path fm (FileManager.generated_name now) /\
  (forall fs src fs' p,
     FileManager.save_recording fm fs now src None = Some (fs', p) ->
     p = FileManager.get_recording_path fm (FileManager.generated_name now)) /\
  Os.basename (FileManager.destination fm now None) = FileManager.generated_name now /\
  FileManager.generated_name now
  = "recording_" +:+ Datetime.strftime_compact now +:+ ".wav" /\
  FileManager.matches_timestamp_pattern (FileManager.generated_name now) = true /\
  (Datetime.to_second now <> Datetime.to_second now' ->
   FileManager.generated_name now <> FileManager.generated_name now' /\
   FileManager.destination fm now None <> FileManager.destination fm now' None).
Proof.
  intros Hv Hv'.
  split; [reflexivity|]. split; [reflexivity|].
  split.
  { intros fs src fs' p H. unfold FileManager.save_recording in H.
    destruct (if _ : bool then _ else _) as [fs1|]; [|discriminate H].
    destruct (Shutil.copy2 _ _ _); [|discriminate H].
    injection H as _ <-. reflexivity. }
  split; [apply basename_join, generated_name_no_slash; exact Hv|].
  split; [reflexivity|].
  split.
  { rewrite (generated_name_chars now Hv). cbv zeta. unfold Py.two_digits.
    apply pattern_chars. exact (generated_name_digits now Hv). }
  intros Hne.
  assert (Hn : FileManager.generated_name now <> FileManager.generated_name now').
  { intros E. apply Hne. exact (generated_name_inj now now' Hv Hv' E). }
  split; [exact Hn|].
  intros E. apply Hn. unfold FileManager.destination in E.
  apply (join_inj (FileManager.recordings_dir fm)); [| |exact E];
    apply no_slash_not_empty_start, generated_name_no_slash; assumption.
Qed.

Lemma generated_name_timestamp_witness :
  FileManager.matches_timestamp_pattern (FileManager.generated_name Scenario.now) = true /\
  FileManager.generated_name Scenario.now <> FileManager.generated_name Scenario.later.
Proof.
  assert (Hv : Datetime.valid Scenario.now) by (vm_compute; intuition discriminate).
  assert (Hv' : Datetime.valid Scenario.later) by (vm_compute; intuition discriminate).
  destruct (generated_name_timestamp Scenario.fm Scenario.now Scenario.later Hv Hv')
    as (_ & _ & _ & _ & _ & Hm & Hd).
  split; [exact Hm|].
  apply Hd. vm_compute. discriminate.
Defined.

Example fromtimestamp_utc :
  Datetime.fromtimestamp Datetime.utc 1709802300 123 = Scenario.now /\
  Datetime.fromtimestamp Datetime.utc 0 0 = Datetime.mk 1970 1 1 0 0 0 0 /\
  Datetime.fromtimestamp Datetime.utc 951782400 0 = Datetime.mk 2000 2 29 0 0 0 0 /\
  Datetime.fromtimestamp Datetime.us_eastern_2024 1730613599 0
  = Datetime.mk 2024 11 3 1 59 59 0 /\
  Datetime.fromtimestamp Datetime.us_eastern_2024 1730613600 0
  = Datetime.mk 2024 11 3 1 0 0 0.
Proof. vm_compute. repeat split. Qed.

(** C6 (as stated) fails when the local clock is set back.  At the end of
    daylight saving time, two calls made an hour apart, at 05:30:00 and at
    06:30:00 UTC on 2024-11-03 in US Eastern time, both read 01:30:00 on
    the local clock and generate the same name, for the same path. *)
Lemma generated_name_repeats_after_fall_back :
  let first := Datetime.fromtimestamp Datetime.us_eastern_2024 1730611800 0 in
  let second := Datetime.fromtimestamp Datetime.us_eastern_2024 (1730611800 + 3600) 0 in
  Datetime.valid first /\ Datetime.valid second /\
  FileManager.generated_name first = "recording_20241103_013000.wav"%string /\
  FileManager.generated_name second = "recording_20241103_013000.wav"%string /\
  FileManager.destination Scenario.fm first None
  = FileManager.destination Scenario.fm second None.
Proof.
  cbv zeta.
  split; [vm_compute; intuition discriminate|].
  split; [vm_compute; intuition discriminate|].
  split; [vm_compute; reflexivity|].
  split; [vm_compute; reflexivity|].
  vm_compute. reflexivity.
Qed.


(** ** Sorting by descending key *)

Section SortDesc.

Context {A : Type} (key : A -> Q).

Lemma lt_true (a b : Q) : Py.lt a b = true -> (a < b)%Q.
Proof.
  unfold Py.lt. intros H. apply negb_true_iff in H.
  destruct (Qlt_le_dec a b) as [Hlt|Hle]; [exact Hlt|].
  apply Qle_bool_iff in Hle. congruence.
Qed.

Lemma lt_false (a b : Q) : Py.lt a b = false -> (b <= a)%Q.
Proof.
  unfold Py.lt. intros H. apply negb_false_iff in H.
  apply Qle_bool_iff. exact H.
Qed.

Lemma insert_desc_perm (x : A) (l : list A) : Py.insert_desc key x l ≡ₚ x :: l.
Proof.
  induction l as [|y l IH]; simpl; [reflexivity|].
  destruct (Py.lt (key x) (key y)); [|reflexivity].
  rewrite IH. apply Permutation_swap.
Qed.

Lemma sort_desc_perm (l : list A) : Py.sort_desc key l ≡ₚ l.
Proof.
  induction l as [|x l IH]; simpl; [reflexivity|].
  rewrite insert_desc_perm, IH. reflexivity.
Qed.

Lemma insert_desc_sorted (x : A) (l : list A) :
  StronglySorted (Py.desc key) l -> StronglySorted (Py.desc key) (Py.insert_desc key x l).
Proof.
  induction 1 as [|y l Hs IH Hy]; simpl.
  - repeat constructor.
  - destruct (Py.lt (key x) (key y)) eqn:E.
    + constructor; [exact IH|].
      rewrite insert_desc_perm. constructor; [|exact Hy].
      apply lt_true in E. unfold Py.desc. apply Qlt_le_weak. exact E.
    + apply lt_false in E. constructor; [constructor; assumption|].
      constructor; [exact E|].
      eapply Forall_impl; [exact Hy|].
      intros z Hz. unfold Py.desc in *. eapply Qle_trans; eassumption.
Qed.

Lemma sort_desc_sorted (l : list A) : StronglySorted (Py.desc key) (Py.sort_desc key l).
Proof.
  induction l as [|x l IH]; simpl; [constructor | apply insert_desc_sorted, IH].
Qed.

Lemma sort_desc_lookup (l : list A) (i j : nat) (a b : A) :
  (i < j)%nat ->
  Py.sort_desc key l !! i = Some a -> Py.sort_desc key l !! j = Some b ->
  (key b <= key a)%Q.
Proof.
  pose proof (sort_desc_sorted l) as Hs. revert i j.
  induction Hs as [|y k Hs IH Hy]; intros i j Hij Hi Hj; [discriminate Hi|].
  destruct j as [|j]; [lia|]. destruct i as [|i].
  - simpl in Hi, Hj. injection Hi as <-.
    rewrite Forall_lookup in Hy. exact (Hy j b Hj).
  - simpl in Hi, Hj. apply (IH i j); [lia | assumption..].
Qed.

End SortDesc.

(** ** file_manager.py: [get_saved_recordings] *)

Lemma NoDup_omap_inj {A B : Type} (f : A -> option B) (l : list A) :
  NoDup l ->
  (forall x y z, x ∈ l -> y ∈ l -> f x = Some z -> f y = Some z -> x = y) ->
  NoDup (omap f l).
Proof.
  induction 1 as [|x l Hx Hl IH]; intros Hinj; [constructor|].
  simpl. destruct (f x) as [z|] eqn:E.
  - constructor.
    + intros Hz. apply list_elem_of_omap in Hz as (y & Hy & Ey).
      assert (x = y) by (apply (Hinj x y z); [left | right | |]; assumption).
      subst y. contradiction.
    + apply IH. intros a b c Ha Hb. apply Hinj; right; assumption.
  - apply IH. intros a b c Ha Hb. apply Hinj; right; assumption.
Qed.

(** A directory lists each of its entries once. *)
Lemma listdir_NoDup (fs : Os.filesystem) (d : string) (names : list string) :
  Os.listdir fs d = Some names -> NoDup names.
Proof.
  unfold Os.listdir. destruct (Os.isdir fs d); [|discriminate].
  intros H. injection H as <-.
  apply NoDup_omap_inj; [apply NoDup_map_to_list|].
  intros [k v] [k' v'] n Hk Hk' E E'. simpl in E, E'.
  destruct (negb (Os.is_empty (Os.basename k)) && String.eqb (Os.join d (Os.basename k)) k)
    eqn:C; [|discriminate E].
  destruct (negb (Os.is_empty (Os.basename k')) && String.eqb (Os.join d (Os.basename k')) k')
    eqn:C'; [|discriminate E'].
  injection E as E. injection E' as E'.
  apply andb_true_iff in C as [_ C]. apply andb_true_iff in C' as [_ C'].
  apply String.eqb_eq in C. apply String.eqb_eq in C'.
  assert (k = k') by congruence. subst k'.
  apply elem_of_map_to_list in Hk. apply elem_of_map_to_list in Hk'.
  congruence.
Qed.

Lemma isdir_exists (fs : Os.filesystem) (p : string) :
  Os.isdir fs p = true -> Os.exists_ fs p = true.
Proof.
  unfold Os.isdir, Os.exists_. destruct (Os.is_root p); [reflexivity|].
  destruct (fs !! p) as [[]|]; simpl; congruence.
Qed.

Lemma isfile_getmtime (fs : Os.filesystem) (p : string) :
  Os.isfile fs p = true -> exists m, Os.getmtime fs p = Some m.
Proof.
  unfold Os.isfile, Os.getmtime. destruct (fs !! p) as [[c m|]|]; try discriminate.
  intros _. exists m. reflexivity.
Qed.

(** C4 (as amended).  When the recordings directory, named by a canonical
    path, is absent or is a directory, [get_saved_recordings] returns, each
    once, exactly the names in it that end in [.wav] and are regular files,
    ordered by descending modification time: a name never stands before one
    modified later. *)
Theorem get_saved_recordings_sorted (fm : FileManager.t) (fs : Os.filesystem) :
  let d := FileManager.recordings_dir fm in
  Os.canonical d = true ->
  Os.exists_ fs d = false \/ Os.isdir fs d = true ->
  exists l,
    FileManager.get_saved_recordings fm fs = Some l /\
    NoDup l /\
    (forall n,
       n ∈ l <->
       (exists names, Os.listdir fs d = Some names /\ n ∈ names) /\
       Os.endswith n ".wav" = true /\ Os.isfile fs (Os.join d n) = true) /\
    (forall i j a b,
       (i < j)%nat -> l !! i = Some a -> l !! j = Some b ->
       exists ma mb,
         Os.getmtime fs (Os.join d a) = Some ma /\
         Os.getmtime fs (Os.join d b) = Some mb /\ (mb <= ma)%Q).
Proof.
  intros d _ Hd. unfold FileManager.get_saved_recordings. fold d.
  destruct Hd as [Hno|Hdir].
  - rewrite Hno. simpl. exists []. split; [reflexivity|]. split; [constructor|].
    split.
    + intros n. split; [intros H; inversion H|].
      intros [(names & Hl & _) _]. unfold Os.listdir in Hl.
      destruct (Os.isdir fs d) eqn:E; [|discriminate Hl].
      apply isdir_exists in E. congruence.
    + intros i j a b _ Hi. discriminate Hi.
  - rewrite (isdir_exists _ _ Hdir). simpl.
    destruct (Os.listdir fs d) as [names|] eqn:Hl;
      [|unfold Os.listdir in Hl; rewrite Hdir in Hl; discriminate Hl].
    set (keep := fun f => Os.endswith f ".wav" && Os.isfile fs (Os.join d f)).
    set (recordings := List.filter keep names).
    set (getkey := fun x => option_map (fun m => (m, x)) (Os.getmtime fs (Os.join d x))).
    assert (Hrec : forall n, n ∈ recordings <-> n ∈ names /\ keep n = true).
    { intros n. rewrite !list_elem_of_In. apply filter_In. }
    destruct (mapM getkey recordings) as [keyed|] eqn:Hm.
    2:{ apply mapM_None_1 in Hm. apply Exists_exists in Hm as (x & Hx & Ex).
        apply Hrec in Hx as [_ Hk]. unfold keep in Hk.
        apply andb_true_iff in Hk as [_ Hk].
        destruct (isfile_getmtime _ _ Hk) as [m Em].
        unfold getkey in Ex. rewrite Em in Ex. discriminate Ex. }
    apply mapM_Some_1 in Hm.
    assert (Hsnd : map snd keyed = recordings).
    { clear Hrec. induction Hm as [|x y l k Hxy _ IH]; [reflexivity|].
      simpl. rewrite IH. unfold getkey in Hxy.
      destruct (Os.getmtime fs (Os.join d x)); [|discriminate Hxy].
      injection Hxy as <-. reflexivity. }
    assert (Hkey : forall y, y ∈ keyed -> Os.getmtime fs (Os.join d y.2) = Some y.1).
    { intros y Hy. apply list_elem_of_lookup in Hy as [i Hi].
      destruct (Forall2_lookup_r _ _ _ _ _ Hm Hi) as (x & _ & Hxy).
      unfold getkey in Hxy. destruct (Os.getmtime fs (Os.join d x)) eqn:E;
        [|discriminate Hxy].
      injection Hxy as <-. exact E. }
    pose proof (sort_desc_perm fst keyed) as Hperm.
    assert (Hl' : map snd (Py.sort_desc fst keyed) ≡ₚ recordings).
    { rewrite <- Hsnd. apply Permutation_map. exact Hperm. }
    exists (map snd (Py.sort_desc fst keyed)).
    split; [reflexivity|].
    split.
    { rewrite Hl'. apply NoDup_ListNoDup, List.NoDup_filter, NoDup_ListNoDup.
      exact (listdir_NoDup _ _ _ Hl). }
    split.
    { intros n. rewrite Hl', Hrec. unfold keep. rewrite andb_true_iff. split.
      - intros [Hn Hk]. split; [exists names; split; [reflexivity | exact Hn] | exact Hk].
      - intros [(names' & E & Hn) Hk]. injection E as <-. split; assumption. }
    intros i j a b Hij Hi Hj.
    change (map snd ?l) with (snd <$> l) in Hi, Hj.
    apply list_lookup_fmap_Some_1 in Hi as (ka & -> & Hi).
    apply list_lookup_fmap_Some_1 in Hj as (kb & -> & Hj).
    exists ka.1, kb.1.
    split; [apply Hkey; rewrite <- Hperm; eapply list_elem_of_lookup_2; exact Hi|].
    split; [apply Hkey; rewrite <- Hperm; eapply list_elem_of_lookup_2; exact Hj|].
    exact (sort_desc_lookup fst keyed i j ka kb Hij Hi Hj).
Qed.

Lemma get_saved_recordings_sorted_witness :
  exists l,
    FileManager.get_saved_recordings Scenario.fm Scenario.fs = Some l /\ NoDup l.
Proof.
  destruct (get_saved_recordings_sorted Scenario.fm Scenario.fs) as (l & E & Hn & _).
  { vm_compute. reflexivity. }
  { right. vm_compute. reflexivity. }
  exists l. split; [exact E | exact Hn].
Defined.

(** C4 (as stated) fails when two recordings have the same modification
    time, as do two copies of one temporary recording ([copy2] keeps the
    source's modification time): they are listed one after the other, and
    the second is not strictly older than the first. *)
Lemma get_saved_recordings_not_strictly_descending :
  exists fs l a b ma mb,
    Scenario.saved_twice = Some fs /\
    FileManager.get_saved_recordings Scenario.fm fs = Some l /\
    l !! 2%nat = Some a /\ l !! 3%nat = Some b /\
    Os.getmtime fs (Os.join (FileManager.recordings_dir Scenario.fm) a) = Some ma /\
    Os.getmtime fs (Os.join (FileManager.recordings_dir Scenario.fm) b) = Some mb /\
    ~ (mb < ma)%Q.
Proof.
  destruct Scenario.saved_twice as [fs|] eqn:E; [|vm_compute in E; discriminate E].
  assert (Hc : option_map
                 (fun f => (FileManager.get_saved_recordings Scenario.fm f,
                            Os.getmtime f "recordings/recording_20240307_090501.wav",
                            Os.getmtime f "recordings/recording_20240307_090500.wav"))
                 Scenario.saved_twice
               = Some (Some ["b.wav"; "a.wav"; "recording_20240307_090501.wav";
                             "recording_20240307_090500.wav"]%string,
                       Some 3%Q, Some 3%Q))
    by (vm_compute; reflexivity).
  rewrite E in Hc. simpl in Hc. injection Hc as Hl Ha Hb.
  exists fs, ["b.wav"; "a.wav"; "recording_20240307_090501.wav";
              "recording_20240307_090500.wav"]%string,
         "recording_20240307_090501.wav"%string,
         "recording_20240307_090500.wav"%string, 3%Q, 3%Q.
  split; [reflexivity|]. split; [exact Hl|].
  split; [reflexivity|]. split; [reflexivity|].
  split; [exact Ha|]. split; [exact Hb|].
  unfold Qlt. simpl. lia.
Qed.

(** ** Directories of a path *)

Lemma append_nil_r (a : string) : a +:+ EmptyString = a.
Proof.
  induction a as [|c a IH]; [reflexivity|].
  rewrite append_cons, IH. reflexivity.
Qed.

Lemma split_last_append (p : string) :
  (Os.split_last p).1 +:+ (Os.split_last p).2 = p.
Proof.
  induction p as [|c p IH]; [reflexivity|].
  rewrite split_last_cons. destruct (Os.split_last p) as [h t]. simpl in IH.
  destruct h as [|c' h].
  - rewrite append_nil_l in IH. subst t. cbn [Os.is_empty].
    destruct (Os.is_slash c); reflexivity.
  - cbn [Os.is_empty fst snd]. rewrite append_cons, IH. reflexivity.
Qed.

Lemma rstrip_slash_length (s : string) :
  (String.length (Os.rstrip_slash s) <= String.length s)%nat.
Proof.
  induction s as [|c s IH]; simpl; [lia|].
  destruct (Os.is_empty (Os.rstrip_slash s) && Os.is_slash c); simpl; lia.
Qed.

Lemma rstrip_slash_shorter (a : string) :
  (String.length (Os.rstrip_slash (a +:+ "/")) < String.length (a +:+ "/"))%nat.
Proof.
  induction a as [|c a IH]; [simpl; lia|].
  rewrite append_cons. simpl.
  destruct (Os.is_empty (Os.rstrip_slash (a +:+ "/")) && Os.is_slash c); simpl; lia.
Qed.

Lemma split_last_tail_empty (p : string) :
  Os.is_empty p = false -> (Os.split_last p).2 = EmptyString ->
  Os.endswith_slash p = true.
Proof.
  induction p as [|c p IH]; intros Hp Ht; [discriminate Hp|].
  rewrite split_last_cons in Ht.
  destruct (Os.split_last p) as [h t] eqn:E. simpl in IH.
  destruct h as [|c' h]; cbn [Os.is_empty] in Ht.
  - destruct (Os.is_slash c) eqn:Ec; simpl in Ht; [|discriminate Ht].
    subst p. simpl. exact Ec.
  - simpl in Ht. subst t.
    assert (Hne : Os.is_empty p = false).
    { destruct p; [simpl in E; discriminate E | reflexivity]. }
    specialize (IH Hne eq_refl).
    destruct p as [|c'' p]; [discriminate Hne|]. exact IH.
Qed.

Lemma split_fst_length (p : string) :
  (String.length (Os.split p).1 <= String.length p)%nat.
Proof.
  unfold Os.split. pose proof (split_last_append p) as H.
  destruct (Os.split_last p) as [h t]. simpl in H.
  assert (Hh : (String.length h <= String.length p)%nat)
    by (rewrite <- H, length_append; lia).
  pose proof (rstrip_slash_length h).
  destruct (Os.is_empty (Os.rstrip_slash h)); simpl; lia.
Qed.

(** The directory part of a path is shorter than the path, unless it is
    empty or the root. *)
Lemma dirname_shorter (p : string) :
  Os.is_empty (Os.dirname p) = false -> Os.is_root (Os.dirname p) = false ->
  (String.length (Os.dirname p) < String.length p)%nat.
Proof.
  unfold Os.dirname, Os.split.
  pose proof (split_last_append p) as H.
  pose proof (split_last_tail_empty p) as Ht.
  destruct (Os.split_last p) as [h t]. simpl in H, Ht.
  destruct (Os.is_empty (Os.rstrip_slash h)) eqn:E; simpl.
  - intros Hne Hr. unfold Os.is_root in Hr. rewrite Hne, E in Hr. discriminate Hr.
  - intros _ _. pose proof (rstrip_slash_length h) as Hl.
    destruct t as [|c t].
    + assert (Hp : Os.is_empty p = false).
      { destruct p; [|reflexivity]. destruct h; [discriminate E | discriminate H]. }
      destruct (endswith_slash_inv p (Ht Hp eq_refl)) as [a Ha].
      rewrite append_nil_r in H. subst h. rewrite Ha. apply rstrip_slash_shorter.
    + rewrite <- H, length_append. simpl. lia.
Qed.

(** ** [os.makedirs] and [shutil.copy2] *)

Lemma mkdir_Some (fs fs' : Os.filesystem) (p : string) :
  Os.mkdir fs p = Some fs' -> fs !! p = None /\ fs' = <[p := Os.Dir]> fs.
Proof.
  unfold Os.mkdir.
  destruct (Os.exists_ fs p) eqn:E; [discriminate|]. cbn [orb].
  destruct (Os.is_empty p || negb (Os.parent_ok fs p)); [discriminate|].
  intros H. injection H as <-. split; [|reflexivity].
  unfold Os.exists_ in E. apply orb_false_iff in E as [_ E].
  destruct (fs !! p); [discriminate E | reflexivity].
Qed.

(** [makedirs] only adds directories, at paths no longer than its
    argument; what was there stays. *)
Lemma makedirs_fuel_adds (fuel : nat) :
  forall (fs fs' : Os.filesystem) (name : string),
    Os.makedirs_fuel fuel fs name = Some fs' ->
    forall k,
      fs' !! k = fs !! k \/
      (fs !! k = None /\ fs' !! k = Some Os.Dir /\
       (String.length k <= String.length name)%nat).
Proof.
  induction fuel as [|fuel IH]; intros fs fs' name H k; [discriminate H|].
  cbn [Os.makedirs_fuel] in H.
  pose proof (split_fst_length name) as Hl0.
  destruct (Os.split name) as [h0 t0]. simpl in Hl0.
  assert (Hmk : forall fs1, Os.mkdir fs1 name = Some fs' ->
                  (fs1 !! k = fs !! k \/
                   (fs !! k = None /\ fs1 !! k = Some Os.Dir /\
                    (String.length k <= String.length name)%nat)) ->
                  fs' !! k = fs !! k \/
                  (fs !! k = None /\ fs' !! k = Some Os.Dir /\
                   (String.length k <= String.length name)%nat)).
  { intros fs1 Hm Hk. apply mkdir_Some in Hm as [Hn ->].
    destruct (decide (k = name)) as [->|Hne].
    - right. rewrite lookup_insert_eq.
      destruct Hk as [Hk|(Hk & Hd & _)]; [|congruence].
      split; [congruence|]. split; [reflexivity | lia].
    - rewrite lookup_insert_ne by congruence. exact Hk. }
  set (ht := if Os.is_empty t0 then Os.split h0 else (h0, t0)) in H.
  assert (Hl : (String.length ht.1 <= String.length name)%nat).
  { subst ht. destruct (Os.is_empty t0); [|exact Hl0].
    pose proof (split_fst_length h0). lia. }
  destruct ht as [head tail]. simpl in Hl.
  destruct (negb (Os.is_empty head) && negb (Os.is_empty tail)
            && negb (Os.exists_ fs head)).
  - destruct (Os.makedirs_fuel fuel fs head) as [fs1|] eqn:E; [|discriminate H].
    assert (Hk : fs1 !! k = fs !! k \/
                 (fs !! k = None /\ fs1 !! k = Some Os.Dir /\
                  (String.length k <= String.length name)%nat)).
    { destruct (IH _ _ _ E k) as [Hk|(Hk & Hd & Hlen)]; [left; exact Hk|].
      right. split; [exact Hk|]. split; [exact Hd | lia]. }
    destruct (String.eqb tail "."); [injection H as <-; exact Hk|].
    exact (Hmk fs1 H Hk).
  - apply (Hmk fs H). left. reflexivity.
Qed.

Lemma destination_not_empty (fm : FileManager.t) (now : Datetime.t)
      (destination_file : option string) :
  Os.is_empty (FileManager.destination fm now destination_file) = false.
Proof.
  unfold FileManager.destination.
  destruct destination_file as [d|]; [destruct (Os.is_empty d) eqn:E; [|exact E]|];
    apply join_not_empty; reflexivity.
Qed.


Lemma copy2_file_ok (fs : Os.filesystem) (src dst : string)
      (content : list byte) (mtime : Q) :
  fs !! src = Some (Os.File content mtime) ->
  Os.isdir fs dst = false -> Os.is_empty dst = false ->
  Os.parent_ok fs dst = true -> src <> dst ->
  Shutil.copy2 fs src dst = Some (<[dst := Os.File content mtime]> fs).
Proof.
  intros Hs Hd He Hp Hne. unfold Shutil.copy2. rewrite Hd.
  destruct (String.eqb_spec src dst) as [|_]; [contradiction|].
  rewrite Hs. unfold Os.write. rewrite Hd, He, Hp. reflexivity.
Qed.

(** ** Canonical paths *)

Example canonical_examples :
  Os.canonical "recordings" = true /\ Os.canonical "recordings/a.wav" = true /\
  Os.canonical "/tmp/tmpk3.wav" = true /\ Os.canonical "/" = true /\
  Os.canonical "recordings/" = false /\ Os.canonical "./recordings" = false /\
  Os.canonical "/tmp//tmpk3.wav" = false /\ Os.canonical "recordings/./a.wav" = false /\
  Os.canonical "recordings/../a.wav" = false /\ Os.canonical EmptyString = false /\
  Os.canonical "." = false /\ Os.canonical "//tmp" = false.
Proof. vm_compute. repeat split. Qed.

Lemma split_dirname_basename (p : string) : Os.split p = (Os.dirname p, Os.basename p).
Proof.
  unfold Os.dirname, Os.basename, Os.split. destruct (Os.split_last p). reflexivity.
Qed.

Lemma plain_inv (c : string) :
  Os.plain c = true -> Os.is_empty c = false /\ String.eqb c "." = false.
Proof.
  unfold Os.plain. intros H. apply andb_true_iff in H as [H _].
  apply andb_true_iff in H as [H1 H2].
  apply negb_true_iff in H1. apply negb_true_iff in H2. split; assumption.
Qed.

Lemma is_root_not_empty (p : string) : Os.is_root p = true -> Os.is_empty p = false.
Proof. unfold Os.is_root. destruct p; [discriminate | reflexivity]. Qed.

Lemma exists_not_file_isdir (fs : Os.filesystem) (p : string) :
  Os.exists_ fs p = true -> Os.isfile fs p = false -> Os.isdir fs p = true.
Proof.
  unfold Os.exists_, Os.isfile, Os.isdir. destruct (Os.is_root p); [reflexivity|].
  destruct (fs !! p) as [[]|]; simpl; congruence.
Qed.

Lemma basename_not_empty (p : string) :
  Os.is_empty (Os.basename p) = false -> Os.is_empty p = false.
Proof. destruct p; [discriminate | reflexivity]. Qed.

(** What a canonical path is made of. *)
Lemma canonical_fuel_inv (fuel : nat) (p : string) :
  Os.canonical_fuel (S fuel) p = true ->
  p = "/"%string \/
  (Os.plain (Os.basename p) = true /\
   (Os.is_empty (Os.dirname p) = true \/ Os.canonical_fuel fuel (Os.dirname p) = true)).
Proof.
  cbn [Os.canonical_fuel]. intros H. apply orb_true_iff in H as [H|H].
  - left. apply String.eqb_eq in H. exact H.
  - right. apply andb_true_iff in H as [H H3]. apply andb_true_iff in H as [H1 _].
    split; [exact H1|]. apply orb_true_iff in H3. exact H3.
Qed.

(** [makedirs] succeeds on a canonical path at which nothing exists and
    above which there is no regular file: the directory and the missing
    ones above it are created. *)
Lemma makedirs_fuel_ok (fuel : nat) :
  forall (f0 : nat) (fs : Os.filesystem) (name : string),
    (String.length name < fuel)%nat -> (String.length name <= f0)%nat ->
    Os.canonical_fuel f0 name = true ->
    Os.exists_ fs name = false ->
    Forall (fun q => Os.isfile fs q = false) (Os.ancestors_fuel f0 name) ->
    exists fs', Os.makedirs_fuel fuel fs name = Some fs' /\ Os.isdir fs' name = true.
Proof.
  induction fuel as [|fuel IH]; intros f0 fs name Hlen Hf0 Hc Hex Hanc; [lia|].
  destruct f0 as [|f0]; [discriminate Hc|].
  apply canonical_fuel_inv in Hc as [->|[Hplain Hdir]]; [discriminate Hex|].
  destruct (plain_inv _ Hplain) as [Htail Hdot].
  pose proof (basename_not_empty _ Htail) as Hne.
  cbn [Os.makedirs_fuel]. rewrite split_dirname_basename, Htail.
  cbv beta iota zeta. rewrite Htail.
  set (head := Os.dirname name) in *.
  assert (Hmk : forall fs1 : Os.filesystem,
            Os.exists_ fs1 name = false -> Os.parent_ok fs1 name = true ->
            exists fs', Os.mkdir fs1 name = Some fs' /\ Os.isdir fs' name = true).
  { intros fs1 He Hp. unfold Os.mkdir. rewrite He, Hne, Hp. cbn.
    eexists. split; [reflexivity|]. unfold Os.isdir. rewrite lookup_insert_eq.
    apply orb_true_r. }
  cbn [Os.ancestors_fuel] in Hanc. fold head in Hanc.
  destruct (Os.is_empty head) eqn:Ehead; cbn [negb andb].
  - apply Hmk; [exact Hex|]. unfold Os.parent_ok. fold head. rewrite Ehead. reflexivity.
  - destruct (Os.exists_ fs head) eqn:Ehx; cbn [negb].
    + apply Hmk; [exact Hex|]. unfold Os.parent_ok. fold head. rewrite Ehead. cbn [orb].
      destruct (Os.is_root head) eqn:Er.
      * unfold Os.isdir. rewrite Er. reflexivity.
      * cbn [orb] in Hanc. apply Forall_cons in Hanc as [Hfile _].
        exact (exists_not_file_isdir _ _ Ehx Hfile).
    + assert (Er : Os.is_root head = false).
      { unfold Os.exists_ in Ehx. apply orb_false_iff in Ehx as [Er _]. exact Er. }
      rewrite Er in Hanc. cbn [orb] in Hanc. apply Forall_cons in Hanc as [_ Hanc].
      pose proof (dirname_shorter name Ehead Er) as Hsh. fold head in Hsh.
      destruct Hdir as [Hdir|Hdir]; [congruence|].
      destruct (IH f0 fs head) as (fs1 & E & Hd1); [lia | lia | assumption..|].
      rewrite E, Hdot.
      apply Hmk.
      * pose proof (makedirs_fuel_adds _ _ _ _ E name) as Hadd.
        unfold Os.exists_ in *. apply orb_false_iff in Hex as [Hr Hn].
        rewrite Hr. cbn [orb].
        destruct Hadd as [Ek|(_ & _ & Hle)]; [rewrite Ek; exact Hn | lia].
      * unfold Os.parent_ok. fold head. rewrite Hd1. apply orb_true_r.
Qed.

Lemma makedirs_ok (fs : Os.filesystem) (name : string) :
  Os.canonical name = true ->
  Os.exists_ fs name = false ->
  Forall (fun q => Os.isfile fs q = false) (Os.ancestors name) ->
  exists fs', Os.makedirs fs name = Some fs' /\ Os.isdir fs' name = true.
Proof.
  intros Hc Hex Hanc. unfold Os.makedirs.
  apply (makedirs_fuel_ok _ (String.length name)); [lia | lia | assumption..].
Qed.

(** ** file_manager.py: [save_recording] *)




(** ** The [struct] module: packing and unpacking *)

Lemma Z_of_byte_of_Z (z : Z) : Struct.Z_of_byte (Struct.byte_of_Z z) = z mod 256.
Proof.
  unfold Struct.Z_of_byte, Struct.byte_of_Z.
  pose proof (Z.mod_pos_bound z 256 ltac:(lia)) as Hb.
  destruct (Byte.of_N (Z.to_N (z mod 256))) as [b|] eqn:E.
  - apply Byte.to_of_N in E. rewrite E. lia.
  - apply Byte.of_N_None_iff in E. lia.
Qed.

Lemma Z_of_byte_range (b : byte) : 0 <= Struct.Z_of_byte b <= 255.
Proof. unfold Struct.Z_of_byte. pose proof (Byte.to_N_bounded b). lia. Qed.

Lemma pack_L_length (v : Z) (bs : list byte) :
  Struct.pack_L v = Some bs -> length bs = 4%nat.
Proof.
  unfold Struct.pack_L. destruct ((0 <=? v) && (v <? 4294967296)); [|discriminate].
  intros H. injection H as <-. reflexivity.
Qed.

Lemma unpack_pack_L (v : Z) (bs rest : list byte) :
  Struct.pack_L v = Some bs -> Struct.unpack_L (bs ++ rest) = Some v.
Proof.
  unfold Struct.pack_L.
  destruct ((0 <=? v) && (v <? 4294967296)) eqn:C; [|discriminate].
  intros H. injection H as <-.
  apply andb_true_iff in C as [H0 H1]. apply Z.leb_le in H0. apply Z.ltb_lt in H1.
  cbn [app Struct.unpack_L]. rewrite !Z_of_byte_of_Z. f_equal.
  change 65536 with (256 * 256). change 16777216 with (256 * 256 * 256).
  rewrite <- !Z.div_div by lia.
  pose proof (Z.div_mod v 256 ltac:(lia)).
  pose proof (Z.div_mod (v / 256) 256 ltac:(lia)).
  pose proof (Z.div_mod (v / 256 / 256) 256 ltac:(lia)).
  assert (Hs : v / 256 / 256 / 256 < 256).
  { apply Z.div_lt_upper_bound; [lia|]. apply Z.div_lt_upper_bound; [lia|].
    apply Z.div_lt_upper_bound; lia. }
  assert (0 <= v / 256 / 256 / 256).
  { apply Z.div_pos; [|lia]. apply Z.div_pos; [|lia]. apply Z.div_pos; lia. }
  rewrite (Z.mod_small (v / 256 / 256 / 256)) by lia. lia.
Qed.

Lemma pack_L_Some (v : Z) :
  0 <= v <= 4294967295 -> exists bs, Struct.pack_L v = Some bs.
Proof.
  intros H. unfold Struct.pack_L.
  destruct (Z.leb_spec 0 v); [|lia]. destruct (Z.ltb_spec v 4294967296); [|lia].
  eexists. reflexivity.
Qed.

Lemma pack_L_None (v : Z) : 4294967295 < v -> Struct.pack_L v = None.
Proof.
  intros H. unfold Struct.pack_L.
  destruct (Z.ltb_spec v 4294967296); [lia|]. rewrite andb_false_r. reflexivity.
Qed.

(** ** The [wave] module: reading back what was written *)

Lemma read_bytes_app (n : Z) (a b : list byte) :
  n = Z.of_nat (length a) -> Wave.read_bytes n (a ++ b) = a.
Proof.
  intros ->. unfold Wave.read_bytes. rewrite length_app.
  rewrite Z.min_l by lia. rewrite Nat2Z.id. apply take_app_length.
Qed.

Lemma skip_bytes_app (n : Z) (a b : list byte) :
  n = Z.of_nat (length a) -> Wave.skip_bytes n (a ++ b) = b.
Proof.
  intros ->. unfold Wave.skip_bytes. rewrite length_app.
  rewrite Z.min_l by lia. rewrite Nat2Z.id. apply drop_app_length.
Qed.

Lemma read_chunk_header_app (name size_bytes rest : list byte) (v : Z) :
  length name = 4%nat -> Struct.pack_L v = Some size_bytes ->
  Wave.read_chunk_header (name ++ size_bytes ++ rest) = Some (name, v, rest).
Proof.
  intros Hn Hp. unfold Wave.read_chunk_header.
  pose proof (pack_L_length v size_bytes Hp) as Hs.
  rewrite (take_app_length' name _ 4) by (symmetry; exact Hn).
  rewrite Hn. cbn [Nat.ltb Nat.leb].
  rewrite (drop_app_length' name _ 4) by (symmetry; exact Hn).
  rewrite (take_app_length' size_bytes _ 4) by (symmetry; exact Hs).
  rewrite <- (app_nil_r size_bytes), (unpack_pack_L v size_bytes [] Hp), app_nil_r.
  rewrite app_assoc, (drop_app_length' (name ++ size_bytes) _ 8)
    by (rewrite length_app, Hn, Hs; reflexivity).
  reflexivity.
Qed.

Lemma read_bytes_all (n : Z) (l : list byte) :
  n = Z.of_nat (length l) -> Wave.read_bytes n l = l.
Proof.
  intros H. pose proof (read_bytes_app n l [] H) as E.
  rewrite app_nil_r in E. exact E.
Qed.

Lemma header_recorder (x : Z) (fl dl : list byte) :
  Struct.pack_L (36 + x) = Some fl -> Struct.pack_L x = Some dl ->
  forall data,
    Struct.ascii_bytes "RIFF" ++ default [] (Wave.header 1 2 44100 x) ++ data
    = RecorderFormat.file fl dl data /\
    is_Some (Wave.header 1 2 44100 x).
Proof.
  intros Hfl Hdl data. unfold Wave.header. rewrite Hfl.
  assert (E : Struct.pack_L (1 * 44100 * 2) = Some [x88; x58; x01; x00])
    by (vm_compute; reflexivity).
  rewrite E. clear E.
  assert (E : Struct.pack_L 44100 = Some [x44; xac; x00; x00])
    by (vm_compute; reflexivity).
  rewrite E. clear E.
  assert (E : Struct.pack_L 16 = Some [x10; x00; x00; x00])
    by (vm_compute; reflexivity).
  rewrite E. clear E.
  rewrite Hdl.
  assert (E : Struct.pack_H Wave.WAVE_FORMAT_PCM = Some [x01; x00])
    by (vm_compute; reflexivity).
  rewrite E. clear E.
  assert (E : Struct.pack_H 1 = Some [x01; x00]) by (vm_compute; reflexivity).
  rewrite E. clear E.
  assert (E : Struct.pack_H (1 * 2) = Some [x02; x00]) by (vm_compute; reflexivity).
  rewrite E. clear E.
  assert (E : Struct.pack_H (2 * 8) = Some [x10; x00]) by (vm_compute; reflexivity).
  rewrite E. clear E.
  split; [|eexists; reflexivity].
  unfold RecorderFormat.file. cbv [mbind option_bind default from_option id].
  rewrite <- !app_assoc. reflexivity.
Qed.

Lemma bytes_eqb_refl (l : list byte) : Struct.bytes_eqb l l = true.
Proof.
  induction l as [|b l IH]; [reflexivity|].
  cbn [Struct.bytes_eqb]. rewrite IH, (Byte.byte_dec_lb eq_refl). reflexivity.
Qed.

Lemma read_chunks_data (fuel : nat) (x : Z) (dl data : list byte) (fmt : Z * Z * Z) :
  Struct.pack_L x = Some dl ->
  Wave.read_chunks (S fuel) (Struct.ascii_bytes "data" ++ dl ++ data) (Some fmt)
  = Some (Wave.mk fmt.1.1 fmt.2 fmt.1.2 (x / (fmt.1.1 * fmt.2))).
Proof.
  intros Hdl. cbn [Wave.read_chunks].
  rewrite (read_chunk_header_app (Struct.ascii_bytes "data") dl data x eq_refl Hdl).
  assert (E : Struct.bytes_eqb (Struct.ascii_bytes "data") (Struct.ascii_bytes "fmt ")
              = false) by (vm_compute; reflexivity).
  rewrite E, bytes_eqb_refl. destruct fmt as [[n r] w]. reflexivity.
Qed.

Lemma read_chunks_fmt (fuel : nat) (rest : list byte) :
  Wave.read_chunks (S fuel)
    (Struct.ascii_bytes "fmt " ++ [x10; x00; x00; x00] ++ RecorderFormat.fmt_body ++ rest)
    None
  = Wave.read_chunks fuel rest (Some (1, 44100, 2)).
Proof.
  cbn [Wave.read_chunks].
  rewrite (read_chunk_header_app (Struct.ascii_bytes "fmt ") [x10; x00; x00; x00]
             (RecorderFormat.fmt_body ++ rest) 16 eq_refl eq_refl).
  rewrite bytes_eqb_refl.
  rewrite (read_bytes_app 16 RecorderFormat.fmt_body rest eq_refl).
  rewrite (skip_bytes_app (16 + 16 mod 2) RecorderFormat.fmt_body rest eq_refl).
  assert (E : Wave.read_fmt_chunk RecorderFormat.fmt_body = Some (1, 44100, 2))
    by (vm_compute; reflexivity).
  rewrite E. reflexivity.
Qed.

(** A file with the recorder's header reads back as 1 channel, 2 bytes per
    sample, 44100 Hz, and as many frames as the data has byte pairs. *)
Lemma read_recorder_file (x : Z) (fl dl data : list byte) :
  Struct.pack_L (36 + x) = Some fl -> Struct.pack_L x = Some dl ->
  x = Z.of_nat (length data) ->
  Wave.read (RecorderFormat.file fl dl data) = Some (Wave.mk 1 2 44100 (x / 2)).
Proof.
  intros Hfl Hdl Hx. unfold RecorderFormat.file, Wave.read.
  set (tail := Struct.ascii_bytes "data" ++ dl ++ data).
  set (chunks := Struct.ascii_bytes "fmt " ++ [x10; x00; x00; x00]
                 ++ RecorderFormat.fmt_body ++ tail).
  set (body := Struct.ascii_bytes "WAVE" ++ chunks).
  rewrite (read_chunk_header_app (Struct.ascii_bytes "RIFF") fl body (36 + x)
             eq_refl Hfl).
  rewrite bytes_eqb_refl.
  assert (Hlen : length body = S (S (34 + length data))).
  { subst body chunks tail. rewrite !length_app, (pack_L_length _ _ Hdl).
    reflexivity. }
  rewrite (read_bytes_all (36 + x) body) by (rewrite Hlen; lia).
  rewrite Hlen.
  unfold body. rewrite (take_app_length' (Struct.ascii_bytes "WAVE") chunks 4 eq_refl).
  rewrite bytes_eqb_refl.
  rewrite (drop_app_length' (Struct.ascii_bytes "WAVE") chunks 4 eq_refl).
  unfold chunks. rewrite read_chunks_fmt.
  unfold tail. rewrite (read_chunks_data _ x dl data (1, 44100, 2) Hdl).
  reflexivity.
Qed.

Lemma write_file_guard : (1 <? 1) || (2 <? 1) || (4 <? 2) || (44100 <=? 0) = false.
Proof. reflexivity. Qed.

(** What [wave] writes for the recorder's parameters, when the lengths fit
    their 32-bit fields. *)
Lemma write_file_recorder (data : list byte) :
  36 + Z.of_nat (length data) <= 4294967295 ->
  exists fl dl,
    Struct.pack_L (36 + Z.of_nat (length data)) = Some fl /\
    Struct.pack_L (Z.of_nat (length data)) = Some dl /\
    Wave.write_file 1 2 44100 data = (RecorderFormat.file fl dl data, false).
Proof.
  intros Hfit. set (x := Z.of_nat (length data)) in *.
  assert (Hx : 0 <= x) by (subst x; lia).
  destruct (pack_L_Some (36 + x)) as [fl Hfl]; [lia|].
  destruct (pack_L_Some x) as [dl Hdl]; [lia|].
  exists fl, dl. split; [exact Hfl|]. split; [exact Hdl|].
  unfold Wave.write_file. rewrite write_file_guard. fold x. cbv zeta.
  set (d := x / (1 * 2) * 1 * 2).
  assert (Hd : 0 <= d <= x).
  { subst d. change (1 * 2) with 2. rewrite Z.mul_1_r.
    pose proof (Z.mul_div_le x 2 ltac:(lia)).
    assert (0 <= x / 2) by (apply Z.div_pos; lia). lia. }
  destruct (header_recorder x fl dl Hfl Hdl data) as [Ex [hx Hhx]].
  rewrite Hhx in Ex. cbv [default from_option id] in Ex.
  destruct (Z.eqb_spec d x) as [E|E].
  - rewrite E, Hhx, Ex. reflexivity.
  - destruct (pack_L_Some (36 + d)) as [fl' Hfl']; [lia|].
    destruct (pack_L_Some d) as [dl' Hdl']; [lia|].
    destruct (header_recorder d fl' dl' Hfl' Hdl' data) as [_ [hd Hhd]].
    rewrite Hhd, Hhx, Ex. reflexivity.
Qed.

(** When the length does not fit, the file holds [RIFFRIFF]. *)
Lemma write_file_too_long (data : list byte) :
  4294967295 < 36 + Z.of_nat (length data) / 2 * 2 ->
  Wave.write_file 1 2 44100 data
  = (Struct.ascii_bytes "RIFF" ++ Struct.ascii_bytes "RIFF", true).
Proof.
  intros H. unfold Wave.write_file. rewrite write_file_guard. cbv zeta.
  change (1 * 2) with 2. rewrite Z.mul_1_r.
  unfold Wave.header. rewrite (pack_L_None _ H). reflexivity.
Qed.

(** ** audio_recorder.py: the capture loop *)

Lemma frombuffer_length_fuel (n : nat) :
  forall (data : list byte) (a : list Z),
    (length data <= n)%nat ->
    Numpy.frombuffer_int16 data = Some a -> length data = (2 * length a)%nat.
Proof.
  induction n as [|n IH]; intros data a Hn H.
  - destruct data; [|simpl in Hn; lia]. injection H as <-. reflexivity.
  - destruct data as [|lo [|hi rest]]; [injection H as <-; reflexivity | discriminate H|].
    cbn [Numpy.frombuffer_int16] in H.
    destruct (Numpy.frombuffer_int16 rest) as [a'|] eqn:E; [|discriminate H].
    injection H as <-. simpl in Hn |- *.
    rewrite (IH rest a'); [lia | lia | exact E].
Qed.

Lemma frombuffer_length (data : list byte) (a : list Z) :
  Numpy.frombuffer_int16 data = Some a -> length data = (2 * length a)%nat.
Proof. apply (frombuffer_length_fuel (length data)). lia. Qed.

Lemma chunks_length (reads : list (list byte)) (samples : list (list Z)) :
  Forall2 (fun data a => Numpy.frombuffer_int16 data = Some a) reads samples ->
  length (concat reads) = (2 * length (concat samples))%nat.
Proof.
  induction 1 as [|data a reads samples H _ IH]; [reflexivity|].
  simpl. rewrite !length_app, IH, (frombuffer_length data a H). lia.
Qed.

Lemma capture_frames (cb : bool) (reads : list (list byte)) :
  forall frames volumes frames' volumes',
    AudioRecorder.capture cb reads frames volumes = Some (frames', volumes') ->
    frames' = frames ++ reads.
Proof.
  induction reads as [|data rest IH]; intros fr vs fr' vs' H.
  - injection H as <- _. rewrite app_nil_r. reflexivity.
  - cbn [AudioRecorder.capture] in H. destruct cb.
    + destruct (AudioRecorder.volume data); [|discriminate H].
      apply IH in H. rewrite H, <- app_assoc. reflexivity.
    + apply IH in H. rewrite H, <- app_assoc. reflexivity.
Qed.

Lemma capture_returns (cb : bool) (reads : list (list byte)) :
  Forall (fun data => is_Some (Numpy.frombuffer_int16 data)) reads ->
  forall frames volumes,
    is_Some (AudioRecorder.capture cb reads frames volumes).
Proof.
  induction 1 as [|data rest [a Ha] _ IH]; intros fr vs; [eexists; reflexivity|].
  cbn [AudioRecorder.capture]. destruct cb; [|apply IH].
  unfold AudioRecorder.volume. rewrite Ha. apply IH.
Qed.

Lemma capture_no_callback (reads : list (list byte)) :
  forall frames volumes,
    AudioRecorder.capture false reads frames volumes = Some (frames ++ reads, volumes).
Proof.
  induction reads as [|data rest IH]; intros fr vs.
  - rewrite app_nil_r. reflexivity.
  - cbn [AudioRecorder.capture]. rewrite IH, <- app_assoc. reflexivity.
Qed.

Lemma mkstemp_Some (fs fs1 : Os.filesystem) (tmp : string) (now : Q) :
  AudioRecorder.mkstemp fs tmp now = Some fs1 ->
  fs1 = <[tmp := Os.File [] now]> fs /\
  forall content now',
    Os.write fs1 tmp content now' = Some (<[tmp := Os.File content now']> fs1).
Proof.
  unfold AudioRecorder.mkstemp, Os.write.
  destruct (Os.exists_ fs tmp) eqn:Hex; [discriminate|].
  destruct (Os.isdir fs tmp) eqn:Hdir; [discriminate|]. cbn [orb].
  destruct (Os.is_empty tmp) eqn:Hem; [discriminate|]. cbn [orb].
  destruct (Os.parent_ok fs tmp) eqn:Hp; [|discriminate]. cbn [negb].
  intros H. injection H as <-. split; [reflexivity|].
  intros content now'.
  unfold Os.exists_ in Hex. apply orb_false_iff in Hex as [Hroot Hnone].
  assert (Hdir1 : Os.isdir (<[tmp := Os.File [] now]> fs) tmp = false).
  { unfold Os.isdir. rewrite Hroot, lookup_insert_eq. reflexivity. }
  assert (Hp1 : Os.parent_ok (<[tmp := Os.File [] now]> fs) tmp = true).
  { unfold Os.parent_ok in *. apply orb_true_iff in Hp as [Hp|Hp];
      [rewrite Hp; reflexivity|].
    apply orb_true_iff. right. unfold Os.isdir in *.
    destruct (Os.is_root (Os.dirname tmp)); [reflexivity|]. cbn [orb] in *.
    destruct (decide (Os.dirname tmp = tmp)) as [E|E].
    - rewrite E in Hp. destruct (fs !! tmp); discriminate.
    - rewrite lookup_insert_ne by congruence. exact Hp. }
  rewrite Hdir1, Hp1. reflexivity.
Qed.

(** ** audio_recorder.py: [_save_to_temp_file] *)

(** C9.  With an empty [frames] list, [_save_to_temp_file] returns without
    writing: the recorder and the file system are unchanged.  So a session
    stopped before any chunk was read leaves the temporary file as [mkstemp]
    created it: empty, which is not a WAV file. *)
Theorem save_to_temp_file_without_frames
        (r r0 : AudioRecorder.t) (fs fs0 : Os.filesystem) (tmp : string) (now : Q)
        (has_callback : bool) :
  (AudioRecorder.frames r = [] ->
   AudioRecorder._save_to_temp_file r fs now = (r, fs)) /\
  (AudioRecorder.mkstemp fs0 tmp now = Some fs ->
   exists r',
     AudioRecorder.start_recording r0 fs0 tmp now has_callback [] = Some (r', fs, []) /\
     AudioRecorder.frames r' = [] /\
     AudioRecorder.temp_file r' = Some tmp /\
     Os.read fs tmp = Some [] /\
     Wave.read [] = None).
Proof.
  split.
  - intros H. unfold AudioRecorder._save_to_temp_file. rewrite H. reflexivity.
  - intros H. unfold AudioRecorder.start_recording. rewrite H.
    eexists. split; [reflexivity|]. split; [reflexivity|]. split; [reflexivity|].
    split; [|reflexivity].
    apply mkstemp_Some in H as [-> _]. unfold Os.read.
    rewrite lookup_insert_eq. reflexivity.
Qed.

Lemma save_to_temp_file_without_frames_witness :
  AudioRecorder._save_to_temp_file AudioRecorder.init Scenario.fs 1
  = (AudioRecorder.init, Scenario.fs) /\
  exists r',
    AudioRecorder.start_recording AudioRecorder.init Scenario.fs Scenario.tmp 1 true []
    = Some (r', <[Scenario.tmp := Os.File [] 1]> Scenario.fs, []) /\
    AudioRecorder.frames r' = [] /\
    AudioRecorder.temp_file r' = Some Scenario.tmp /\
    Os.read (<[Scenario.tmp := Os.File [] 1]> Scenario.fs) Scenario.tmp = Some [] /\
    Wave.read [] = None.
Proof.
  split.
  - apply (proj1 (save_to_temp_file_without_frames AudioRecorder.init AudioRecorder.init
                    Scenario.fs Scenario.fs Scenario.tmp 1 true)).
    reflexivity.
  - apply (proj2 (save_to_temp_file_without_frames AudioRecorder.init AudioRecorder.init
                    (<[Scenario.tmp := Os.File [] 1]> Scenario.fs) Scenario.fs
                    Scenario.tmp 1 true)).
    vm_compute. reflexivity.
Defined.

(** ** audio_recorder.py: the volume level *)

(** C7, at a chunk of 1024 samples -32768 (bytes [00 80]).  [np.abs] of an
    [int16] array wraps at -32768, so the mean magnitude is -32768 and the
    volume passed to the callback is -1, outside the range 0 to 1. *)
Theorem volume_of_negative_full_scale :
  Numpy.frombuffer_int16 Scenario.negative_full_scale_chunk
  = Some (repeat (-32768) 1024) /\
  exists v,
    AudioRecorder.capture true [Scenario.negative_full_scale_chunk] [] []
    = Some ([Scenario.negative_full_scale_chunk], [Some v]) /\
    (v == -1)%Q /\ ~ (0 <= v)%Q.
Proof.
  split; [vm_compute; reflexivity|].
  exists ((-33554432 # 1) / (1024 # 1) / 32768)%Q.
  split; [vm_compute; reflexivity|].
  split; [reflexivity|]. vm_compute. intros H. apply H. reflexivity.
Qed.

(** ** audio_recorder.py: a recording session *)

Lemma save_to_temp_file_init (fs : Os.filesystem) (now : Q) (path : string)
      (data : list byte) (rest : list (list byte)) (recording : bool) :
  AudioRecorder._save_to_temp_file
    (AudioRecorder.mk 1024 PyAudio.paInt16 1 44100 (data :: rest) recording (Some path))
    fs now
  = (AudioRecorder.mk 1024 PyAudio.paInt16 1 44100 (data :: rest) recording (Some path),
     match Os.write fs path (Wave.write_file 1 2 44100 (concat (data :: rest))).1 now with
     | Some fs' => fs'
     | None => fs
     end).
Proof.
  unfold AudioRecorder._save_to_temp_file.
  cbn [AudioRecorder.frames AudioRecorder.temp_file AudioRecorder.format
       AudioRecorder.channels AudioRecorder.rate].
  change (PyAudio.get_sample_size PyAudio.paInt16) with (Some 2). cbv iota.
  destruct (Os.write fs path _ now); reflexivity.
Qed.

(** A session that read the chunks [reads], from a recorder as [__init__]
    leaves it. *)
Lemma start_recording_init (fs fs1 : Os.filesystem) (tmp : string) (now : Q)
      (has_callback : bool) (reads : list (list byte)) :
  AudioRecorder.mkstemp fs tmp now = Some fs1 ->
  reads <> [] ->
  Forall (fun data => is_Some (Numpy.frombuffer_int16 data)) reads \/ has_callback = false ->
  exists volumes,
    AudioRecorder.start_recording AudioRecorder.init fs tmp now has_callback reads
    = Some (AudioRecorder.mk 1024 PyAudio.paInt16 1 44100 reads false (Some tmp),
            <[tmp := Os.File (Wave.write_file 1 2 44100 (concat reads)).1 now]> fs1,
            volumes).
Proof.
  intros Hmk Hne Hok. unfold AudioRecorder.start_recording. rewrite Hmk.
  cbn [AudioRecorder.frames AudioRecorder.set_frames AudioRecorder.set_is_recording
       AudioRecorder.set_temp_file AudioRecorder.init AudioRecorder.chunk_size
       AudioRecorder.format AudioRecorder.channels AudioRecorder.rate
       AudioRecorder.is_recording AudioRecorder.temp_file].
  assert (Hc : exists volumes,
             AudioRecorder.capture has_callback reads [] [] = Some (reads, volumes)).
  { destruct Hok as [Hok| ->].
    - destruct (capture_returns has_callback reads Hok [] []) as [[fr vs] E].
      rewrite E. rewrite (capture_frames _ _ _ _ _ _ E). exists vs. reflexivity.
    - rewrite capture_no_callback. exists []. reflexivity. }
  destruct Hc as [volumes ->]. exists volumes.
  destruct reads as [|data rest]; [contradiction|].
  unfold AudioRecorder.set_is_recording, AudioRecorder.set_frames,
    AudioRecorder.set_temp_file, AudioRecorder.init.
  cbn [AudioRecorder.frames AudioRecorder.chunk_size
       AudioRecorder.format AudioRecorder.channels AudioRecorder.rate
       AudioRecorder.is_recording AudioRecorder.temp_file].
  rewrite save_to_temp_file_init.
  destruct (mkstemp_Some _ _ _ _ Hmk) as [_ Hw]. rewrite Hw. reflexivity.
Qed.

(** C1 (as amended).  A session that read a non-empty sequence of chunks
    of 16-bit samples, of at most 4294967259 bytes in all, leaves in the
    temporary file a WAV file of 1 channel, 2 bytes per sample, 44100 Hz,
    whose frame count is the total number of samples of the chunks. *)
Theorem recording_is_a_wave_file
        (fs fs1 : Os.filesystem) (tmp : string) (now : Q) (has_callback : bool)
        (reads : list (list byte)) (samples : list (list Z)) :
  AudioRecorder.mkstemp fs tmp now = Some fs1 ->
  reads <> [] ->
  Forall2 (fun data a => Numpy.frombuffer_int16 data = Some a) reads samples ->
  36 + 2 * Z.of_nat (length (concat samples)) <= 4294967295 ->
  exists r' fs' volumes content,
    AudioRecorder.start_recording AudioRecorder.init fs tmp now has_callback reads
    = Some (r', fs', volumes) /\
    AudioRecorder.frames r' = reads /\
    AudioRecorder.temp_file r' = Some tmp /\
    Os.read fs' tmp = Some content /\
    Wave.read content
    = Some (Wave.mk 1 2 44100 (Z.of_nat (length (concat samples)))).
Proof.
  intros Hmk Hne Hs Hfit.
  assert (Hok : Forall (fun data => is_Some (Numpy.frombuffer_int16 data)) reads).
  { clear -Hs. induction Hs as [|data a reads samples H _ IH]; constructor; [|exact IH].
    exists a. exact H. }
  destruct (start_recording_init fs fs1 tmp now has_callback reads Hmk Hne (or_introl Hok))
    as [volumes E].
  pose proof (chunks_length reads samples Hs) as Hlen.
  destruct (write_file_recorder (concat reads)) as (fl & dl & Hfl & Hdl & Hw);
    [rewrite Hlen; lia|].
  eexists _, _, volumes, (RecorderFormat.file fl dl (concat reads)).
  split; [exact E|]. split; [reflexivity|]. split; [reflexivity|].
  split.
  - unfold Os.read. rewrite lookup_insert_eq, Hw. reflexivity.
  - rewrite (read_recorder_file _ fl dl (concat reads) Hfl Hdl eq_refl).
    rewrite Hlen. do 2 f_equal.
    rewrite Nat2Z.inj_mul. change (Z.of_nat 2) with 2.
    rewrite Z.mul_comm. apply Z.div_mul. lia.
Qed.

Lemma recording_is_a_wave_file_witness :
  exists r' fs' volumes content,
    AudioRecorder.start_recording AudioRecorder.init Scenario.fs Scenario.tmp 1 true
      [Scenario.silent_chunk; Scenario.silent_chunk; Scenario.silent_chunk]
    = Some (r', fs', volumes) /\
    AudioRecorder.frames r'
    = [Scenario.silent_chunk; Scenario.silent_chunk; Scenario.silent_chunk] /\
    AudioRecorder.temp_file r' = Some Scenario.tmp /\
    Os.read fs' Scenario.tmp = Some content /\
    Wave.read content
    = Some (Wave.mk 1 2 44100
              (Z.of_nat (length (concat [repeat 0 1024; repeat 0 1024; repeat 0 1024])))).
Proof.
  apply (recording_is_a_wave_file Scenario.fs
           (<[Scenario.tmp := Os.File [] 1]> Scenario.fs) Scenario.tmp 1 true
           [Scenario.silent_chunk; Scenario.silent_chunk; Scenario.silent_chunk]
           [repeat 0 1024; repeat 0 1024; repeat 0 1024]).
  - vm_compute. reflexivity.
  - discriminate.
  - repeat constructor; vm_compute; reflexivity.
  - vm_compute. discriminate.
Defined.

Lemma concat_repeat_length {A : Type} (c : list A) (n : nat) :
  length (concat (repeat c n)) = (n * length c)%nat.
Proof.
  induction n as [|n IH]; [reflexivity|].
  cbn [repeat concat]. rewrite length_app, IH. reflexivity.
Qed.

(** A session too long for the 32-bit lengths of the header. *)
Lemma recording_too_long (fs fs1 : Os.filesystem) (tmp : string) (now : Q)
      (reads : list (list byte)) :
  AudioRecorder.mkstemp fs tmp now = Some fs1 ->
  reads <> [] ->
  4294967295 < 36 + Z.of_nat (length (concat reads)) / 2 * 2 ->
  exists r' fs' volumes,
    AudioRecorder.start_recording AudioRecorder.init fs tmp now false reads
    = Some (r', fs', volumes) /\
    Os.read fs' tmp = Some (Struct.ascii_bytes "RIFF" ++ Struct.ascii_bytes "RIFF").
Proof.
  intros Hmk Hne Hlong.
  destruct (start_recording_init fs fs1 tmp now false reads Hmk Hne (or_intror eq_refl))
    as [volumes E].
  eexists _, _, volumes. split; [exact E|].
  unfold Os.read. rewrite lookup_insert_eq, (write_file_too_long _ Hlong). reflexivity.
Qed.

(** C1 (as stated) fails for a session of 2097152 chunks of 1024 samples:
    the data length, 4 GiB, does not fit the header's 32-bit fields, [wave]
    raises, the exception is caught, and the temporary file holds the
    eight bytes [RIFFRIFF], which is not a WAV file. *)
Lemma recording_of_4GiB_is_not_a_wave_file :
  Scenario.long_session <> [] /\
  Forall (fun data => exists a, Numpy.frombuffer_int16 data = Some a)
         Scenario.long_session /\
  exists r' fs' volumes,
    AudioRecorder.start_recording AudioRecorder.init Scenario.fs Scenario.tmp 1 false
      Scenario.long_session
    = Some (r', fs', volumes) /\
    Os.read fs' Scenario.tmp
    = Some (Struct.ascii_bytes "RIFF" ++ Struct.ascii_bytes "RIFF") /\
    Wave.read (Struct.ascii_bytes "RIFF" ++ Struct.ascii_bytes "RIFF") = None.
Proof.
  assert (Hne : Scenario.long_session <> []).
  { unfold Scenario.long_session.
    change (Z.to_nat 2097152) with (Pos.to_nat 2097152).
    destruct (Pos2Nat.is_succ 2097152) as [n ->]. discriminate. }
  split; [exact Hne|]. split.
  - unfold Scenario.long_session. apply Forall_forall. intros x Hx.
    apply list_elem_of_In, repeat_spec in Hx. subst x.
    exists (repeat 0 1024). vm_compute. reflexivity.
  - destruct (recording_too_long Scenario.fs (<[Scenario.tmp := Os.File [] 1]> Scenario.fs)
                Scenario.tmp 1 Scenario.long_session) as (r' & fs' & volumes & E & Hr).
    + vm_compute. reflexivity.
    + exact Hne.
    + unfold Scenario.long_session. rewrite concat_repeat_length.
      rewrite Nat2Z.inj_mul, Z2Nat.id by lia.
      unfold Scenario.silent_chunk. rewrite repeat_length.
      vm_compute. reflexivity.
    + exists r', fs', volumes. split; [exact E|]. split; [exact Hr|].
      vm_compute. reflexivity.
Qed.

(** ** The volume level away from -32768 *)

Lemma int16_of_bytes_range (lo hi : byte) :
  -32768 <= Numpy.int16_of_bytes lo hi <= 32767.
Proof.
  unfold Numpy.int16_of_bytes.
  pose proof (Z_of_byte_range lo). pose proof (Z_of_byte_range hi).
  destruct (Z.ltb_spec (Struct.Z_of_byte lo + 256 * Struct.Z_of_byte hi) 32768); lia.
Qed.

Lemma frombuffer_range_fuel (n : nat) :
  forall (data : list byte) (a : list Z),
    (length data <= n)%nat ->
    Numpy.frombuffer_int16 data = Some a ->
    Forall (fun x => -32768 <= x <= 32767) a.
Proof.
  induction n as [|n IH]; intros data a Hn H.
  - destruct data; [|simpl in Hn; lia]. injection H as <-. constructor.
  - destruct data as [|lo [|hi rest]]; [injection H as <-; constructor | discriminate H|].
    cbn [Numpy.frombuffer_int16] in H.
    destruct (Numpy.frombuffer_int16 rest) as [a'|] eqn:E; [|discriminate H].
    injection H as <-. constructor; [apply int16_of_bytes_range|].
    apply (IH rest a'); [simpl in Hn; lia | exact E].
Qed.

Lemma abs_int16_sum (a : list Z) :
  Forall (fun x => -32768 < x <= 32767) a ->
  0 <= Numpy.sum (Numpy.abs_int16 a) <= 32767 * Z.of_nat (length a).
Proof.
  induction 1 as [|x a Hx _ IH]; [simpl; lia|].
  cbn [Numpy.abs_int16 map Numpy.sum fold_right length].
  change (fold_right Z.add 0 (map (fun x => Numpy.wrap_int16 (Z.abs x)) a))
    with (Numpy.sum (Numpy.abs_int16 a)).
  assert (Hw : Numpy.wrap_int16 (Z.abs x) = Z.abs x).
  { unfold Numpy.wrap_int16. rewrite Z.mod_small by lia. lia. }
  rewrite Hw. lia.
Qed.

(** Unless a sample is -32768, the volume of a non-empty chunk is in the
    range 0 to 1. *)
Lemma volume_in_range (data : list byte) (a : list Z) :
  Numpy.frombuffer_int16 data = Some a -> a <> [] ->
  Forall (fun x => x <> -32768) a ->
  exists v, AudioRecorder.volume data = Some (Some v) /\ (0 <= v)%Q /\ (v <= 1)%Q.
Proof.
  intros Hf Hne Hmin.
  pose proof (frombuffer_range_fuel _ data a (le_n _) Hf) as Hr.
  assert (Hr' : Forall (fun x => -32768 < x <= 32767) a).
  { rewrite Forall_forall in *. intros x Hx.
    specialize (Hr x Hx). specialize (Hmin x Hx). lia. }
  pose proof (abs_int16_sum a Hr') as [Hs0 Hs1].
  unfold AudioRecorder.volume. rewrite Hf.
  assert (Hl : (0 < length a)%nat) by (destruct a; [contradiction | simpl; lia]).
  assert (Hmean : Numpy.mean (Numpy.abs_int16 a)
                  = Some (inject_Z (Numpy.sum (Numpy.abs_int16 a))
                          / inject_Z (Z.of_nat (length a)))%Q).
  { destruct a as [|x a']; [contradiction|].
    unfold Numpy.mean, Numpy.abs_int16. cbn [map]. rewrite !length_cons, length_map.
    reflexivity. }
  rewrite Hmean. cbn [option_map].
  set (s := Numpy.sum (Numpy.abs_int16 a)) in *.
  set (n := Z.of_nat (length a)) in *.
  assert (Hn : (0 < inject_Z n)%Q).
  { change 0%Q with (inject_Z 0). rewrite <- Zlt_Qlt. subst n. lia. }
  assert (Hs0' : (0 <= inject_Z s)%Q).
  { change 0%Q with (inject_Z 0). rewrite <- Zle_Qle. exact Hs0. }
  assert (Hs1' : (inject_Z s <= 32768 * inject_Z n)%Q).
  { change 32768%Q with (inject_Z 32768). rewrite <- inject_Z_mult, <- Zle_Qle. lia. }
  eexists. split; [reflexivity|]. split.
  - apply Qle_shift_div_l; [reflexivity|]. rewrite Qmult_0_l.
    apply Qle_shift_div_l; [exact Hn|]. rewrite Qmult_0_l. exact Hs0'.
  - apply Qle_shift_div_r; [reflexivity|]. rewrite Qmult_1_l.
    apply Qle_shift_div_r; [exact Hn | exact Hs1'].
Qed.

(** ** The [wave] module: the frames of a written file *)

(** [find_data] follows the same chunks as [read_chunks]. *)
Lemma find_data_params (fuel : nat) :
  forall (file : list byte) (fmt : option (Z * Z * Z)),
    Wave.read_chunks fuel file fmt
    = match Wave.find_data fuel file fmt, Wave.read_chunks fuel file fmt with
      | Some (framesize, datasize, _), Some p =>
          Some (Wave.mk (Wave.nchannels p) (Wave.sampwidth p) (Wave.framerate p)
                        (datasize / framesize))
      | _, _ => None
      end.
Proof.
  induction fuel as [|fuel IH]; intros file fmt; [reflexivity|].
  cbn [Wave.read_chunks Wave.find_data].
  destruct (Wave.read_chunk_header file) as [[[name size] rest]|]; [|reflexivity].
  destruct (Struct.bytes_eqb name (Struct.ascii_bytes "fmt ")).
  - destruct (Wave.read_fmt_chunk (Wave.read_bytes size rest)); [apply IH | reflexivity].
  - destruct (Struct.bytes_eqb name (Struct.ascii_bytes "data")); [|apply IH].
    destruct fmt as [[[n r] w]|]; reflexivity.
Qed.

Lemma find_data_data (fuel : nat) (x : Z) (dl data : list byte) (fmt : Z * Z * Z) :
  Struct.pack_L x = Some dl ->
  Wave.find_data (S fuel) (Struct.ascii_bytes "data" ++ dl ++ data) (Some fmt)
  = Some (fmt.1.1 * fmt.2, x, data).
Proof.
  intros Hdl. cbn [Wave.find_data].
  rewrite (read_chunk_header_app (Struct.ascii_bytes "data") dl data x eq_refl Hdl).
  assert (E : Struct.bytes_eqb (Struct.ascii_bytes "data") (Struct.ascii_bytes "fmt ")
              = false) by (vm_compute; reflexivity).
  rewrite E, bytes_eqb_refl. destruct fmt as [[n r] w]. reflexivity.
Qed.

Lemma find_data_fmt (fuel : nat) (rest : list byte) :
  Wave.find_data (S fuel)
    (Struct.ascii_bytes "fmt " ++ [x10; x00; x00; x00] ++ RecorderFormat.fmt_body ++ rest)
    None
  = Wave.find_data fuel rest (Some (1, 44100, 2)).
Proof.
  cbn [Wave.find_data].
  rewrite (read_chunk_header_app (Struct.ascii_bytes "fmt ") [x10; x00; x00; x00]
             (RecorderFormat.fmt_body ++ rest) 16 eq_refl eq_refl).
  rewrite bytes_eqb_refl.
  rewrite (read_bytes_app 16 RecorderFormat.fmt_body rest eq_refl).
  rewrite (skip_bytes_app (16 + 16 mod 2) RecorderFormat.fmt_body rest eq_refl).
  assert (E : Wave.read_fmt_chunk RecorderFormat.fmt_body = Some (1, 44100, 2))
    by (vm_compute; reflexivity).
  rewrite E. reflexivity.
Qed.

(** Reading [n] frames from a file with the recorder's header gives the
    first [2 * n] bytes of the data. *)
Lemma readframes_recorder_file (x n : Z) (fl dl data : list byte) :
  Struct.pack_L (36 + x) = Some fl -> Struct.pack_L x = Some dl ->
  x = Z.of_nat (length data) -> 0 <= n ->
  Wave.readframes (RecorderFormat.file fl dl data) n
  = Some (take (Z.to_nat (2 * n)) data).
Proof.
  intros Hfl Hdl Hx Hn. unfold RecorderFormat.file, Wave.readframes.
  set (tail := Struct.ascii_bytes "data" ++ dl ++ data).
  set (chunks := Struct.ascii_bytes "fmt " ++ [x10; x00; x00; x00]
                 ++ RecorderFormat.fmt_body ++ tail).
  set (body := Struct.ascii_bytes "WAVE" ++ chunks).
  rewrite (read_chunk_header_app (Struct.ascii_bytes "RIFF") fl body (36 + x)
             eq_refl Hfl).
  rewrite bytes_eqb_refl.
  assert (Hlen : length body = S (S (34 + length data))).
  { subst body chunks tail. rewrite !length_app, (pack_L_length _ _ Hdl).
    reflexivity. }
  rewrite (read_bytes_all (36 + x) body) by (rewrite Hlen; lia).
  rewrite Hlen.
  unfold body. rewrite (take_app_length' (Struct.ascii_bytes "WAVE") chunks 4 eq_refl).
  rewrite bytes_eqb_refl.
  rewrite (drop_app_length' (Struct.ascii_bytes "WAVE") chunks 4 eq_refl).
  unfold chunks. rewrite find_data_fmt.
  unfold tail. rewrite (find_data_data _ x dl data (1, 44100, 2) Hdl).
  cbn [fst snd].
  destruct (Z.eqb_spec n 0) as [->|Hn0]; [reflexivity|].
  change (1 * 2) with 2.
  destruct (Z.ltb_spec (n * 2) 0) as [|_]; [lia|].
  rewrite (read_bytes_all x data Hx).
  unfold Wave.read_bytes. f_equal.
  destruct (Z.min_spec (n * 2) (Z.of_nat (length data))) as [[Hlt ->]|[Hge ->]].
  - f_equal. lia.
  - rewrite Nat2Z.id, take_ge by lia. symmetry. apply take_ge. lia.
Qed.

(** ** audio_recorder.py: what a session stores *)

(** X1.  Round trip of the audio data: after a session that read a
    non-empty sequence of chunks of 16-bit samples (of at most 4294967259
    bytes in all), reading all the frames of the temporary file back gives
    exactly the chunks, joined in the order they were read. *)
Theorem recorded_frames_read_back
        (fs fs1 : Os.filesystem) (tmp : string) (now : Q) (has_callback : bool)
        (reads : list (list byte)) (samples : list (list Z)) :
  AudioRecorder.mkstemp fs tmp now = Some fs1 ->
  reads <> [] ->
  Forall2 (fun data a => Numpy.frombuffer_int16 data = Some a) reads samples ->
  36 + 2 * Z.of_nat (length (concat samples)) <= 4294967295 ->
  exists r' fs' volumes content,
    AudioRecorder.start_recording AudioRecorder.init fs tmp now has_callback reads
    = Some (r', fs', volumes) /\
    Os.read fs' tmp = Some content /\
    Wave.readframes content (Z.of_nat (length (concat samples)))
    = Some (concat reads).
Proof.
  intros Hmk Hne Hs Hfit.
  assert (Hok : Forall (fun data => is_Some (Numpy.frombuffer_int16 data)) reads).
  { clear -Hs. induction Hs as [|data a reads samples H _ IH]; constructor; [|exact IH].
    exists a. exact H. }
  destruct (start_recording_init fs fs1 tmp now has_callback reads Hmk Hne (or_introl Hok))
    as [volumes E].
  pose proof (chunks_length reads samples Hs) as Hlen.
  destruct (write_file_recorder (concat reads)) as (fl & dl & Hfl & Hdl & Hw);
    [rewrite Hlen; lia|].
  eexists _, _, volumes, (RecorderFormat.file fl dl (concat reads)).
  split; [exact E|]. split.
  - unfold Os.read. rewrite lookup_insert_eq, Hw. reflexivity.
  - rewrite (readframes_recorder_file _ _ fl dl (concat reads) Hfl Hdl eq_refl)
      by lia.
    f_equal. apply take_ge. lia.
Qed.

Lemma recorded_frames_read_back_witness :
  exists r' fs' volumes content,
    AudioRecorder.start_recording AudioRecorder.init Scenario.fs Scenario.tmp 1 true
      [Scenario.silent_chunk; Scenario.negative_full_scale_chunk]
    = Some (r', fs', volumes) /\
    Os.read fs' Scenario.tmp = Some content /\
    Wave.readframes content
      (Z.of_nat (length (concat [repeat 0 1024; repeat (-32768) 1024])))
    = Some (concat [Scenario.silent_chunk; Scenario.negative_full_scale_chunk]).
Proof.
  apply (recorded_frames_read_back Scenario.fs
           (<[Scenario.tmp := Os.File [] 1]> Scenario.fs) Scenario.tmp 1 true
           [Scenario.silent_chunk; Scenario.negative_full_scale_chunk]
           [repeat 0 1024; repeat (-32768) 1024]).
  - vm_compute. reflexivity.
  - discriminate.
  - repeat constructor; vm_compute; reflexivity.
  - vm_compute. discriminate.
Defined.

(** X2.  The capture loop with a volume callback returns normally exactly
    when every chunk has an even number of bytes; it then has appended the
    chunks to [frames] in the order read and has called the callback once
    per chunk, in that order, with that chunk's volume.  Without a callback
    it never raises and reports nothing. *)
Theorem capture_reports_each_chunk
        (reads frames : list (list byte)) (volumes : list (option Q)) :
  (forall frames' volumes',
     AudioRecorder.capture true reads frames volumes = Some (frames', volumes') <->
     frames' = frames ++ reads /\
     exists levels,
       volumes' = volumes ++ levels /\
       Forall2 (fun data v => AudioRecorder.volume data = Some v) reads levels) /\
  (AudioRecorder.capture true reads frames volumes = None <->
   Exists (fun data => Nat.Odd (length data)) reads) /\
  AudioRecorder.capture false reads frames volumes = Some (frames ++ reads, volumes).
Proof.
  split; [|split; [|apply capture_no_callback]].
  - revert frames volumes. induction reads as [|data rest IH]; intros fr vs fr' vs'.
    + cbn [AudioRecorder.capture]. rewrite app_nil_r. split.
      * intros H. injection H as <- <-. split; [reflexivity|].
        exists []. rewrite app_nil_r. split; [reflexivity | constructor].
      * intros [-> (levels & -> & HF)]. inversion HF. rewrite app_nil_r. reflexivity.
    + cbn [AudioRecorder.capture].
      destruct (AudioRecorder.volume data) as [v|] eqn:Ev.
      * rewrite IH. rewrite <- !app_assoc. cbn [app]. split.
        -- intros [-> (levels & -> & HF)]. split; [reflexivity|].
           exists (v :: levels). rewrite <- app_assoc. split; [reflexivity|].
           constructor; assumption.
        -- intros [-> (levels & -> & HF)]. split; [reflexivity|].
           inversion HF as [|? v' ? levels' Hv HF']; subst.
           assert (v' = v) by congruence. subst v'.
           exists levels'. rewrite <- app_assoc. split; [reflexivity | exact HF'].
      * split; [discriminate|].
        intros [_ (levels & _ & HF)]. inversion HF; congruence.
  - assert (Hodd : forall data,
               AudioRecorder.volume data = None <-> Nat.Odd (length data)).
    { intros data. unfold AudioRecorder.volume.
      assert (Hp : forall n (d : list byte), (length d <= n)%nat ->
                     (Numpy.frombuffer_int16 d = None <-> Nat.Odd (length d))).
      { induction n as [|n IHn]; intros d Hd.
        - destruct d; [|simpl in Hd; lia]. split; [discriminate|].
          intros [k Hk]. simpl in Hk. lia.
        - destruct d as [|lo [|hi rest]].
          + split; [discriminate|]. intros [k Hk]. simpl in Hk. lia.
          + split; [intros _; exists 0%nat; reflexivity | reflexivity].
          + cbn [Numpy.frombuffer_int16 length].
            specialize (IHn rest ltac:(simpl in Hd; lia)).
            destruct (Numpy.frombuffer_int16 rest).
            * split; [discriminate|]. intros [k Hk].
              assert (Nat.Odd (length rest)) by (exists (k - 1)%nat; lia).
              apply IHn in H. discriminate H.
            * split; [|reflexivity]. intros _.
              destruct (proj1 IHn eq_refl) as [k Hk]. exists (S k). lia. }
      specialize (Hp (length data) data (le_n _)).
      destruct (Numpy.frombuffer_int16 data).
      - split; [discriminate|]. intros H. apply Hp in H. discriminate H.
      - split; [intros _; apply Hp; reflexivity | reflexivity]. }
    revert frames volumes. induction reads as [|data rest IH]; intros fr vs.
    + cbn [AudioRecorder.capture]. split; [discriminate|]. intros H. inversion H.
    + cbn [AudioRecorder.capture]. rewrite Exists_cons.
      destruct (AudioRecorder.volume data) as [v|] eqn:Ev.
      * rewrite IH. split; [intros H; right; exact H|].
        intros [H|H]; [|exact H]. apply Hodd in H. congruence.
      * split; [|reflexivity]. intros _. left. apply Hodd. exact Ev.
Qed.

Lemma capture_reports_each_chunk_witness :
  AudioRecorder.capture true [[x01; x00]; [xff; x7f]] [] []
  = Some ([[x01; x00]; [xff; x7f]], [Some (1 # 32768); Some (32767 # 32768)]%Q).
Proof.
  apply (proj1 (capture_reports_each_chunk [[x01; x00]; [xff; x7f]] [] [])).
  split; [reflexivity|].
  exists [Some (1 # 32768); Some (32767 # 32768)]%Q. split; [reflexivity|].
  repeat constructor; vm_compute; reflexivity.
Defined.

Lemma write_Some (fs fs' : Os.filesystem) (p : string) (content : list byte) (now : Q) :
  Os.write fs p content now = Some fs' -> fs' = <[p := Os.File content now]> fs.
Proof.
  unfold Os.write.
  destruct (Os.isdir fs p || Os.is_empty p || negb (Os.parent_ok fs p)); [discriminate|].
  intros H. injection H as <-. reflexivity.
Qed.

(** [_save_to_temp_file] returns the recorder as it got it, and touches at
    most the temporary file. *)
Lemma save_to_temp_file_effect (r : AudioRecorder.t) (fs : Os.filesystem) (now : Q) :
  exists fs',
    AudioRecorder._save_to_temp_file r fs now = (r, fs') /\
    (fs' = fs \/
     exists path content,
       AudioRecorder.temp_file r = Some path /\
       fs' = <[path := Os.File content now]> fs).
Proof.
  unfold AudioRecorder._save_to_temp_file.
  destruct (AudioRecorder.frames r); [exists fs; split; [reflexivity | left; reflexivity]|].
  destruct (AudioRecorder.temp_file r) as [path|];
    [|exists fs; split; [reflexivity | left; reflexivity]].
  match goal with
  | |- context [Os.write fs path ?c now] =>
      destruct (Os.write fs path c now) as [fs'|] eqn:E;
      [exists fs'; split; [reflexivity|]; right; exists path, c;
       split; [reflexivity | exact (write_Some _ _ _ _ _ E)]
      |exists fs; split; [reflexivity | left; reflexivity]]
  end.
Qed.

(** What a session leaves: the recorder with its parameters, the chunks
    read and the temporary path; a file system that differs from the one
    before at the temporary path only, which was free. *)
Lemma start_recording_effect (r r' : AudioRecorder.t) (fs fs' : Os.filesystem)
      (tmp : string) (now : Q) (has_callback : bool) (reads : list (list byte))
      (volumes : list (option Q)) :
  AudioRecorder.start_recording r fs tmp now has_callback reads = Some (r', fs', volumes) ->
  r' = AudioRecorder.mk (AudioRecorder.chunk_size r) (AudioRecorder.format r)
         (AudioRecorder.channels r) (AudioRecorder.rate r) reads false (Some tmp) /\
  fs !! tmp = None /\
  exists content, fs' = <[tmp := Os.File content now]> fs.
Proof.
  unfold AudioRecorder.start_recording.
  destruct (AudioRecorder.mkstemp fs tmp now) as [fs1|] eqn:Hmk; [|discriminate].
  unfold AudioRecorder.set_is_recording, AudioRecorder.set_frames,
    AudioRecorder.set_temp_file.
  cbn [AudioRecorder.frames AudioRecorder.chunk_size AudioRecorder.format
       AudioRecorder.channels AudioRecorder.rate AudioRecorder.is_recording
       AudioRecorder.temp_file].
  destruct (AudioRecorder.capture has_callback reads [] []) as [[fr vs]|] eqn:Hc;
    [|discriminate].
  apply capture_frames in Hc. simpl in Hc. subst fr.
  match goal with
  | |- context [AudioRecorder._save_to_temp_file ?r0 fs1 now] =>
      destruct (save_to_temp_file_effect r0 fs1 now) as (fs2 & -> & Hfs)
  end.
  intros H. injection H as <- <- <-.
  split; [reflexivity|].
  assert (Hnone : fs !! tmp = None).
  { unfold AudioRecorder.mkstemp in Hmk.
    destruct (Os.exists_ fs tmp) eqn:E; [discriminate Hmk|].
    unfold Os.exists_ in E. apply orb_false_iff in E as [_ E].
    destruct (fs !! tmp); [discriminate E | reflexivity]. }
  split; [exact Hnone|].
  apply mkstemp_Some in Hmk as [-> _].
  destruct Hfs as [->|(path & content & Hp & ->)].
  - exists []. reflexivity.
  - cbn [AudioRecorder.temp_file] in Hp. injection Hp as <-.
    exists content. rewrite insert_insert_eq. reflexivity.
Qed.

(** X3.  Two sessions in a row with one recorder: the second starts from
    an empty [frames] list, exactly as a fresh recorder would; it gets a
    temporary file of its own and leaves the first recording, and every
    other file, as they were. *)
Theorem second_session_keeps_first
        (fs fs1 fs2 : Os.filesystem) (r1 r2 : AudioRecorder.t) (tmp1 tmp2 : string)
        (now1 now2 : Q) (cb1 cb2 : bool) (reads1 reads2 : list (list byte))
        (volumes1 volumes2 : list (option Q)) :
  AudioRecorder.start_recording AudioRecorder.init fs tmp1 now1 cb1 reads1
  = Some (r1, fs1, volumes1) ->
  AudioRecorder.start_recording r1 fs1 tmp2 now2 cb2 reads2
  = Some (r2, fs2, volumes2) ->
  AudioRecorder.frames r2 = reads2 /\
  AudioRecorder.temp_file r2 = Some tmp2 /\
  tmp2 <> tmp1 /\
  (forall p, p <> tmp2 -> fs2 !! p = fs1 !! p) /\
  Os.read fs2 tmp1 = Os.read fs1 tmp1 /\
  AudioRecorder.start_recording AudioRecorder.init fs1 tmp2 now2 cb2 reads2
  = Some (r2, fs2, volumes2).
Proof.
  intros H1 H2.
  destruct (start_recording_effect _ _ _ _ _ _ _ _ _ H1) as (Hr1 & Hn1 & c1 & Hfs1).
  destruct (start_recording_effect _ _ _ _ _ _ _ _ _ H2) as (Hr2 & Hn2 & c2 & Hfs2).
  assert (Hne : tmp2 <> tmp1).
  { intros ->. rewrite Hfs1, lookup_insert_eq in Hn2. discriminate Hn2. }
  assert (Hframe : forall p, p <> tmp2 -> fs2 !! p = fs1 !! p).
  { intros p Hp. rewrite Hfs2. apply lookup_insert_ne. congruence. }
  split; [rewrite Hr2; reflexivity|]. split; [rewrite Hr2; reflexivity|].
  split; [exact Hne|]. split; [exact Hframe|].
  split; [unfold Os.read; rewrite (Hframe tmp1) by congruence; reflexivity|].
  rewrite <- H2. rewrite Hr1. reflexivity.
Qed.

Lemma second_session_keeps_first_witness :
  let fs1 := <[Scenario.tmp := Os.File (Wave.write_file 1 2 44100 [x01; x00]).1 1]>
               Scenario.fs in
  let fs2 := <["/tmp/tmpq2.wav"%string
               := Os.File (Wave.write_file 1 2 44100 [xff; x7f]).1 2]> fs1 in
  "/tmp/tmpq2.wav"%string <> Scenario.tmp /\
  Os.read fs2 Scenario.tmp = Os.read fs1 Scenario.tmp.
Proof.
  intros fs1 fs2.
  destruct (second_session_keeps_first Scenario.fs fs1 fs2
              (AudioRecorder.mk 1024 PyAudio.paInt16 1 44100 [[x01; x00]] false
                 (Some Scenario.tmp))
              (AudioRecorder.mk 1024 PyAudio.paInt16 1 44100 [[xff; x7f]] false
                 (Some "/tmp/tmpq2.wav"%string))
              Scenario.tmp "/tmp/tmpq2.wav" 1 2 true true [[x01; x00]] [[xff; x7f]]
              [Some (1 # 32768)%Q] [Some (32767 # 32768)%Q])
    as (_ & _ & Hne & _ & Hr & _).
  - vm_compute. reflexivity.
  - vm_compute. reflexivity.
  - split; [exact Hne | exact Hr].
Defined.

(** ** file_manager.py: saving, listing and deleting together *)

(** What [os.listdir] lists: the non-empty names whose path in the
    directory is an entry and has that name as its last component. *)
Lemma listdir_elem (fs : Os.filesystem) (d : string) (names : list string) (n : string) :
  Os.listdir fs d = Some names ->
  n ∈ names <->
  Os.is_empty n = false /\ Os.basename (Os.join d n) = n /\ is_Some (fs !! Os.join d n).
Proof.
  unfold Os.listdir. destruct (Os.isdir fs d); [|discriminate].
  intros H. injection H as <-.
  rewrite list_elem_of_omap. split.
  - intros ([k v] & Hk & E). simpl in E.
    destruct (negb (Os.is_empty (Os.basename k)) && String.eqb (Os.join d (Os.basename k)) k)
      eqn:C; [|discriminate E].
    injection E as <-. apply andb_true_iff in C as [C1 C2].
    apply negb_true_iff in C1. apply String.eqb_eq in C2.
    apply elem_of_map_to_list in Hk. rewrite C2.
    split; [exact C1|]. split; [reflexivity|]. exists v. exact Hk.
  - intros (Hne & Hb & [v Hv]). exists (Os.join d n, v).
    split; [apply elem_of_map_to_list; exact Hv|].
    simpl. rewrite Hb, Hne, String.eqb_refl. reflexivity.
Qed.

Lemma endswith_not_empty (n suffix : string) :
  Os.is_empty suffix = false -> Os.endswith n suffix = true -> Os.is_empty n = false.
Proof.
  intros Hs H. destruct n; [|reflexivity].
  destruct suffix; [discriminate Hs | discriminate H].
Qed.

Lemma endswith_append (a s : string) : Os.endswith (a +:+ s) s = true.
Proof.
  induction a as [|c a IH].
  - rewrite append_nil_l. destruct s; simpl; rewrite ?String.eqb_refl, ?Ascii.eqb_refl;
      reflexivity.
  - rewrite append_cons. cbn [Os.endswith]. rewrite IH. apply orb_true_r.
Qed.

(** The names [get_saved_recordings] returns for a recordings directory
    [d]: each once, those ending in [.wav] that name a regular file
    directly in [d]. *)
Lemma saved_recordings_elem (fm : FileManager.t) (fs : Os.filesystem) :
  let d := FileManager.recordings_dir fm in
  Os.isdir fs d = true ->
  exists l,
    FileManager.get_saved_recordings fm fs = Some l /\
    NoDup l /\
    forall n,
      n ∈ l <->
      Os.basename (Os.join d n) = n /\ Os.endswith n ".wav" = true /\
      Os.isfile fs (Os.join d n) = true.
Proof.
  intros d Hdir. unfold FileManager.get_saved_recordings. fold d.
  rewrite (isdir_exists _ _ Hdir). simpl.
  destruct (Os.listdir fs d) as [names|] eqn:Hl;
    [|unfold Os.listdir in Hl; rewrite Hdir in Hl; discriminate Hl].
  set (keep := fun f => Os.endswith f ".wav" && Os.isfile fs (Os.join d f)).
  set (recordings := List.filter keep names).
  set (getkey := fun x => option_map (fun m => (m, x)) (Os.getmtime fs (Os.join d x))).
  assert (Hrec : forall n, n ∈ recordings <-> n ∈ names /\ keep n = true).
  { intros n. rewrite !list_elem_of_In. apply filter_In. }
  destruct (mapM getkey recordings) as [keyed|] eqn:Hm.
  2:{ apply mapM_None_1 in Hm. apply Exists_exists in Hm as (x & Hx & Ex).
      apply Hrec in Hx as [_ Hk]. unfold keep in Hk.
      apply andb_true_iff in Hk as [_ Hk].
      destruct (isfile_getmtime _ _ Hk) as [m Em].
      unfold getkey in Ex. rewrite Em in Ex. discriminate Ex. }
  apply mapM_Some_1 in Hm.
  assert (Hsnd : map snd keyed = recordings).
  { clear Hrec. induction Hm as [|x y l k Hxy _ IH]; [reflexivity|].
    simpl. rewrite IH. unfold getkey in Hxy.
    destruct (Os.getmtime fs (Os.join d x)); [|discriminate Hxy].
    injection Hxy as <-. reflexivity. }
  assert (Hl' : map snd (Py.sort_desc fst keyed) ≡ₚ recordings).
  { rewrite <- Hsnd. apply Permutation_map. apply sort_desc_perm. }
  exists (map snd (Py.sort_desc fst keyed)).
  split; [reflexivity|]. split.
  { rewrite Hl'. apply NoDup_ListNoDup, List.NoDup_filter, NoDup_ListNoDup.
    exact (listdir_NoDup _ _ _ Hl). }
  intros n. rewrite Hl', Hrec, (listdir_elem _ _ _ n Hl). unfold keep.
  rewrite andb_true_iff. split.
  - intros [(_ & Hb & _) [He Hf]]. auto.
  - intros (Hb & He & Hf). split; [|auto].
    split; [exact (endswith_not_empty n ".wav" eq_refl He)|]. split; [exact Hb|].
    unfold Os.isfile in Hf. destruct (fs !! Os.join d n); [eauto | discriminate Hf].
Qed.

Lemma rstrip_slash_id (d : string) :
  Os.endswith_slash d = false -> Os.rstrip_slash d = d.
Proof.
  induction d as [|c d IH]; intros H; [reflexivity|].
  destruct d as [|c' d].
  - simpl in *. rewrite H. reflexivity.
  - change (Os.endswith_slash (String c' d) = false) in H.
    cbn [Os.rstrip_slash] in *. rewrite (IH H). reflexivity.
Qed.

Lemma rstrip_slash_sep (a : string) : Os.rstrip_slash (a +:+ "/") = Os.rstrip_slash a.
Proof.
  induction a as [|c a IH]; [reflexivity|].
  rewrite append_cons. cbn [Os.rstrip_slash]. rewrite IH. reflexivity.
Qed.

(** A file directly in an existing directory can be created, when the
    directory is named without a trailing slash. *)
Lemma parent_ok_join (fs : Os.filesystem) (d n : string) :
  Os.no_slash n = true -> Os.endswith_slash d = false -> Os.isdir fs d = true ->
  Os.parent_ok fs (Os.join d n) = true.
Proof.
  intros Hn Hd Hdir. unfold Os.parent_ok, Os.dirname, Os.split, Os.join.
  rewrite (no_slash_not_empty_start n Hn), Hd.
  destruct d as [|c d].
  - cbn [Os.is_empty orb]. rewrite append_nil_l, (split_last_no_slash n Hn). reflexivity.
  - cbn [Os.is_empty orb]. change ("/" +:+ n) with (String "/" n).
    rewrite (split_last_sep (String c d) n Hn), rstrip_slash_sep, (rstrip_slash_id _ Hd).
    cbn [Os.is_empty fst orb]. exact Hdir.
Qed.

Lemma generated_name_wav (now : Datetime.t) :
  Os.endswith (FileManager.generated_name now) ".wav" = true.
Proof.
  unfold FileManager.generated_name. rewrite <- append_assoc. apply endswith_append.
Qed.

Lemma isfile_insert (fs : Os.filesystem) (p q : string) (content : list byte) (mtime : Q) :
  Os.isfile (<[p := Os.File content mtime]> fs) q
  = if decide (q = p) then true else Os.isfile fs q.
Proof.
  unfold Os.isfile. destruct (decide (q = p)) as [->|Hne].
  - rewrite lookup_insert_eq. reflexivity.
  - rewrite lookup_insert_ne by congruence. reflexivity.
Qed.

Lemma isfile_delete (fs : Os.filesystem) (p q : string) :
  Os.isfile (delete p fs) q = if decide (q = p) then false else Os.isfile fs q.
Proof.
  unfold Os.isfile. destruct (decide (q = p)) as [->|Hne].
  - rewrite lookup_delete_eq. reflexivity.
  - rewrite lookup_delete_ne by congruence. reflexivity.
Qed.

(** Writing or removing a regular file leaves the directories as they
    are. *)
Lemma isdir_insert_file (fs : Os.filesystem) (p d : string) (content : list byte)
      (mtime : Q) :
  Os.isdir fs p = false -> Os.isdir fs d = true ->
  Os.isdir (<[p := Os.File content mtime]> fs) d = true.
Proof.
  intros Hp Hd. unfold Os.isdir in *. destruct (Os.is_root d) eqn:Hr; [reflexivity|].
  rewrite lookup_insert_ne; [exact Hd|]. intros ->.
  rewrite Hr in Hp. cbn [orb] in Hd, Hp. rewrite Hd in Hp. discriminate Hp.
Qed.

Lemma isdir_delete_file (fs : Os.filesystem) (p d : string) :
  Os.isfile fs p = true -> Os.isdir fs d = true -> Os.isdir (delete p fs) d = true.
Proof.
  intros Hp Hd. unfold Os.isdir, Os.isfile in *. destruct (Os.is_root d); [reflexivity|].
  rewrite lookup_delete_ne; [exact Hd|]. intros ->.
  cbn [orb] in Hd. destruct (fs !! d) as [[]|]; discriminate.
Qed.

(** Saving under the generated name into an existing recordings
    directory. *)
Lemma save_recording_generated (fm : FileManager.t) (fs : Os.filesystem)
      (now : Datetime.t) (source_file : string) (content : list byte) (mtime : Q) :
  let p := Os.join (FileManager.recordings_dir fm) (FileManager.generated_name now) in
  Datetime.valid now ->
  Os.endswith_slash (FileManager.recordings_dir fm) = false ->
  Os.isdir fs (FileManager.recordings_dir fm) = true ->
  fs !! source_file = Some (Os.File content mtime) ->
  Os.isdir fs p = false -> p <> source_file ->
  FileManager.save_recording fm fs now source_file None
  = Some (<[p := Os.File content mtime]> fs, p).
Proof.
  intros p Hv Hnt Hd Hsrc Hpd Hne.
  pose proof (parent_ok_join fs _ _ (generated_name_no_slash now Hv) Hnt Hd) as Hp.
  fold p in Hp.
  unfold FileManager.save_recording, FileManager.destination. fold p.
  assert (C : negb (Os.is_empty (Os.dirname p)) && negb (Os.exists_ fs (Os.dirname p))
              = false).
  { unfold Os.parent_ok in Hp. apply orb_true_iff in Hp as [Hp|Hp].
    - rewrite Hp. reflexivity.
    - rewrite (isdir_exists _ _ Hp). rewrite andb_false_r. reflexivity. }
  rewrite C.
  rewrite (copy2_file_ok fs source_file p content mtime Hsrc Hpd
             (destination_not_empty fm now None) Hp (fun E => Hne (eq_sym E))).
  reflexivity.
Qed.

(** X4.  Saving, then listing.  In an existing recordings directory (named
    without a trailing slash), saving an existing file with no destination
    given, when the generated path is not a directory and is not the source
    itself, returns the generated path; the listing afterwards holds the
    generated name and, besides it, exactly the names listed before.  The
    copy carries the modification time of the source, so it is ordered by
    when the recording was written, not by when it was saved; no other
    path changes. *)
Theorem saved_recording_is_listed (fm : FileManager.t) (fs : Os.filesystem)
        (now : Datetime.t) (source_file : string) (content : list byte) (mtime : Q) :
  let d := FileManager.recordings_dir fm in
  let name := FileManager.generated_name now in
  Datetime.valid now ->
  Os.endswith_slash d = false -> Os.isdir fs d = true ->
  fs !! source_file = Some (Os.File content mtime) ->
  Os.isdir fs (Os.join d name) = false -> Os.join d name <> source_file ->
  exists fs' before after,
    FileManager.save_recording fm fs now source_file None = Some (fs', Os.join d name) /\
    FileManager.get_saved_recordings fm fs = Some before /\
    FileManager.get_saved_recordings fm fs' = Some after /\
    (forall n, n ∈ after <-> n = name \/ n ∈ before) /\
    Os.getmtime fs' (Os.join d name) = Some mtime /\
    (forall q, q <> Os.join d name -> fs' !! q = fs !! q).
Proof.
  intros d name Hv Hnt Hd Hsrc Hpd Hne.
  set (p := Os.join d name) in *.
  set (fs' := <[p := Os.File content mtime]> fs).
  pose proof (generated_name_no_slash now Hv) as Hns. fold name in Hns.
  pose proof (basename_join d name Hns) as Hbase. fold p in Hbase.
  destruct (saved_recordings_elem fm fs Hd) as (before & Hb & _ & Hbe).
  destruct (saved_recordings_elem fm fs' (isdir_insert_file fs p d content mtime Hpd Hd))
    as (after & Ha & _ & Hae).
  fold d in Hbe, Hae.
  exists fs', before, after.
  split; [exact (save_recording_generated fm fs now source_file content mtime
                   Hv Hnt Hd Hsrc Hpd Hne)|].
  split; [exact Hb|]. split; [exact Ha|]. split; [|split].
  - intros n. split.
    + intros H. apply Hae in H as (Hbn & He & Hf).
      unfold fs' in Hf. rewrite isfile_insert in Hf.
      destruct (decide (Os.join d n = p)) as [E|E].
      * left. rewrite <- Hbn, E. exact Hbase.
      * right. apply Hbe. auto.
    + intros H. apply Hae. unfold fs'. rewrite isfile_insert.
      destruct (decide (Os.join d n = p)) as [E|E].
      * assert (n = name) as ->.
        { destruct H as [->|H]; [reflexivity|].
          apply Hbe in H as (Hbn & _). rewrite <- Hbn, E. exact Hbase. }
        split; [exact Hbase|]. split; [apply generated_name_wav | reflexivity].
      * destruct H as [->|H]; [contradiction E; reflexivity|].
        apply Hbe in H. exact H.
  - unfold Os.getmtime, fs'. rewrite lookup_insert_eq. reflexivity.
  - intros q Hq. unfold fs'. apply lookup_insert_ne. congruence.
Qed.

Lemma saved_recording_is_listed_witness :
  exists fs' before after,
    FileManager.save_recording Scenario.fm Scenario.fs Scenario.now "/tmp/tmpk3.wav" None
    = Some (fs', Os.join (FileManager.recordings_dir Scenario.fm)
                   (FileManager.generated_name Scenario.now)) /\
    FileManager.get_saved_recordings Scenario.fm Scenario.fs = Some before /\
    FileManager.get_saved_recordings Scenario.fm fs' = Some after /\
    (forall n, n ∈ after <-> n = FileManager.generated_name Scenario.now \/ n ∈ before) /\
    Os.getmtime fs' (Os.join (FileManager.recordings_dir Scenario.fm)
                       (FileManager.generated_name Scenario.now)) = Some 3%Q /\
    (forall q, q <> Os.join (FileManager.recordings_dir Scenario.fm)
                      (FileManager.generated_name Scenario.now) ->
               fs' !! q = Scenario.fs !! q).
Proof.
  apply (saved_recording_is_listed Scenario.fm Scenario.fs Scenario.now
           "/tmp/tmpk3.wav" [x52; x49] 3%Q).
  - vm_compute. repeat split; discriminate.
  - vm_compute. reflexivity.
  - vm_compute. reflexivity.
  - vm_compute. reflexivity.
  - vm_compute. reflexivity.
  - vm_compute. discriminate.
Defined.

(** X5.  Deleting, then listing.  Deleting a name that
    [get_saved_recordings] returned never raises and returns [True]; the
    listing afterwards is the former one without that name (which it held
    once), and only the deleted path changes. *)
Theorem deleted_recording_is_unlisted (fm : FileManager.t) (fs : Os.filesystem)
        (before : list string) (name : string) :
  let d := FileManager.recordings_dir fm in
  FileManager.get_saved_recordings fm fs = Some before ->
  name ∈ before ->
  exists fs' after,
    FileManager.delete_recording fm fs name = Some (fs', true) /\
    FileManager.get_saved_recordings fm fs' = Some after /\
    (forall n, n ∈ after <-> n ∈ before /\ n <> name) /\
    before ≡ₚ name :: after /\
    fs' !! Os.join d name = None /\
    (forall q, q <> Os.join d name -> fs' !! q = fs !! q).
Proof.
  intros d Hb Hn.
  assert (Hd : Os.isdir fs d = true).
  { unfold FileManager.get_saved_recordings in Hb. fold d in Hb.
    destruct (Os.exists_ fs d); simpl in Hb.
    - unfold Os.listdir in Hb. destruct (Os.isdir fs d); [reflexivity | discriminate Hb].
    - injection Hb as <-. inversion Hn. }
  destruct (saved_recordings_elem fm fs Hd) as (before' & Hb' & Hnd & Hbe).
  rewrite Hb in Hb'. injection Hb' as <-. fold d in Hbe.
  set (p := Os.join d name).
  pose proof (proj1 (Hbe name) Hn) as (Hbase & _ & Hfile). fold p in Hbase, Hfile.
  destruct (saved_recordings_elem fm (delete p fs) (isdir_delete_file fs p d Hfile Hd))
    as (after & Ha & Hnd' & Hae).
  fold d in Hae.
  assert (Hmem : forall n, n ∈ after <-> n ∈ before /\ n <> name).
  { intros n. split.
    - intros H. apply Hae in H as (Hbn & He & Hf). rewrite isfile_delete in Hf.
      destruct (decide (Os.join d n = p)) as [E|E]; [discriminate Hf|].
      split; [apply Hbe; auto|]. intros ->. apply E. reflexivity.
    - intros [H Hne]. apply Hbe in H as (Hbn & He & Hf). apply Hae.
      rewrite isfile_delete.
      destruct (decide (Os.join d n = p)) as [E|E]; [|auto].
      exfalso. apply Hne. rewrite <- Hbn, E. exact Hbase. }
  exists (delete p fs), after.
  split.
  { unfold FileManager.delete_recording. fold d p.
    assert (He : Os.exists_ fs p = true).
    { unfold Os.exists_, Os.isfile in *. destruct (fs !! p); [|discriminate Hfile].
      apply orb_true_r. }
    rewrite He. unfold Os.remove. rewrite Hfile. reflexivity. }
  split; [exact Ha|]. split; [exact Hmem|]. split; [|split].
  - apply NoDup_Permutation; [exact Hnd| |].
    + apply NoDup_cons. split; [|exact Hnd'].
      intros H. apply Hmem in H as [_ H]. apply H. reflexivity.
    + intros n. rewrite elem_of_cons, Hmem.
      destruct (decide (n = name)) as [->|Hne]; [tauto|]. tauto.
  - apply lookup_delete_eq.
  - intros q Hq. apply lookup_delete_ne. congruence.
Qed.

Lemma deleted_recording_is_unlisted_witness :
  exists fs' after,
    FileManager.delete_recording Scenario.fm Scenario.fs "a.wav" = Some (fs', true) /\
    FileManager.get_saved_recordings Scenario.fm fs' = Some after /\
    (forall n, n ∈ after <-> n ∈ ["b.wav"; "a.wav"]%string /\ n <> "a.wav"%string) /\
    ["b.wav"; "a.wav"]%string ≡ₚ "a.wav"%string :: after /\
    fs' !! Os.join (FileManager.recordings_dir Scenario.fm) "a.wav" = None /\
    (forall q, q <> Os.join (FileManager.recordings_dir Scenario.fm) "a.wav" ->
               fs' !! q = Scenario.fs !! q).
Proof.
  apply (deleted_recording_is_unlisted Scenario.fm Scenario.fs
           ["b.wav"; "a.wav"]%string "a.wav"%string).
  - vm_compute. reflexivity.
  - constructor. constructor.
Defined.

(** X6.  Round trip of saving and deleting.  In an existing recordings
    directory, named without a trailing slash, when nothing exists at the
    generated path: saving an existing file with no destination and then
    deleting the generated name gives back the file system as it was
    before the save; the saved path is [get_recording_path] of the
    generated name, and deleting the name before the save returns [False]
    and changes nothing. *)
Theorem save_then_delete_restores (fm : FileManager.t) (fs : Os.filesystem)
        (now : Datetime.t) (source_file : string) (content : list byte) (mtime : Q) :
  let d := FileManager.recordings_dir fm in
  let name := FileManager.generated_name now in
  Datetime.valid now ->
  Os.endswith_slash d = false -> Os.isdir fs d = true ->
  fs !! source_file = Some (Os.File content mtime) ->
  Os.exists_ fs (Os.join d name) = false ->
  exists fs',
    FileManager.save_recording fm fs now source_file None
    = Some (fs', FileManager.get_recording_path fm name) /\
    Os.read fs' (FileManager.get_recording_path fm name) = Some content /\
    FileManager.delete_recording fm fs' name = Some (fs, true) /\
    FileManager.delete_recording fm fs name = Some (fs, false).
Proof.
  intros d name Hv Hnt Hd Hsrc Hex.
  unfold FileManager.get_recording_path. fold d.
  set (p := Os.join d name) in *.
  assert (Hnone : fs !! p = None).
  { unfold Os.exists_ in Hex. apply orb_false_iff in Hex as [_ Hex].
    destruct (fs !! p); [discriminate Hex | reflexivity]. }
  assert (Hpd : Os.isdir fs p = false).
  { unfold Os.isdir. unfold Os.exists_ in Hex. apply orb_false_iff in Hex as [-> _].
    rewrite Hnone. reflexivity. }
  assert (Hne : p <> source_file) by congruence.
  exists (<[p := Os.File content mtime]> fs).
  split; [exact (save_recording_generated fm fs now source_file content mtime
                   Hv Hnt Hd Hsrc Hpd Hne)|].
  split; [unfold Os.read; rewrite lookup_insert_eq; reflexivity|].
  split.
  - unfold FileManager.delete_recording. fold d p.
    unfold Os.exists_, Os.remove, Os.isfile. rewrite lookup_insert_eq, orb_true_r.
    rewrite delete_insert_id by exact Hnone. reflexivity.
  - unfold FileManager.delete_recording. fold d p. rewrite Hex. reflexivity.
Qed.

Lemma save_then_delete_restores_witness :
  exists fs',
    FileManager.save_recording Scenario.fm Scenario.fs Scenario.now "/tmp/tmpk3.wav" None
    = Some (fs', FileManager.get_recording_path Scenario.fm
                   (FileManager.generated_name Scenario.now)) /\
    Os.read fs' (FileManager.get_recording_path Scenario.fm
                   (FileManager.generated_name Scenario.now)) = Some [x52; x49] /\
    FileManager.delete_recording Scenario.fm fs' (FileManager.generated_name Scenario.now)
    = Some (Scenario.fs, true) /\
    FileManager.delete_recording Scenario.fm Scenario.fs
      (FileManager.generated_name Scenario.now)
    = Some (Scenario.fs, false).
Proof.
  apply (save_then_delete_restores Scenario.fm Scenario.fs Scenario.now
           "/tmp/tmpk3.wav" [x52; x49] 3%Q).
  - vm_compute. repeat split; discriminate.
  - vm_compute. reflexivity.
  - vm_compute. reflexivity.
  - vm_compute. reflexivity.
  - vm_compute. reflexivity.
Defined.

(** X7.  Constructing a [FileManager].  Whenever the constructor returns,
    it has kept the directory name it was given and has only added
    directories: no existing entry is changed or removed.  For a plain
    name (non-empty, no slash) it always returns; something exists at the
    name afterwards, no other path has changed, a second construction
    changes nothing, and unless a regular file sits at the name the
    recordings can be listed. *)
Theorem init_creates_directory (fs : Os.filesystem) (d : string) :
  (forall fm fs',
     FileManager.init fs d = Some (fm, fs') ->
     FileManager.recordings_dir fm = d /\
     forall k, fs' !! k = fs !! k \/ (fs !! k = None /\ fs' !! k = Some Os.Dir)) /\
  (Os.no_slash d = true -> Os.is_empty d = false ->
   exists fs',
     FileManager.init fs d = Some (FileManager.mk d, fs') /\
     Os.exists_ fs' d = true /\
     (forall k, k <> d -> fs' !! k = fs !! k) /\
     FileManager.init fs' d = Some (FileManager.mk d, fs') /\
     (Os.isfile fs d = false ->
      exists l, FileManager.get_saved_recordings (FileManager.mk d) fs' = Some l)).
Proof.
  split.
  - intros fm fs' H. unfold FileManager.init in H.
    destruct (Os.exists_ fs d); simpl in H.
    + injection H as <- <-. split; [reflexivity|]. intros k. left. reflexivity.
    + destruct (Os.makedirs fs d) as [fs1|] eqn:M; [|discriminate H].
      injection H as <- <-. split; [reflexivity|]. intros k.
      destruct (makedirs_fuel_adds _ _ _ _ M k) as [E|(E1 & E2 & _)]; auto.
  - intros Hns Hne.
    assert (Hlist : forall fs1 : Os.filesystem,
              Os.isdir fs1 d = true ->
              exists l, FileManager.get_saved_recordings (FileManager.mk d) fs1 = Some l).
    { intros fs1 H1.
      destruct (saved_recordings_elem (FileManager.mk d) fs1 H1) as (l & Hl & _).
      exists l. exact Hl. }
    unfold FileManager.init. destruct (Os.exists_ fs d) eqn:E; simpl.
    + exists fs. split; [reflexivity|]. split; [exact E|].
      split; [reflexivity|]. rewrite E. simpl. split; [reflexivity|].
      intros Hf. apply Hlist. unfold Os.exists_, Os.isdir, Os.isfile in *.
      destruct (Os.is_root d); [reflexivity|].
      destruct (fs !! d) as [[]|]; simpl in *; congruence.
    + assert (Hsplit : Os.split d = (EmptyString, d)).
      { unfold Os.split. rewrite (split_last_no_slash d Hns). reflexivity. }
      assert (Hmk : Os.makedirs fs d = Some (<[d := Os.Dir]> fs)).
      { unfold Os.makedirs. cbn [Os.makedirs_fuel]. rewrite Hsplit, Hne.
        cbn [Os.is_empty negb andb]. unfold Os.mkdir, Os.parent_ok, Os.dirname.
        rewrite E, Hne, Hsplit. reflexivity. }
      rewrite Hmk. exists (<[d := Os.Dir]> fs).
      assert (E' : Os.exists_ (<[d := Os.Dir]> fs) d = true).
      { unfold Os.exists_. rewrite lookup_insert_eq. apply orb_true_r. }
      split; [reflexivity|]. split; [exact E'|].
      split; [intros k Hk; apply lookup_insert_ne; congruence|].
      rewrite E'. simpl. split; [reflexivity|].
      intros _. apply Hlist. unfold Os.isdir. rewrite lookup_insert_eq. apply orb_true_r.
Qed.

Lemma init_creates_directory_witness :
  exists fs',
    FileManager.init Scenario.fs "archive" = Some (FileManager.mk "archive", fs') /\
    Os.exists_ fs' "archive" = true /\
    (forall k, k <> "archive"%string -> fs' !! k = Scenario.fs !! k) /\
    FileManager.init fs' "archive" = Some (FileManager.mk "archive", fs') /\
    (Os.isfile Scenario.fs "archive" = false ->
     exists l, FileManager.get_saved_recordings (FileManager.mk "archive") fs' = Some l).
Proof.
  apply (proj2 (init_creates_directory Scenario.fs "archive")).
  - vm_compute. reflexivity.
  - vm_compute. reflexivity.
Defined.
(** ** waveform_display.py: the widget in use *)

(** The bars one call of the drawing loop adds, whether animating or not:
    one rectangle per index, each with a height between 2 and
    [max(2, int(height * 0.8))]; [heights] keeps its length. *)
Lemma draw_bars_rectangles (w : Waveform.t) (sx : Z) (rng : nat -> Z) :
  forall (indices : list nat) (hs : list Z) (canvas : list Waveform.item),
    (Waveform.animation_running w = true ->
     Forall (fun i => (i < length hs)%nat) indices) ->
    exists hs' hl,
      Waveform.draw_bars w sx rng indices hs canvas
      = Some (hs', canvas ++ zip_with (Waveform.bar_rectangle w sx) indices hl) /\
      length hs' = length hs /\ length hl = length indices /\
      Forall (fun h => 2 <= h <= Z.max 2 (Waveform.max_height w)) hl /\
      (Waveform.animation_running w = false ->
       hs' = hs /\ hl = repeat 2 (length indices)).
Proof.
  induction indices as [|i rest IH]; intros hs canvas Hinv.
  - exists hs, []. simpl. rewrite app_nil_r. repeat split; constructor.
  - cbn [Waveform.draw_bars]. destruct (Waveform.animation_running w) eqn:Hrun; cbn [negb].
    + specialize (Hinv eq_refl). apply Forall_cons in Hinv as [Hi Hrest].
      assert (Hbh : exists h, Waveform.bar_height w (rng i) i hs = Some h /\
                              2 <= h <= Z.max 2 (Waveform.max_height w)).
      { unfold Waveform.bar_height. destruct i as [|j].
        - eexists. split; [reflexivity|]. rewrite maxi_max, mini_min. lia.
        - destruct (lookup_lt_is_Some_2 hs j ltac:(lia)) as [prev ->].
          eexists. split; [reflexivity|]. rewrite maxi_max, mini_min. lia. }
      destruct Hbh as (h & -> & Hh).
      assert (Hlt : (i <? length hs)%nat = true) by (apply Nat.ltb_lt; exact Hi).
      rewrite Hlt.
      destruct (IH (<[i := h]> hs) (canvas ++ [Waveform.bar_rectangle w sx i h]))
        as (hs' & hl & E & Hl & Hn & Hall & _).
      { intros _. rewrite length_insert. exact Hrest. }
      exists hs', (h :: hl). rewrite E, <- app_assoc. cbn [zip_with app].
      split; [reflexivity|]. split; [rewrite Hl, length_insert; reflexivity|].
      split; [simpl; rewrite Hn; reflexivity|].
      split; [constructor; assumption | discriminate].
    + destruct (IH hs (canvas ++ [Waveform.bar_rectangle w sx i 2]))
        as (hs' & hl & E & Hl & Hn & Hall & Hflat); [discriminate|].
      destruct (Hflat eq_refl) as [-> ->].
      exists hs, (2 :: repeat 2 (length rest)). rewrite E, <- app_assoc.
      cbn [zip_with app].
      split; [reflexivity|]. split; [reflexivity|].
      split; [simpl; rewrite repeat_length; reflexivity|].
      split; [constructor; [lia | exact Hall]|].
      intros _. split; reflexivity.
Qed.

(** [draw_waveform] returns when [heights] has room for the bars it
    draws; the canvas then holds the grid lines and the bars. *)
Lemma draw_waveform_canvas (w : Waveform.t) (rng : nat -> Z) :
  let n := Z.to_nat (Waveform.bars_to_draw w) in
  let sx := (Waveform.width w
             - Waveform.bars_to_draw w * (Waveform.bar_width w + Waveform.bar_gap w)) / 2 in
  (Waveform.animation_running w = true -> (n <= length (Waveform.heights w))%nat) ->
  exists hs' hl,
    Waveform.draw_waveform w rng
    = Some (Waveform.set_heights w hs',
            Waveform.grid_lines w ++ zip_with (Waveform.bar_rectangle w sx) (seq 0 n) hl) /\
    length hs' = length (Waveform.heights w) /\ length hl = n /\
    Forall (fun h => 2 <= h <= Z.max 2 (Waveform.max_height w)) hl /\
    (Waveform.animation_running w = false ->
     hs' = Waveform.heights w /\ hl = repeat 2 n).
Proof.
  intros n sx Hinv. unfold Waveform.draw_waveform. fold n sx.
  destruct (draw_bars_rectangles w sx rng (seq 0 n) (Waveform.heights w)
              (Waveform.grid_lines w)) as (hs' & hl & E & Hl & Hn & Hall & Hflat).
  { intros Hrun. specialize (Hinv Hrun). apply Forall_forall. intros i Hi.
    apply list_elem_of_In, in_seq in Hi. lia. }
  rewrite length_seq in Hn, Hflat.
  exists hs', hl. rewrite E. auto.
Qed.

Lemma drawn_heights_bars (w : Waveform.t) (sx : Z) :
  forall (indices : list nat) (hl : list Z),
    length hl = length indices ->
    Waveform.drawn_heights (zip_with (Waveform.bar_rectangle w sx) indices hl) = hl.
Proof.
  induction indices as [|i rest IH]; intros [|h hl] Hl; try discriminate Hl;
    [reflexivity|].
  cbn [zip_with Waveform.drawn_heights Waveform.bar_rectangle]. rewrite IH by (simpl in Hl; lia).
  f_equal. lia.
Qed.

Lemma bar_spans_bars (w : Waveform.t) (sx : Z) :
  forall (indices : list nat) (hl : list Z),
    length hl = length indices ->
    Waveform.bar_spans (zip_with (Waveform.bar_rectangle w sx) indices hl)
    = map (fun i : nat =>
             let x := sx + Z.of_nat i * (Waveform.bar_width w + Waveform.bar_gap w) in
             (x, x + Waveform.bar_width w)) indices.
Proof.
  induction indices as [|i rest IH]; intros [|h hl] Hl; try discriminate Hl;
    [reflexivity|].
  cbn [zip_with Waveform.bar_spans Waveform.bar_rectangle map].
  rewrite IH by (simpl in Hl; lia). reflexivity.
Qed.

Lemma bar_spans_app (c1 c2 : list Waveform.item) :
  Waveform.bar_spans (c1 ++ c2) = Waveform.bar_spans c1 ++ Waveform.bar_spans c2.
Proof.
  induction c1 as [|[x0 y0 x1 y1|x0 y0 x1 y1] c1 IH]; simpl;
    [reflexivity | exact IH | rewrite IH; reflexivity].
Qed.

(** One bar of a draw lies on the canvas. *)
Lemma bar_rectangle_inside (w : Waveform.t) (i : nat) (h : Z) :
  let n := Waveform.bars_to_draw w in
  let sx := (Waveform.width w - n * (Waveform.bar_width w + Waveform.bar_gap w)) / 2 in
  0 <= Waveform.bar_width w -> 0 <= Waveform.bar_gap w ->
  0 < Waveform.bar_width w + Waveform.bar_gap w ->
  2 <= Waveform.height w ->
  (i < Z.to_nat n)%nat ->
  2 <= h <= Z.max 2 (Waveform.max_height w) ->
  Waveform.bar_inside (Waveform.width w) (Waveform.height w)
    (Waveform.bar_rectangle w sx i h) = true.
Proof.
  intros n sx Hbw Hbg Hs HH Hi Hh.
  pose proof (max_height_le_height w ltac:(lia)) as Hmh.
  assert (Hn : n * (Waveform.bar_width w + Waveform.bar_gap w) <= Waveform.width w - 20).
  { subst n. unfold Waveform.bars_to_draw in *. rewrite mini_min in *.
    set (s := Waveform.bar_width w + Waveform.bar_gap w) in *.
    set (m := (Waveform.width w - 20) / s) in *.
    assert (Hm : s * m <= Waveform.width w - 20) by (apply Z.mul_div_le; lia).
    assert (0 < Z.min (Waveform.bars w) m) by lia.
    assert (Z.min (Waveform.bars w) m <= m) by lia. nia. }
  assert (Hi' : 0 <= Z.of_nat i < n) by lia.
  unfold Waveform.bar_inside, Waveform.bar_rectangle.
  set (s := Waveform.bar_width w + Waveform.bar_gap w) in *.
  assert (Hsx1 : 10 <= sx).
  { subst sx. apply Z.div_le_lower_bound; lia. }
  assert (Hsx2 : 2 * sx <= Waveform.width w - n * s).
  { subst sx. apply Z.mul_div_le. lia. }
  assert (Hy : 0 <= Waveform.height w / 2 - h / 2 /\
               Waveform.height w / 2 - h / 2 + h <= Waveform.height w).
  { pose proof (Z.div_mod (Waveform.height w) 2 ltac:(lia)).
    pose proof (Z.mod_pos_bound (Waveform.height w) 2 ltac:(lia)).
    pose proof (Z.div_mod h 2 ltac:(lia)).
    pose proof (Z.mod_pos_bound h 2 ltac:(lia)). lia. }
  assert (His : Z.of_nat i * s <= (n - 1) * s) by nia.
  assert (H0 : 0 <= Z.of_nat i * s) by nia.
  repeat (apply andb_true_intro; split);
    first [apply Z.leb_le | apply Z.ltb_lt]; nia.
Qed.

Lemma grid_lines_inside (w : Waveform.t) (width height : Z) :
  Forall (fun it => Waveform.bar_inside width height it = true) (Waveform.grid_lines w).
Proof. unfold Waveform.grid_lines. simpl. repeat constructor. Qed.

(** A draw of a widget with the constructor's bar sizes, whose [heights]
    has 60 entries while it animates. *)
Lemma draw_waveform_widget (w : Waveform.t) (rng : nat -> Z) :
  Waveform.bars w = 60 -> Waveform.bar_width w = 8 -> Waveform.bar_gap w = 2 ->
  (Waveform.animation_running w = true -> length (Waveform.heights w) = 60%nat) ->
  exists hs' canvas,
    Waveform.draw_waveform w rng = Some (Waveform.set_heights w hs', canvas) /\
    length hs' = length (Waveform.heights w) /\
    (Waveform.animation_running w = false ->
     Forall (fun h => h = 2) (Waveform.drawn_heights canvas)) /\
    (2 <= Waveform.height w ->
     Forall (fun it => Waveform.bar_inside (Waveform.width w) (Waveform.height w) it = true)
            canvas) /\
    length (Waveform.drawn_heights canvas) = Z.to_nat (Waveform.bars_to_draw w).
Proof.
  intros Hb Hbw Hbg Hinv.
  destruct (draw_waveform_canvas w rng) as (hs' & hl & E & Hl & Hn & Hall & Hflat).
  { intros Hrun. rewrite (Hinv Hrun). unfold Waveform.bars_to_draw.
    rewrite mini_min, Hb. lia. }
  eexists hs', _. split; [exact E|]. split; [exact Hl|].
  rewrite drawn_heights_app, drawn_heights_grid, drawn_heights_bars
    by (rewrite length_seq; exact Hn).
  cbn [app]. split; [|split; [|exact Hn]].
  - intros Hrun. destruct (Hflat Hrun) as [_ ->].
    apply Forall_forall. intros h Hh. apply list_elem_of_In, repeat_spec in Hh. exact Hh.
  - intros HH. apply Forall_app. split; [apply grid_lines_inside|].
    apply Forall_lookup. intros i it Hi.
    apply lookup_zip_with_Some in Hi as (x & h & -> & Hx & Hh).
    apply lookup_seq in Hx as [-> Hx]. cbn [Nat.add].
    apply bar_rectangle_inside; [lia | lia | lia | exact HH | exact Hx|].
    rewrite Forall_lookup in Hall. exact (Hall i h Hh).
Qed.

(** X8.  Where the bars are drawn.  On a widget in range, with
    non-negative bar width and gap (not both zero), a canvas at least 2
    high and a [heights] list long enough while animating,
    [draw_waveform] returns, and every bar it draws
    lies on the canvas: at least 10 pixels from the left and right borders
    and between the top and the bottom.  The bars stand side by side from
    the centred start, one bar width wide and one gap apart. *)
Theorem bars_lie_on_canvas (w : Waveform.t) (rng : nat -> Z) :
  let n := Waveform.bars_to_draw w in
  let step := Waveform.bar_width w + Waveform.bar_gap w in
  let start_x := (Waveform.width w - n * step) / 2 in
  Waveform.in_range w ->
  0 <= Waveform.bar_width w -> 0 <= Waveform.bar_gap w -> 0 < step ->
  2 <= Waveform.height w ->
  (Waveform.animation_running w = true ->
   (Z.to_nat n <= length (Waveform.heights w))%nat) ->
  exists w' canvas,
    Waveform.draw_waveform w rng = Some (w', canvas) /\
    Forall (fun it => Waveform.bar_inside (Waveform.width w) (Waveform.height w) it = true)
           canvas /\
    Waveform.bar_spans canvas
    = map (fun i : nat => (start_x + Z.of_nat i * step,
                           start_x + Z.of_nat i * step + Waveform.bar_width w))
          (seq 0 (Z.to_nat n)).
Proof.
  intros n step start_x _ Hbw Hbg Hs HH Hinv.
  destruct (draw_waveform_canvas w rng Hinv) as (hs' & hl & E & Hl & Hn & Hall & _).
  fold n step start_x in E.
  eexists _, _. split; [exact E|]. split.
  - apply Forall_app. split; [apply grid_lines_inside|].
    apply Forall_lookup. intros i it Hi.
    apply lookup_zip_with_Some in Hi as (x & h & -> & Hx & Hh).
    apply lookup_seq in Hx as [-> Hx]. cbn [Nat.add].
    apply bar_rectangle_inside; [exact Hbw | exact Hbg | exact Hs | exact HH | exact Hx|].
    rewrite Forall_lookup in Hall. exact (Hall i h Hh).
  - rewrite bar_spans_app, bar_spans_bars by (rewrite length_seq; exact Hn).
    reflexivity.
Qed.

Lemma bars_lie_on_canvas_witness :
  exists w' canvas,
    Waveform.draw_waveform Scenario.display Scenario.rng = Some (w', canvas) /\
    Forall (fun it => Waveform.bar_inside 800 150 it = true) canvas /\
    Waveform.bar_spans canvas
    = map (fun i : nat => (100 + Z.of_nat i * 10, 100 + Z.of_nat i * 10 + 8)) (seq 0 60).
Proof.
  apply (bars_lie_on_canvas Scenario.display Scenario.rng).
  - unfold Waveform.in_range.
    assert (E : Waveform.amplitude Scenario.display == 3 # 4) by (vm_compute; reflexivity).
    rewrite E. split; [cbn; lia|]. split; unfold Qle; simpl; lia.
  - vm_compute. discriminate.
  - vm_compute. discriminate.
  - vm_compute. reflexivity.
  - vm_compute. discriminate.
  - intros _. vm_compute. lia.
Defined.

(** What [update_amplitude] stores for a level that is at least -1. *)
Lemma update_amplitude_range (a : Q) :
  (- 1 <= a)%Q ->
  (- 2 <= Py.min 1 (Float.mul a (15 # 10)))%Q /\
  (Py.min 1 (Float.mul a (15 # 10)) <= 1)%Q.
Proof.
  intros Ha. unfold Py.min, Float.mul.
  set (x := (a * (15 # 10))%Q).
  destruct (Qlt_le_dec (Float.round x) 1) as [Hlt|Hge]; [|split; lra].
  split; [|lra].
  destruct (Qlt_le_dec x 0) as [Hn|Hp].
  - rewrite (round_neg x Hn).
    assert (H2 : (Float.round (- x) <= 2 ^ 1)%Q).
    { apply round_lt_pow; [unfold Float.emin; lia | lra |].
      change (2 ^ 1)%Q with 2%Q. unfold x. lra. }
    change (2 ^ 1)%Q with 2%Q in H2. lra.
  - pose proof (round_nonneg x Hp). lra.
Qed.

(** What every method call keeps true of a widget [s] that was constructed
    [h] high. *)
Local Abbreviation widget_ok :=
  (fun (h : Z) (s : Waveform.widget) =>
   Waveform.height (fst s) = h /\
   Waveform.bars (fst s) = 60 /\ Waveform.bar_width (fst s) = 8 /\
   Waveform.bar_gap (fst s) = 2 /\
   (- 2 <= Waveform.amplitude (fst s))%Q /\
   (Waveform.amplitude (fst s) <= 1)%Q /\
   (Waveform.animation_running (fst s) = true ->
    length (Waveform.heights (fst s)) = 60%nat) /\
   (Waveform.animation_running (fst s) = false ->
    Forall (fun x => x = 2) (Waveform.drawn_heights (snd s))) /\
   (2 <= h ->
    Forall (fun it => Waveform.bar_inside (Waveform.width (fst s)) h it = true) (snd s)) /\
   length (Waveform.drawn_heights (snd s)) = Z.to_nat (Waveform.bars_to_draw (fst s))).

Lemma widget_draw_ok (h : Z) (w : Waveform.t) (rng : nat -> Z) :
  Waveform.height w = h ->
  Waveform.bars w = 60 -> Waveform.bar_width w = 8 -> Waveform.bar_gap w = 2 ->
  (- 2 <= Waveform.amplitude w)%Q ->
  (Waveform.amplitude w <= 1)%Q ->
  (Waveform.animation_running w = true -> length (Waveform.heights w) = 60%nat) ->
  exists s', Waveform.draw_waveform w rng = Some s' /\ widget_ok h s'.
Proof.
  intros Hh Hb Hbw Hbg Ha0 Ha Hinv.
  destruct (draw_waveform_widget w rng Hb Hbw Hbg Hinv)
    as (hs' & canvas & E & Hl & Hflat & Hin & Hn).
  exists (Waveform.set_heights w hs', canvas). split; [exact E|].
  cbn [fst snd Waveform.set_heights Waveform.height Waveform.bars Waveform.bar_width
       Waveform.bar_gap Waveform.amplitude Waveform.animation_running Waveform.heights
       Waveform.width].
  repeat split; try assumption.
  - intros Hrun. rewrite Hl. exact (Hinv Hrun).
  - rewrite <- Hh. exact Hin.
Qed.

Lemma call_method_ok (h : Z) (s : Waveform.widget) (c : Waveform.call) :
  Waveform.call_in_range c ->
  widget_ok h s -> exists s', Waveform.call_method s c = Some s' /\ widget_ok h s'.
Proof.
  destruct s as [w canvas]. cbn [fst snd].
  intros Hc (Hh & Hb & Hbw & Hbg & Ha0 & Ha & Hinv & Hflat & Hin & Hn).
  destruct c as [x rng | rng | a | | rng | rng rng']; cbn [Waveform.call_method fst snd].
  - unfold Waveform.on_resize. cbn [fst snd]. destruct (x >? 1).
    + apply widget_draw_ok; assumption.
    + exists (w, canvas). split; [reflexivity|]. cbn [fst snd]. repeat split; assumption.
  - apply widget_draw_ok; assumption.
  - eexists. split; [reflexivity|]. cbn [fst snd].
    destruct Hc as [Hc _]. destruct (update_amplitude_range a Hc) as [Hlo Hhi].
    unfold Waveform.update_amplitude, Waveform.set_amplitude.
    cbn [Waveform.height Waveform.bars Waveform.bar_width Waveform.bar_gap
         Waveform.amplitude Waveform.animation_running Waveform.heights Waveform.width].
    repeat split; assumption.
  - eexists. split; [reflexivity|]. cbn [fst snd].
    unfold Waveform.start_animation, Waveform.set_heights, Waveform.set_animation_running.
    cbn [Waveform.height Waveform.bars Waveform.bar_width Waveform.bar_gap
         Waveform.amplitude Waveform.animation_running Waveform.heights Waveform.width].
    repeat split; try assumption.
    + intros _. rewrite repeat_length, Hb. reflexivity.
    + discriminate.
  - unfold Waveform.stop_animation. apply widget_draw_ok; try assumption.
    + cbn. lra.
    + cbn. lra.
    + discriminate.
  - unfold Waveform.reset, Waveform.stop_animation.
    destruct (widget_draw_ok h
                (Waveform.set_amplitude (Waveform.set_animation_running w false) 0) rng)
      as ([w1 c1] & -> & Hh1 & Hb1 & Hbw1 & Hbg1 & Ha01 & Ha1 & Hinv1 & _);
      try assumption; [cbn; lra | cbn; lra | discriminate |].
    cbn [fst snd] in *.
    apply widget_draw_ok; try assumption.
    + cbn. lra.
    + cbn. lra.
    + intros _. cbn. rewrite repeat_length, Hb1. reflexivity.
Qed.

Lemma call_methods_ok (h : Z) (cs : list Waveform.call) :
  Forall Waveform.call_in_range cs ->
  forall s : Waveform.widget,
    widget_ok h s -> exists s', Waveform.call_methods s cs = Some s' /\ widget_ok h s'.
Proof.
  induction cs as [|c cs IH]; intros Hcs s Hs.
  - exists s. split; [reflexivity | exact Hs].
  - apply Forall_cons in Hcs as [Hc Hcs]. cbn [Waveform.call_methods].
    destruct (call_method_ok h s c Hc Hs) as (s1 & -> & Hs1).
    exact (IH Hcs s1 Hs1).
Qed.

(** X9.  The widget in use.  Let a widget be constructed with a height that
    fits 32 bits, and let its methods be called in whatever order, the
    levels given to [update_amplitude] being of magnitude at most 1.  Then
    no call raises (in particular [draw_waveform] never indexes [heights]
    out of range), and afterwards the widget is in range: the height is the
    one given to the constructor, there are 60 bars of width 8 and gap 2,
    the amplitude is between -2 and 1, [heights] has 60 entries while the
    animation runs, the canvas shows as many bars as fit the current width,
    on a canvas at least 2 high every bar lies on the canvas, and whenever
    the animation is not running the canvas shows the flat line of bars 2
    high. *)
Theorem widget_never_raises (width height : Z) (rng : nat -> Z)
        (cs : list Waveform.call) :
  - 2 ^ 31 <= height < 2 ^ 31 ->
  Forall Waveform.call_in_range cs ->
  exists w canvas,
    Waveform.session width height rng cs = Some (w, canvas) /\
    Waveform.in_range w /\
    Waveform.height w = height /\
    Waveform.bars w = 60 /\ Waveform.bar_width w = 8 /\ Waveform.bar_gap w = 2 /\
    (Waveform.amplitude w <= 1)%Q /\
    (Waveform.animation_running w = true -> length (Waveform.heights w) = 60%nat) /\
    (Waveform.animation_running w = false ->
     Forall (fun x => x = 2) (Waveform.drawn_heights canvas)) /\
    (2 <= height ->
     Forall (fun it => Waveform.bar_inside (Waveform.width w) height it = true) canvas) /\
    length (Waveform.drawn_heights canvas) = Z.to_nat (Waveform.bars_to_draw w).
Proof.
  intros Hheight Hcs. unfold Waveform.session, Waveform.create.
  destruct (widget_draw_ok height (Waveform.init width height) rng)
    as (s0 & -> & H0); try reflexivity; [cbn; lra | cbn; lra | discriminate |].
  destruct (call_methods_ok height cs Hcs s0 H0) as ([w canvas] & -> & H).
  cbn [fst snd] in H.
  destruct H as (Hh & Hb & Hbw & Hbg & Ha0 & Ha & Hinv & Hflat & Hin & Hn).
  exists w, canvas. split; [reflexivity|].
  split.
  { unfold Waveform.in_range. rewrite Hh. split; [exact Hheight|]. split; lra. }
  repeat split; assumption.
Qed.

Lemma widget_never_raises_witness :
  exists w canvas,
    Waveform.session 800 150 Scenario.rng
      [Waveform.StartAnimation; Waveform.UpdateAmplitude (9 # 10);
       Waveform.DrawWaveform Scenario.rng; Waveform.OnResize 300 Scenario.rng;
       Waveform.Reset Scenario.rng Scenario.rng]
    = Some (w, canvas) /\
    Forall (fun x => x = 2) (Waveform.drawn_heights canvas) /\
    Forall (fun it => Waveform.bar_inside (Waveform.width w) 150 it = true) canvas.
Proof.
  destruct (widget_never_raises 800 150 Scenario.rng
              [Waveform.StartAnimation; Waveform.UpdateAmplitude (9 # 10);
               Waveform.DrawWaveform Scenario.rng; Waveform.OnResize 300 Scenario.rng;
               Waveform.Reset Scenario.rng Scenario.rng])
    as (w & canvas & E & _ & _ & _ & _ & _ & _ & _ & Hflat & Hin & _).
  { lia. }
  { repeat constructor; unfold Qle; simpl; lia. }
  exists w, canvas. split; [exact E|]. split.
  - apply Hflat.
    assert (Hr : option_map (fun s => Waveform.animation_running (fst s))
                   (Waveform.session 800 150 Scenario.rng
                      [Waveform.StartAnimation; Waveform.UpdateAmplitude (9 # 10);
                       Waveform.DrawWaveform Scenario.rng;
                       Waveform.OnResize 300 Scenario.rng;
                       Waveform.Reset Scenario.rng Scenario.rng])
                 = Some false) by (vm_compute; reflexivity).
    rewrite E in Hr. cbn in Hr. injection Hr as Hr. exact Hr.
  - apply Hin. lia.
Defined.

(** ** utils.py: the whole seconds [format_time] shows *)

Lemma Qfloor_unique (z : Z) (x : Q) :
  (inject_Z z <= x)%Q -> (x < inject_Z z + 1)%Q -> Qfloor x = z.
Proof.
  intros Hlo Hhi.
  pose proof (Qfloor_le x) as H1. pose proof (Qlt_floor x) as H2.
  rewrite inject_Z_plus in H2. change (inject_Z 1) with 1%Q in H2.
  assert (Ha : (inject_Z (Qfloor x) < inject_Z (z + 1))%Q).
  { rewrite inject_Z_plus. change (inject_Z 1) with 1%Q. lra. }
  assert (Hb : (inject_Z z < inject_Z (Qfloor x + 1))%Q).
  { rewrite inject_Z_plus. change (inject_Z 1) with 1%Q. lra. }
  rewrite <- Zlt_Qlt in Ha, Hb. lia.
Qed.

Lemma minutes_seconds_floor (x : Q) :
  60 * Utils.minutes_of x + Utils.seconds_of x = Qfloor x.
Proof.
  unfold Utils.minutes_of, Utils.seconds_of, Py.floordiv. rewrite int_inject_Z.
  destruct (fmod_range x 60) as [H0 H1]; [reflexivity|].
  set (q := Qfloor (x / 60)) in *.
  assert (Hint : Py.int (Py.fmod x 60) = Qfloor (Py.fmod x 60)).
  { unfold Py.int. destruct (Qle_bool 0 (Py.fmod x 60)) eqn:E; [reflexivity|].
    apply (proj2 (Qle_bool_iff _ _)) in H0. congruence. }
  rewrite Hint. symmetry. apply Qfloor_unique.
  - pose proof (Qfloor_le (Py.fmod x 60)) as Hf.
    rewrite inject_Z_plus, inject_Z_mult. change (inject_Z 60) with 60%Q.
    unfold Py.fmod in *. fold q in Hf |- *. lra.
  - pose proof (Qlt_floor (Py.fmod x 60)) as Hf.
    rewrite inject_Z_plus in Hf. change (inject_Z 1) with 1%Q in Hf.
    rewrite inject_Z_plus, inject_Z_mult. change (inject_Z 60) with 60%Q.
    unfold Py.fmod in *. fold q in Hf |- *. lra.
Qed.

(** X10.  The minutes and seconds that [format_time] shows are the whole
    seconds of its argument, rounded down: for a time [x] from 0 to below
    6000 seconds the minutes are [floor(x) // 60] and the seconds
    [floor(x) % 60], so that a second is never shown before it has fully
    elapsed, and the text is those two numbers in two digits each, a dot
    and one digit. *)
Theorem format_time_whole_seconds (x : Q) :
  (0 <= x)%Q -> (x < 6000)%Q ->
  Utils.minutes_of x = Qfloor x / 60 /\
  Utils.seconds_of x = Qfloor x mod 60 /\
  exists t : Z,
    0 <= t <= 9 /\
    Utils.format_time x
    = Py.two_digits (Qfloor x / 60)
        (String ":" (Py.two_digits (Qfloor x mod 60)
           (String "." (String (Py.digit t) EmptyString)))).
Proof.
  intros H0 H6.
  pose proof (minutes_seconds_floor x) as Hf.
  pose proof (seconds_of_range x) as Hs.
  assert (Hm : Utils.minutes_of x = Qfloor x / 60).
  { apply (Z.div_unique (Qfloor x) 60 _ (Utils.seconds_of x)); lia. }
  assert (Hsec : Utils.seconds_of x = Qfloor x mod 60).
  { apply (Z.mod_unique (Qfloor x) 60 (Utils.minutes_of x)); lia. }
  split; [exact Hm|]. split; [exact Hsec|].
  pose proof (floordiv_nonneg x H0) as Hm0.
  pose proof (minutes_lt_100 x H6) as Hm1.
  pose proof (tenths_of_range x) as Ht.
  exists (Utils.tenths_of x). split; [lia|].
  rewrite format_time_unfold, <- Hm, <- Hsec.
  rewrite !format_02d_small by lia.
  unfold Py.str, Py.format_0d. destruct (Z.ltb_spec (Utils.tenths_of x) 0); [lia|].
  unfold Py.zfill. rewrite str_nat_1 by lia. reflexivity.
Qed.

Lemma format_time_whole_seconds_witness :
  Utils.minutes_of (35999 # 10) = Qfloor (35999 # 10) / 60 /\
  Utils.seconds_of (35999 # 10) = Qfloor (35999 # 10) mod 60 /\
  exists t : Z,
    0 <= t <= 9 /\
    Utils.format_time (35999 # 10)
    = Py.two_digits (Qfloor (35999 # 10) / 60)
        (String ":" (Py.two_digits (Qfloor (35999 # 10) mod 60)
           (String "." (String (Py.digit t) EmptyString)))).
Proof.
  apply (format_time_whole_seconds (35999 # 10)).
  - unfold Qle; simpl; lia.
  - unfold Qlt; simpl; lia.
Defined.
